(** * javanevisan: the Express server of [server.js]

    A shallow embedding of the request handlers of [server.js] together with
    the small part of the JavaScript semantics they rely on: truthiness,
    [typeof], strict equality, [Array.prototype.join],
    [Number.prototype.toString] on integers and [String.prototype.slice].

    The second variant of the server differs from [server.js] only in the
    mail notification of the submission handler, which is sent after the row
    is stored, inside a [try] block and without being awaited. The handlers
    are those of [server.js]; the variant is modelled on top of them in
    [Mail], and shown to store and answer the same.

    Handlers are functions from an environment (what the process observes
    from the outside world while it serves one request: the clock, I/O
    faults), a server state (the SQLite tables, the session store, the
    landing-page file) and a request to a new state and an outcome. *)

From Stdlib Require Import ZArith Lia Ascii String List Sorting.Sorted Permutation.
From stdpp Require Import base tactics option list sorting strings gmap.

Set Warnings "-register-all".

Open Scope string_scope.
Open Scope Z_scope.

(** ** JavaScript values and the operators the handlers use *)

Module JS.

(** Values a parsed request body (urlencoded or JSON) can hold.  Numbers are
    the integer-valued ones, which is what [Date.now()] produces. *)
Inductive Value : Type :=
  | Undefined
  | Null
  | Bool (b : bool)
  | Num (n : Z)
  | Str (s : string)
  | Arr (xs : list Value)
  | Obj (fields : list (string * Value)).

Inductive Error : Type :=
  | TypeError (msg : string)
  | RangeError (msg : string)
  | SqliteError (msg : string)
  | SystemError (msg : string).

(** The result of evaluating a statement that may throw. *)
Inductive Completion (A : Type) : Type :=
  | Normal (a : A)
  | Throw (e : Error).
Arguments Normal {A} a.
Arguments Throw {A} e.

Definition bind {A B} (c : Completion A) (k : A -> Completion B) : Completion B :=
  match c with
  | Normal a => k a
  | Throw e => Throw e
  end.

(** [ToBoolean] *)
Definition truthy (v : Value) : bool :=
  match v with
  | Undefined | Null => false
  | Bool b => b
  | Num n => negb (n =? 0)
  | Str s => negb (String.eqb s "")
  | Arr _ | Obj _ => true
  end.

(** [a || b] *)
Definition or (a b : Value) : Value := if truthy a then a else b.

Inductive Type_ : Set := TUndefined | TObject | TBoolean | TNumber | TString.

(** [typeof v] *)
Definition typeof (v : Value) : Type_ :=
  match v with
  | Undefined => TUndefined
  | Null | Arr _ | Obj _ => TObject
  | Bool _ => TBoolean
  | Num _ => TNumber
  | Str _ => TString
  end.

(** [v === s] for a string [s] *)
Definition strict_eq_string (v : Value) (s : string) : bool :=
  match v with
  | Str s' => String.eqb s' s
  | _ => false
  end.

(** *** [Number.prototype.toString] on integers *)

Definition digit_char (d : Z) : ascii := ascii_of_nat (48 + Z.to_nat d).

(** The decimal digits of a non-negative integer, most significant first.
    [fuel] bounds the number of digits produced. *)
Fixpoint digits (fuel : nat) (n : Z) (acc : string) : string :=
  match fuel with
  | O => acc
  | S fuel' =>
      let acc' := String (digit_char (n mod 10)) acc in
      if n <? 10 then acc' else digits fuel' (n / 10) acc'
  end.

(** An integer has no more decimal digits than binary ones. *)
Definition digits_fuel (n : Z) : nat := S (Z.to_nat (Z.log2 n)).

Definition decimal (n : Z) : string := digits (digits_fuel n) n "".

(** Exact below 10^21, where JavaScript switches to exponent notation; epoch
    milliseconds stay below 8.64 * 10^15. *)
Definition Number_toString (n : Z) : string :=
  if n <? 0 then String "-" (decimal (- n)) else decimal n.

(** *** [String.prototype.slice(start)] *)

Definition slice (s : string) (start : Z) : string :=
  let len := Z.of_nat (String.length s) in
  let from := if start <? 0 then Z.max (len + start) 0 else Z.min start len in
  String.substring (Z.to_nat from) (Z.to_nat (len - from)) s.

(** *** [ToString] and [Array.prototype.join] *)

Fixpoint join_strings (sep : string) (l : list string) : string :=
  match l with
  | [] => ""
  | [s] => s
  | s :: l' => s ++ sep ++ join_strings sep l'
  end.

(** Whether a parsed object has an entry of its own under [key]. *)
Fixpoint has_key (key : string) (fields : list (string * Value)) : bool :=
  match fields with
  | [] => false
  | (k, _) :: rest => String.eqb k key || has_key key rest
  end.

(** [ToString]. An array is converted by joining its elements with a comma.
    A parsed object without a [toString] entry of its own is converted by
    [Object.prototype.toString]; one with such an entry cannot be converted,
    since the entry is parsed data and not a function, and the inherited
    [valueOf] gives back the object. *)
Fixpoint toString (v : Value) : Completion string :=
  match v with
  | Undefined => Normal "undefined"
  | Null => Normal "null"
  | Bool true => Normal "true"
  | Bool false => Normal "false"
  | Num n => Normal (Number_toString n)
  | Str s => Normal s
  | Arr xs =>
      bind
        ((fix elems (l : list Value) : Completion (list string) :=
            match l with
            | [] => Normal []
            | x :: l' =>
                bind
                  match x with
                  | Undefined | Null => Normal ""
                  | _ => toString x
                  end
                  (fun s => bind (elems l') (fun ss => Normal (s :: ss)))
            end) xs)
        (fun ss => Normal (join_strings "," ss))
  | Obj fields =>
      if has_key "toString" fields
      then Throw (TypeError "Cannot convert object to primitive value")
      else Normal "[object Object]"
  end.

(** The string an array element contributes to [join]. *)
Definition join_elem (v : Value) : Completion string :=
  match v with
  | Undefined | Null => Normal ""
  | _ => toString v
  end.

(** The elements of an array converted from left to right; the first one
    that cannot be converted ends the conversion. *)
Fixpoint join_elems (xs : list Value) : Completion (list string) :=
  match xs with
  | [] => Normal []
  | x :: xs' =>
      bind (join_elem x) (fun s => bind (join_elems xs') (fun ss => Normal (s :: ss)))
  end.

(** [xs.join(sep)] on an array *)
Definition Array_join (xs : list Value) (sep : string) : Completion string :=
  bind (join_elems xs) (fun ss => Normal (join_strings sep ss)).

(** [v.join(sep)] on any value: only arrays have a callable [join]; a body
    parser builds strings, numbers, booleans and plain objects, none of
    which has one (a property named [join] of a parsed object is itself
    parsed data, not a function). *)
Definition call_join (v : Value) (sep : string) : Completion string :=
  match v with
  | Arr xs => Array_join xs sep
  | Undefined | Null => Throw (TypeError "Cannot read properties of undefined")
  | _ => Throw (TypeError "services.join is not a function")
  end.

(** [obj.key] on a parsed body *)
Fixpoint get (fields : list (string * Value)) (key : string) : Value :=
  match fields with
  | [] => Undefined
  | (k, v) :: rest => if String.eqb k key then v else get rest key
  end.

End JS.

(** ** The SQLite store behind [better-sqlite3] *)

Module Sqlite.

(** A value bound to a statement parameter. JavaScript numbers are bound as
    REAL. *)
Inductive SqlValue : Type :=
  | SNull
  | SReal (n : Z)
  | SText (s : string).

Definition cannot_bind : JS.Error :=
  JS.TypeError "SQLite3 can only bind numbers, strings, bigints, buffers, and null".

(** One value for one positional parameter. *)
Definition bind_value (v : JS.Value) : JS.Completion SqlValue :=
  match v with
  | JS.Undefined | JS.Null => JS.Normal SNull
  | JS.Num n => JS.Normal (SReal n)
  | JS.Str s => JS.Normal (SText s)
  | JS.Bool _ | JS.Arr _ | JS.Obj _ => JS.Throw cannot_bind
  end.

Fixpoint bind_array (xs : list JS.Value) : JS.Completion (list SqlValue) :=
  match xs with
  | [] => JS.Normal []
  | x :: xs' =>
      JS.bind (bind_value x) (fun p =>
      JS.bind (bind_array xs') (fun ps => JS.Normal (p :: ps)))
  end.

(** The arguments of [run] or [get]: an array argument spreads into
    positional parameters, a plain object carries named parameters (of
    which the statements of this server have none, so it binds nothing) and
    at most one object is accepted. *)
Fixpoint bind_arguments (args : list JS.Value) (bound_object : bool)
  : JS.Completion (list SqlValue) :=
  match args with
  | [] => JS.Normal []
  | JS.Arr xs :: args' =>
      JS.bind (bind_array xs) (fun ps =>
      JS.bind (bind_arguments args' bound_object) (fun qs => JS.Normal (ps ++ qs)%list))
  | JS.Obj _ :: args' =>
      if bound_object
      then JS.Throw (JS.TypeError "You cannot specify named parameters in two different objects")
      else bind_arguments args' true
  | v :: args' =>
      JS.bind (bind_value v) (fun p =>
      JS.bind (bind_arguments args' bound_object) (fun qs => JS.Normal (p :: qs)))
  end.

(** Binding [args] to a statement with [nparams] anonymous parameters. *)
Definition bind_parameters (args : list JS.Value) (nparams : nat)
  : JS.Completion (list SqlValue) :=
  JS.bind (bind_arguments args false) (fun ps =>
    if (length ps <? nparams)%nat
    then JS.Throw (JS.RangeError "Too few parameter values were provided")
    else if (nparams <? length ps)%nat
    then JS.Throw (JS.RangeError "Too many parameter values were provided")
    else JS.Normal ps).

(** SQLite's text rendering of an integer-valued REAL (exact below 10^15). *)
Definition real_to_text (n : Z) : string := JS.Number_toString n ++ ".0".

(** TEXT column affinity: what a bound value becomes in a TEXT column, and
    in a comparison with one. [None] is NULL. *)
Definition text_affinity (v : SqlValue) : option string :=
  match v with
  | SNull => None
  | SReal n => Some (real_to_text n)
  | SText s => Some s
  end.

(** [date(ts)] of a timestamp written by [datetime('now')], that is
    [YYYY-MM-DD HH:MM:SS]. *)
Definition date (ts : string) : string := String.substring 0 10 ts.

Record Submission : Type := {
  sub_id : Z;
  sub_name : option string;
  sub_phone : option string;
  sub_email : option string;
  sub_services : option string;
  sub_message : option string;
  sub_customer_number : option string;
  sub_submission_date : option string;
  sub_created_at : string
}.

Record Visit : Type := {
  visit_id : Z;
  visit_ip : string;
  visit_ua : string;
  visit_path : string;
  visit_ts : string
}.

(** The three tables; [admins] is keyed by its primary key [username]. *)
Record Database : Type := {
  submissions : list Submission;
  visits : list Visit;
  admins : gmap string string
}.

(** The next AUTOINCREMENT id of a table whose rows are never deleted. *)
Definition next_id (ids : list Z) : Z := 1 + foldr Z.max 0 ids.

Definition store_fault : JS.Error := JS.SqliteError "database or disk is full".

(** [INSERT INTO visits (ip, ua, path) VALUES (?, ?, ?)]; [faulty] says that
    the store rejects the write. *)
Definition insert_visit (faulty : bool) (now : string) (db : Database)
    (ip ua path : string) : JS.Completion Database :=
  if faulty then JS.Throw store_fault
  else JS.Normal {|
    submissions := submissions db;
    visits := (visits db ++
      [{| visit_id := next_id (map visit_id (visits db));
          visit_ip := ip; visit_ua := ua; visit_path := path; visit_ts := now |}])%list;
    admins := admins db |}.

(** [INSERT INTO submissions (name, phone, email, services, message,
    customer_number, submission_date) VALUES (?, ?, ?, ?, ?, ?, ?)] *)
Definition insert_submission (faulty : bool) (now : string) (db : Database)
    (args : list JS.Value) : JS.Completion Database :=
  JS.bind (bind_parameters args 7) (fun ps =>
    match map text_affinity ps with
    | [name; phone; email; services; message; customer_number; submission_date] =>
        if faulty then JS.Throw store_fault
        else JS.Normal {|
          submissions := (submissions db ++
            [{| sub_id := next_id (map sub_id (submissions db));
                sub_name := name; sub_phone := phone; sub_email := email;
                sub_services := services; sub_message := message;
                sub_customer_number := customer_number;
                sub_submission_date := submission_date;
                sub_created_at := now |}])%list;
          visits := visits db;
          admins := admins db |}
    | _ => JS.Throw (JS.RangeError "Too few parameter values were provided")
    end).

(** [INSERT OR REPLACE INTO admins (username, password) VALUES (?, ?)] *)
Definition insert_or_replace_admin (db : Database) (username password : string)
  : Database :=
  {| submissions := submissions db;
     visits := visits db;
     admins := <[username := password]> (admins db) |}.

Record AdminRow : Type := { username : string; password : string }.

(** [SELECT * FROM admins WHERE username = ?] with [get]: the first row or
    [undefined] ([None]). *)
Definition select_admin (db : Database) (arg : JS.Value)
  : JS.Completion (option AdminRow) :=
  JS.bind (bind_parameters [arg] 1) (fun ps =>
    match map text_affinity ps with
    | [Some u] =>
        JS.Normal
          (match admins db !! u with
           | Some p => Some {| username := u; password := p |}
           | None => None
           end)
    | _ => JS.Normal None
    end).

(** [GROUP BY key] with [COUNT( * )]: one entry per distinct key. *)
Definition group_count {A K} `{EqDecision K} (key : A -> K) (rows : list A)
  : list (K * nat) :=
  (fun k => (k, length (filter (fun r => key r = k) rows)))
    <$> remove_dups (key <$> rows).

(** [ORDER BY day DESC] on text, [ORDER BY visits DESC] on counts and
    [ORDER BY id DESC]. *)
Definition day_desc (a b : string * nat) : Prop := String.le (fst b) (fst a).
Definition count_desc (a b : string * nat) : Prop := (snd b <= snd a)%nat.
Definition visit_id_desc (a b : Visit) : Prop := visit_id b <= visit_id a.
Definition sub_id_desc (a b : Submission) : Prop := sub_id b <= sub_id a.

#[global] Instance day_desc_dec : RelDecision day_desc.
Proof. intros a b. unfold day_desc. apply _. Defined.
#[global] Instance count_desc_dec : RelDecision count_desc.
Proof. intros a b. unfold count_desc. apply _. Defined.
#[global] Instance visit_id_desc_dec : RelDecision visit_id_desc.
Proof. intros a b. unfold visit_id_desc. apply _. Defined.
#[global] Instance sub_id_desc_dec : RelDecision sub_id_desc.
Proof. intros a b. unfold sub_id_desc. apply _. Defined.

(** [SELECT COUNT( * ) as c FROM visits] *)
Definition count_visits (db : Database) : nat := length (visits db).

(** [SELECT COUNT( * ) as c FROM visits WHERE date(ts)=date('now')] *)
Definition count_visits_today (now : string) (db : Database) : nat :=
  length (filter (fun v => date (visit_ts v) = date now) (visits db)).

(** [SELECT COUNT( * ) as c FROM submissions] *)
Definition count_submissions (db : Database) : nat := length (submissions db).

(** [SELECT * FROM submissions ORDER BY id DESC] *)
Definition submissions_desc (db : Database) : list Submission :=
  merge_sort sub_id_desc (submissions db).

(** [SELECT * FROM visits ORDER BY id DESC LIMIT 1000] *)
Definition visits_desc_1000 (db : Database) : list Visit :=
  take 1000 (merge_sort visit_id_desc (visits db)).

(** [SELECT date(ts) as day, COUNT( * ) as visits FROM visits
     GROUP BY date(ts) ORDER BY day DESC LIMIT 30] *)
Definition visits_by_day (db : Database) : list (string * nat) :=
  take 30 (merge_sort day_desc (group_count (fun v => date (visit_ts v)) (visits db))).

(** [SELECT path, COUNT( * ) as visits FROM visits GROUP BY path
     ORDER BY visits DESC] *)
Definition visits_by_path (db : Database) : list (string * nat) :=
  merge_sort count_desc (group_count visit_path (visits db)).

End Sqlite.

(** ** The server *)

Module Server.
Import Sqlite.

Definition ADMIN_USERNAME : string := "admin".
Definition ADMIN_PASSWORD : string := "erfan9028@".
Definition LOGIN_ERROR : string := "نام کاربری یا رمز عبور نادرست است".
Definition LANDING_URL : string := "/landing.html".

Inductive Method : Set := GET | HEAD | POST | PUT | DELETE | PATCH | OPTIONS.

#[global] Instance Method_eq_dec : EqDecision Method.
Proof. solve_decision. Defined.

(** What the handlers read of a request; [body] is [req.body] as left by the
    body parsers and [cookie] the session id of the session cookie. *)
Record Request : Type := {
  method : Method;
  path : string;
  x_forwarded_for : option string;
  user_agent : option string;
  remote_address : option string;
  body : list (string * JS.Value);
  cookie : option string
}.

(** The data of a session: the authenticated-username marker [user]. *)
Record Session : Type := { user : JS.Value }.

Definition new_session : Session := {| user := JS.Undefined |}.

(** What the process observes of the outside world while serving one
    request. *)
Record Env : Type := {
  request_start : Z;        (* epoch milliseconds when the request arrived *)
  elapsed : N;              (* milliseconds until the handler reads the clock *)
  locale_now : string;      (* new Date().toLocaleString('fa-IR') *)
  sql_now : string;         (* datetime('now') *)
  store_rejects : bool;     (* the SQLite write of this request fails *)
  read_fails : bool;        (* reading a present landing file fails *)
  write_fails : bool;       (* writing the landing file fails *)
  static_file : option string; (* the other file of public/ the path names *)
  fresh_sid : string        (* the id given to a new session *)
}.

(** [Date.now()] *)
Definition Date_now (env : Env) : Z := request_start env + Z.of_N (elapsed env).

Record State : Type := {
  db : Database;
  sessions : gmap string Session;
  landing : option string   (* public/landing.html, when present *)
}.

(** The statements run when the process starts, on the store it finds. *)
Definition startup (st : State) : State :=
  {| db := insert_or_replace_admin (db st) ADMIN_USERNAME ADMIN_PASSWORD;
     sessions := sessions st;
     landing := landing st |}.

Inductive View : Type :=
  | LoginView (error : option string)
  | DashboardView (totalVisits todayVisits totalSubmissions : nat)
                  (last10 : list Submission)
  | SubmissionsView (rows : list Submission)
  | VisitsView (rows : list Visit)
  | EditorView (content : string).

Inductive Json : Type :=
  | SubmitAck (customerNumber submissionDate : string)
  | Stats (total today : nat) (byDay byPath : list (string * nat)).

Inductive Response : Type :=
  | Render (status : Z) (view : View)
  | Redirect (location : string)
  | SendJson (json : Json)
  | SendFile (name : string)
  | StaticFile (content : string)
  | NotFound
  | InternalServerError (e : JS.Error).

(** How a middleware ends: it calls [next()], ends the response, or throws. *)
Inductive Outcome : Type :=
  | Next
  | Respond (r : Response)
  | Raise (e : JS.Error).

(** The request in flight: the server state, and [req.session] with its id
    and whether it was assigned to. *)
Record Ctx : Type := {
  state : State;
  session_id : string;
  session : option Session;
  modified : bool
}.

Definition Middleware : Type := Env -> Request -> Ctx -> Ctx * Outcome.

Definition with_db (c : Ctx) (d : Database) : Ctx :=
  {| state := {| db := d; sessions := sessions (state c); landing := landing (state c) |};
     session_id := session_id c; session := session c; modified := modified c |}.

Definition with_landing (c : Ctx) (content : string) : Ctx :=
  {| state := {| db := db (state c); sessions := sessions (state c);
                 landing := Some content |};
     session_id := session_id c; session := session c; modified := modified c |}.

(** [req.session.user = v] *)
Definition set_session_user (c : Ctx) (v : JS.Value) : Ctx :=
  {| state := state c; session_id := session_id c;
     session := Some {| user := v |}; modified := true |}.

(** [req.session.destroy(cb)]: the store forgets the session and
    [req.session] is deleted. *)
Definition destroy_session (c : Ctx) : Ctx :=
  {| state := {| db := db (state c);
                 sessions := delete (session_id c) (sessions (state c));
                 landing := landing (state c) |};
     session_id := session_id c; session := None; modified := false |}.

(** [s || fallback] on a string that may be [undefined] *)
Definition or_string (s : option string) (fallback : string) : string :=
  match s with
  | Some (String a s') => String a s'
  | _ => fallback
  end.

(** [s.split(',')[0]] *)
Fixpoint before_comma (s : string) : string :=
  match s with
  | EmptyString => EmptyString
  | String a s' => if Ascii.eqb a "," then EmptyString else String a (before_comma s')
  end.

(** Track visits middleware *)
Definition track_visits : Middleware := fun env req c =>
  if String.prefix "/admin" (path req) || String.prefix "/api" (path req)
  then (c, Next)
  else
    let ip :=
      or_string (option_map before_comma (x_forwarded_for req))
        (or_string (remote_address req) "unknown") in
    let ua := or_string (user_agent req) "unknown" in
    let pathStr := or_string (Some (path req)) "/" in
    match insert_visit (store_rejects env) (sql_now env) (db (state c)) ip ua pathStr with
    | JS.Throw e => (c, Raise e)
    | JS.Normal d => (with_db c d, Next)
    end.

(** The file of [public/] a path names. *)
Definition public_file (env : Env) (st : State) (p : string) : option string :=
  if String.eqb p LANDING_URL then landing st else static_file env.

(** [express.static]: serves GET and HEAD requests that name a file. *)
Definition serve_static : Middleware := fun env req c =>
  match method req with
  | GET | HEAD =>
      match public_file env (state c) (path req) with
      | Some content => (c, Respond (StaticFile content))
      | None => (c, Next)
      end
  | _ => (c, Next)
  end.

(** [req.session?.user === ADMIN_USERNAME] *)
Definition session_is_admin (s : option Session) : bool :=
  match s with
  | Some s' => JS.strict_eq_string (user s') ADMIN_USERNAME
  | None => false
  end.

Definition requireAuth : Middleware := fun env req c =>
  if session_is_admin (session c) then (c, Next)
  else (c, Respond (Redirect "/admin/login")).

Definition get_admin_login : Middleware := fun env req c =>
  (c, Respond (Render 200 (LoginView None))).

Definition post_admin_login : Middleware := fun env req c =>
  let username := JS.get (body req) "username" in
  let password := JS.get (body req) "password" in
  match select_admin (db (state c)) username with
  | JS.Throw e => (c, Raise e)
  | JS.Normal row =>
      match row with
      | Some r =>
          if JS.strict_eq_string password (Sqlite.password r)
          then
            match session c with
            | Some _ =>
                (set_session_user c (JS.Str ADMIN_USERNAME), Respond (Redirect "/admin"))
            | None =>
                (c, Raise (JS.TypeError "Cannot set properties of undefined"))
            end
          else (c, Respond (Render 401 (LoginView (Some LOGIN_ERROR))))
      | None => (c, Respond (Render 401 (LoginView (Some LOGIN_ERROR))))
      end
  end.

Definition post_admin_logout : Middleware := fun env req c =>
  match session c with
  | Some _ => (destroy_session c, Respond (Redirect "/admin/login"))
  | None => (c, Raise (JS.TypeError "Cannot read properties of undefined"))
  end.

Definition get_admin : Middleware := fun env req c =>
  let d := db (state c) in
  let totalVisits := count_visits d in
  let todayVisits := count_visits_today (sql_now env) d in
  let totalSubmissions := count_submissions d in
  let last10 := take 10 (submissions_desc d) in
  (c, Respond (Render 200 (DashboardView totalVisits todayVisits totalSubmissions last10))).

Definition get_admin_submissions : Middleware := fun env req c =>
  (c, Respond (Render 200 (SubmissionsView (submissions_desc (db (state c)))))).

Definition get_admin_visits : Middleware := fun env req c =>
  (c, Respond (Render 200 (VisitsView (visits_desc_1000 (db (state c)))))).

(** [fs.readFileSync(filePath, 'utf8')] *)
Definition readFileSync (env : Env) (st : State) : JS.Completion string :=
  match landing st with
  | None => JS.Throw (JS.SystemError "ENOENT: no such file or directory")
  | Some text =>
      if read_fails env then JS.Throw (JS.SystemError "EIO: i/o error")
      else JS.Normal text
  end.

(** [fs.writeFileSync(filePath, data, 'utf8')]: data that is not a string
    is refused before the file is touched. *)
Definition writeFileSync (env : Env) (c : Ctx) (data : JS.Value) : JS.Completion Ctx :=
  match data with
  | JS.Str text =>
      if write_fails env then JS.Throw (JS.SystemError "EACCES: permission denied")
      else JS.Normal (with_landing c text)
  | _ => JS.Throw (JS.TypeError "The data argument must be of type string")
  end.

Definition get_admin_editor : Middleware := fun env req c =>
  let content :=
    match readFileSync env (state c) with
    | JS.Normal text => text
    | JS.Throw _ => ""
    end in
  (c, Respond (Render 200 (EditorView content))).

Definition post_admin_editor : Middleware := fun env req c =>
  let content := JS.get (body req) "content" in
  match writeFileSync env c content with
  | JS.Throw e => (c, Raise e)
  | JS.Normal c' => (c', Respond (Redirect "/admin/editor"))
  end.

(** ['JN' + Date.now().toString().slice(-6)] *)
Definition customerNumber (now : Z) : string :=
  "JN" ++ JS.slice (JS.Number_toString now) (-6).

(** The normalization of [req.body.services] and its [join]. *)
Definition servicesCsv (fields : list (string * JS.Value)) : JS.Completion string :=
  let services := JS.or (JS.get fields "services") (JS.Arr []) in
  let services :=
    match JS.typeof services with
    | JS.TString => JS.Arr [services]
    | _ => services
    end in
  JS.call_join services ", ".

Definition post_api_submit : Middleware := fun env req c =>
  let name := JS.get (body req) "name" in
  let phone := JS.get (body req) "phone" in
  let email := JS.get (body req) "email" in
  let message := JS.get (body req) "message" in
  match servicesCsv (body req) with
  | JS.Throw e => (c, Raise e)
  | JS.Normal csv =>
      let number := customerNumber (Date_now env) in
      let submissionDate := locale_now env in
      match
        insert_submission (store_rejects env) (sql_now env) (db (state c))
          [JS.or name (JS.Str ""); JS.or phone (JS.Str ""); JS.or email (JS.Str "");
           JS.Str csv; JS.or message (JS.Str ""); JS.Str number; JS.Str submissionDate]
      with
      | JS.Throw e => (c, Raise e)
      | JS.Normal d => (with_db c d, Respond (SendJson (SubmitAck number submissionDate)))
      end
  end.

Definition get_api_stats : Middleware := fun env req c =>
  let d := db (state c) in
  let byDay := visits_by_day d in
  let byPath := visits_by_path d in
  let today := count_visits_today (sql_now env) d in
  let total := count_visits d in
  (c, Respond (SendJson (Stats total today byDay byPath))).

Definition get_root : Middleware := fun env req c =>
  (c, Respond (SendFile "index.html")).

(** *** Routing *)

Record Route : Type := {
  route_method : Method;
  route_path : string;
  route_handlers : list Middleware
}.

(** The routes in the order [server.js] registers them. *)
Definition routes : list Route := [
  {| route_method := GET;  route_path := "/admin/login"; route_handlers := [get_admin_login] |};
  {| route_method := POST; route_path := "/admin/login"; route_handlers := [post_admin_login] |};
  {| route_method := POST; route_path := "/admin/logout";
     route_handlers := [requireAuth; post_admin_logout] |};
  {| route_method := GET;  route_path := "/admin";
     route_handlers := [requireAuth; get_admin] |};
  {| route_method := GET;  route_path := "/admin/submissions";
     route_handlers := [requireAuth; get_admin_submissions] |};
  {| route_method := GET;  route_path := "/admin/visits";
     route_handlers := [requireAuth; get_admin_visits] |};
  {| route_method := GET;  route_path := "/admin/editor";
     route_handlers := [requireAuth; get_admin_editor] |};
  {| route_method := POST; route_path := "/admin/editor";
     route_handlers := [requireAuth; post_admin_editor] |};
  {| route_method := POST; route_path := "/api/submit"; route_handlers := [post_api_submit] |};
  {| route_method := GET;  route_path := "/api/stats";
     route_handlers := [requireAuth; get_api_stats] |};
  {| route_method := GET;  route_path := "/"; route_handlers := [get_root] |}
].

(** A chain of middleware: each runs when the one before called [next()]. *)
Fixpoint run (ms : list Middleware) (env : Env) (req : Request) (c : Ctx)
  : Ctx * Outcome :=
  match ms with
  | [] => (c, Next)
  | m :: ms' =>
      match m env req c with
      | (c', Next) => run ms' env req c'
      | done => done
      end
  end.

Definition lower (a : ascii) : ascii :=
  let n := nat_of_ascii a in
  if ((65 <=? n) && (n <=? 90))%nat then ascii_of_nat (n + 32) else a.

Fixpoint lowercase (s : string) : string :=
  match s with
  | EmptyString => EmptyString
  | String a s' => String (lower a) (lowercase s')
  end.

(** Express matches a route path without regard to case and with an
    optional trailing slash. *)
Definition path_matches (pattern p : string) : bool :=
  let q := lowercase p in
  if String.eqb pattern "/"
  then String.eqb q "/" || String.eqb q ""
  else String.eqb q pattern || String.eqb q (pattern ++ "/").

(** A HEAD request is routed to the GET handlers. *)
Definition method_matches (route_m req_m : Method) : bool :=
  bool_decide (route_m = req_m) || (bool_decide (req_m = HEAD) && bool_decide (route_m = GET)).

Definition route_matches (r : Route) (req : Request) : bool :=
  method_matches (route_method r) (method req) && path_matches (route_path r) (path req).

Fixpoint router (rs : list Route) (env : Env) (req : Request) (c : Ctx)
  : Ctx * Outcome :=
  match rs with
  | [] => (c, Next)
  | r :: rs' =>
      if route_matches r req
      then
        match run (route_handlers r) env req c with
        | (c', Next) => router rs' env req c'
        | done => done
        end
      else router rs' env req c
  end.

(** *** The application *)

(** [express-session] on the way in: the stored session of the cookie, or a
    new one. *)
Definition load_session (env : Env) (st : State) (req : Request) : Ctx :=
  match cookie req with
  | Some sid =>
      match sessions st !! sid with
      | Some s => {| state := st; session_id := sid; session := Some s; modified := false |}
      | None =>
          {| state := st; session_id := fresh_sid env; session := Some new_session;
             modified := false |}
      end
  | None =>
      {| state := st; session_id := fresh_sid env; session := Some new_session;
         modified := false |}
  end.

(** [express-session] on the way out: a session that was assigned to is
    stored ([resave] and [saveUninitialized] are off). *)
Definition save_session (c : Ctx) : State :=
  match session c with
  | Some s =>
      if modified c
      then {| db := db (state c);
              sessions := <[session_id c := s]> (sessions (state c));
              landing := landing (state c) |}
      else state c
  | None => state c
  end.

(** The response when the middleware stack is exhausted or a handler threw. *)
Definition finish (o : Outcome) : Response :=
  match o with
  | Respond r => r
  | Next => NotFound
  | Raise e => InternalServerError e
  end.

(** The middleware stack in the order of the [app.use] calls. *)
Definition stack : list Middleware := [track_visits; serve_static; router routes].

Definition app (env : Env) (st : State) (req : Request) : State * Response :=
  let (c, o) := run stack env req (load_session env st req) in
  (save_session c, finish o).

(** The server over a sequence of requests, each with its environment. *)
Fixpoint serve (st : State) (reqs : list (Env * Request)) : State :=
  match reqs with
  | [] => st
  | (env, req) :: reqs' => serve (fst (app env st req)) reqs'
  end.

End Server.

Import JS Sqlite Server.

(** ** Vocabulary of the statements *)

Definition is_digit (a : ascii) : bool :=
  ((48 <=? nat_of_ascii a) && (nat_of_ascii a <=? 57))%nat.

Fixpoint all_digits (s : string) : bool :=
  match s with
  | EmptyString => true
  | String a s' => is_digit a && all_digits s'
  end.

(** The number a string of decimal digits denotes. *)
Fixpoint numeral_from (acc : Z) (s : string) : Z :=
  match s with
  | EmptyString => acc
  | String a s' => numeral_from (10 * acc + (Z.of_nat (nat_of_ascii a) - 48)) s'
  end.

Definition numeral (s : string) : Z := numeral_from 0 s.

(** [d] is the last [k] characters of [s], or all of [s] if it is shorter. *)
Definition last_chars (k : nat) (s d : string) : Prop :=
  (exists pre, s = pre ++ d) /\ String.length d = Nat.min k (String.length s).

(** A middleware keeps the relation [P] between the context it receives and
    the one it leaves. *)
Definition preserves (P : Ctx -> Ctx -> Prop) (m : Middleware) : Prop :=
  forall env req c c' o, m env req c = (c', o) -> P c c'.

(** The request is one the visit recorder passes over. *)
Definition under_admin_or_api (req : Request) : bool :=
  String.prefix "/admin" (path req) || String.prefix "/api" (path req).

(** No middleware after the recorder touches the visits table. *)
Definition same_visits (c c' : Ctx) : Prop :=
  visits (db (state c')) = visits (db (state c)).

(** A text field of a form: absent, or a string. *)
Definition text_field (v : JS.Value) : Prop :=
  v = JS.Undefined \/ exists s, v = JS.Str s.

(** The text a text field carries: the empty string when it is absent. *)
Definition text_of (v : JS.Value) : string :=
  match v with
  | JS.Str s => s
  | _ => ""
  end.

(** The documented shapes of the services field and the list of services
    each stands for: absent, a single string, or a list of strings. *)
Inductive services_shape : JS.Value -> list string -> Prop :=
  | services_absent : services_shape JS.Undefined []
  | services_single (s : string) : services_shape (JS.Str s) [s]
  | services_list (l : list string) : services_shape (JS.Arr (map JS.Str l)) l.

(** A value that is an array. *)
Definition is_array (v : JS.Value) : bool :=
  match v with
  | JS.Arr _ => true
  | _ => false
  end.

(** A value that is a string. *)
Definition is_string (v : JS.Value) : bool :=
  match v with
  | JS.Str _ => true
  | _ => false
  end.

(** A text field the handler stores as text: a string, or a value that
    counts as false (absent, [null], [false], [0]), in place of which the
    handler puts the empty string. *)
Definition plain_text (v : JS.Value) : Prop :=
  is_string v = true \/ truthy v = false.

(** The services a value of the services field stands for: none when the
    value counts as false (absent, [null], [false], [0], the empty string),
    one for a string, and its elements for a list of strings. *)
Inductive services_given : JS.Value -> list string -> Prop :=
  | services_none (v : JS.Value) : truthy v = false -> services_given v []
  | services_one (s : string) : services_given (JS.Str s) [s]
  | services_several (l : list string) : services_given (JS.Arr (map JS.Str l)) l.

(** The arguments the submission handler hands to the insert statement,
    once the services are joined. *)
Definition submission_arguments (env : Env) (fields : list (string * JS.Value))
    (csv : string) : list JS.Value :=
  [JS.or (JS.get fields "name") (JS.Str ""); JS.or (JS.get fields "phone") (JS.Str "");
   JS.or (JS.get fields "email") (JS.Str ""); JS.Str csv;
   JS.or (JS.get fields "message") (JS.Str "");
   JS.Str (customerNumber (Date_now env)); JS.Str (locale_now env)].

(** The submission is one the handler gets stored: the services can be
    joined, the driver can bind the seven arguments, and the store takes
    the row. *)
Definition storable (env : Env) (req : Request) : Prop :=
  store_rejects env = false
  /\ exists csv ps,
       servicesCsv (body req) = JS.Normal csv
       /\ bind_parameters (submission_arguments env (body req) csv) 7 = JS.Normal ps.

(** A username the driver looks up as text or as NULL: a string, or an
    absent or [null] field. *)
Definition looked_up (v : JS.Value) : Prop :=
  is_string v = true \/ v = JS.Undefined \/ v = JS.Null.

(** A username the driver refuses to bind: a boolean, or an object where
    the statement has a positional parameter. *)
Definition refused (v : JS.Value) : bool :=
  match v with
  | JS.Bool _ | JS.Obj _ => true
  | _ => false
  end.

(** A handler that always ends the request: it responds or throws. *)
Definition ends (h : Middleware) : Prop :=
  forall env req c c' o, h env req c = (c', o) -> o <> Next.

(** The views and the API the authentication gate stands in front of. *)
Definition gated_routes : list (Method * string * Middleware) := [
  (GET, "/admin", get_admin);
  (GET, "/admin/submissions", get_admin_submissions);
  (GET, "/admin/visits", get_admin_visits);
  (GET, "/admin/editor", get_admin_editor);
  (POST, "/admin/editor", post_admin_editor);
  (POST, "/admin/logout", post_admin_logout);
  (GET, "/api/stats", get_api_stats)
].

(** The session of [sid] in the store carries the admin marker. *)
Definition authenticated (st : State) (sid : string) : Prop :=
  session_is_admin (sessions st !! sid) = true.

(** The submitted credentials are those of a row of the admins table. *)
Definition credentials_match (d : Database) (username password : JS.Value) : Prop :=
  exists u p, username = JS.Str u /\ password = JS.Str p /\ admins d !! u = Some p.

(** The number of visits on a calendar day, and to a path. *)
Definition visits_on (day : string) (vs : list Visit) : nat :=
  length (filter (fun v => date (visit_ts v) = day) vs).

Definition visits_to (p : string) (vs : list Visit) : nat :=
  length (filter (fun v => visit_path v = p) vs).

(** The day [a] comes after the day [b], as SQLite compares text. *)
Definition day_after (a b : string) : Prop := String.le b a /\ a <> b.

(** Every stored session carries the admin username as its marker. *)
Definition only_admin_marker (st : State) : Prop :=
  forall sid s, sessions st !! sid = Some s -> user s = JS.Str ADMIN_USERNAME.

(** The same of a request in flight: the store, and the session about to
    be saved. *)
Definition marker_ok (c : Ctx) : Prop :=
  only_admin_marker (state c)
  /\ (modified c = true -> session c = Some {| user := JS.Str ADMIN_USERNAME |}).

Definition keeps_marker (c c' : Ctx) : Prop := marker_ok c -> marker_ok c'.

(** A chain keeps the relation [Q] between the context it receives, the
    context it leaves and the way it ends, for one request. *)
Definition respects (Q : Ctx -> Ctx -> Outcome -> Prop) (env : Env) (req : Request)
    (m : Middleware) : Prop :=
  forall c c' o, m env req c = (c', o) -> Q c c' o.

(** The tables only grow: the admins table stays, the other two keep their
    rows and may get new ones at the end. *)
Definition db_grows (d d' : Database) : Prop :=
  admins d' = admins d
  /\ submissions d `prefix_of` submissions d'
  /\ visits d `prefix_of` visits d'.

Definition ctx_db_grows (c c' : Ctx) : Prop := db_grows (db (state c)) (db (state c')).

(** No two rows of a table share an id. *)
Definition ids_distinct (d : Database) : Prop :=
  NoDup (visit_id <$> visits d) /\ NoDup (sub_id <$> submissions d).

Definition keeps_ids_distinct (c c' : Ctx) : Prop :=
  ids_distinct (db (state c)) -> ids_distinct (db (state c')).

(** The string holds no comma. *)
Fixpoint comma_free (s : string) : bool :=
  match s with
  | EmptyString => true
  | String a s' => negb (Ascii.eqb a ",") && comma_free s'
  end.

(** Express routes the request to the route of method [m] and path [p]. *)
Definition routed_to (m : Method) (p : string) (req : Request) : bool :=
  method_matches m (method req) && path_matches p (path req).

(** A response that shows an admin view or the stats. *)
Definition admin_response (r : Response) : bool :=
  match r with
  | Render _ (DashboardView _ _ _ _) | Render _ (SubmissionsView _)
  | Render _ (VisitsView _) | Render _ (EditorView _) => true
  | SendJson (Stats _ _ _ _) => true
  | _ => false
  end.

(** What a chain may do for a session that is not the admin's: it leaves the
    landing file alone, hands on a session that still is not the admin's,
    and does not answer with admin data. *)
Definition anonymous_bound (c c' : Ctx) (o : Outcome) : Prop :=
  session_is_admin (session c) = false ->
  landing (state c') = landing (state c)
  /\ match o with
     | Next => session_is_admin (session c') = false
     | Respond r => admin_response r = false
     | Raise _ => True
     end.

Definition same_submissions (c c' : Ctx) (o : Outcome) : Prop :=
  submissions (db (state c')) = submissions (db (state c)).

Definition same_landing (c c' : Ctx) (o : Outcome) : Prop :=
  landing (state c') = landing (state c).

Definition same_sessions (c c' : Ctx) (o : Outcome) : Prop :=
  sessions (state c') = sessions (state c) /\ modified c' = modified c.

(** *** Concrete inputs *)

Definition sample_env : Env :=
  {| request_start := 1762093412345; elapsed := 3;
     locale_now := "1405/8/11, 17:53:32"; sql_now := "2026-11-02 14:23:32";
     store_rejects := false; read_fails := false; write_fails := false;
     static_file := None; fresh_sid := "sid-1" |}.

(** The same environment with a store that rejects writes. *)
Definition faulty_env : Env :=
  {| request_start := 1762093412345; elapsed := 3;
     locale_now := "1405/8/11, 17:53:32"; sql_now := "2026-11-02 14:23:32";
     store_rejects := true; read_fails := false; write_fails := false;
     static_file := None; fresh_sid := "sid-1" |}.

Definition empty_state : State :=
  {| db := {| submissions := []; visits := []; admins := ∅ |};
     sessions := ∅; landing := None |}.

(** A store left with a row for another username by an earlier
    deployment. *)
Definition leftover_state : State :=
  {| db := {| submissions := []; visits := [];
              admins := {[ "operator" := "hunter2" ]} |};
     sessions := ∅; landing := None |}.

(** A started server with one logged-in session, two visits on one day and
    one on the day before, and a landing page. *)
Definition admin_state : State :=
  {| db := {| submissions := [];
              visits := [
                {| visit_id := 1; visit_ip := "203.0.113.7"; visit_ua := "curl/8.5.0";
                   visit_path := "/"; visit_ts := "2026-11-01 09:00:00" |};
                {| visit_id := 2; visit_ip := "203.0.113.7"; visit_ua := "curl/8.5.0";
                   visit_path := "/pricing"; visit_ts := "2026-11-02 10:00:00" |};
                {| visit_id := 3; visit_ip := "203.0.113.9"; visit_ua := "curl/8.5.0";
                   visit_path := "/"; visit_ts := "2026-11-02 11:30:00" |} ];
              admins := {[ ADMIN_USERNAME := ADMIN_PASSWORD ]} |};
     sessions := {[ "sid-0" := {| user := JS.Str ADMIN_USERNAME |} ]};
     landing := Some "<h1>Welcome</h1>" |}.

(** The same server after three submissions. *)
Definition submitted_state : State :=
  {| db := {| submissions := [
                {| sub_id := 1; sub_name := Some "Sara"; sub_phone := Some "0912";
                   sub_email := Some "sara@example.org"; sub_services := Some "A, B";
                   sub_message := Some "Hello"; sub_customer_number := Some "JN412001";
                   sub_submission_date := Some "1405/8/11, 17:53:32";
                   sub_created_at := "2026-11-02 14:23:32" |};
                {| sub_id := 2; sub_name := Some ""; sub_phone := Some "";
                   sub_email := Some ""; sub_services := Some "";
                   sub_message := Some ""; sub_customer_number := Some "JN415201";
                   sub_submission_date := Some "1405/8/11, 17:53:35";
                   sub_created_at := "2026-11-02 14:23:35" |};
                {| sub_id := 3; sub_name := Some "Omid"; sub_phone := Some "0935";
                   sub_email := Some ""; sub_services := Some "C";
                   sub_message := Some "Call me"; sub_customer_number := Some "JN498765";
                   sub_submission_date := Some "1405/8/11, 17:54:58";
                   sub_created_at := "2026-11-02 14:24:58" |} ];
              visits := visits (db admin_state);
              admins := admins (db admin_state) |};
     sessions := sessions admin_state;
     landing := landing admin_state |}.

Definition sample_request (m : Method) (p : string) (fields : list (string * JS.Value))
    (sid : option string) : Request :=
  {| method := m; path := p;
     x_forwarded_for := Some "203.0.113.7, 10.0.0.1"; user_agent := Some "curl/8.5.0";
     remote_address := Some "10.0.0.1"; body := fields; cookie := sid |}.

(** ** The variant with mail notification

    The second variant of the server is [server.js] with a mail transport
    set up from the process environment and a notification sent from the
    submission handler. *)

Module Mail.

(** *** More of JavaScript: white space, [parseInt], [replace], templates *)

(** One white space or line terminator at the head of a string (in its
    UTF-8 bytes), and what follows it. *)
Definition strip_space (s : string) : option string :=
  match s with
  | EmptyString => None
  | String a rest =>
      let n := nat_of_ascii a in
      if ((9 <=? n) && (n <=? 13) || (n =? 32))%nat then Some rest
      else
        match rest with
        | String b rest1 =>
            let m := nat_of_ascii b in
            if ((n =? 194) && (m =? 160))%nat then Some rest1
            else
              match rest1 with
              | String c rest2 =>
                  let k := nat_of_ascii c in
                  if ((n =? 225) && (m =? 154) && (k =? 128)
                      || (n =? 226) && (m =? 128)
                         && ((128 <=? k) && (k <=? 138) || (k =? 168) || (k =? 169)
                             || (k =? 175))
                      || (n =? 226) && (m =? 129) && (k =? 159)
                      || (n =? 227) && (m =? 128) && (k =? 128)
                      || (n =? 239) && (m =? 187) && (k =? 191))%nat
                  then Some rest2 else None
              | EmptyString => None
              end
        | EmptyString => None
        end
  end.

Fixpoint trim_start_from (fuel : nat) (s : string) : string :=
  match fuel with
  | O => s
  | S fuel' =>
      match strip_space s with
      | Some rest => trim_start_from fuel' rest
      | None => s
      end
  end.

(** [s.trimStart()] *)
Definition trimStart (s : string) : string := trim_start_from (String.length s) s.

Fixpoint only_space_from (fuel : nat) (s : string) : bool :=
  match s with
  | EmptyString => true
  | _ =>
      match fuel with
      | O => false
      | S fuel' =>
          match strip_space s with
          | Some rest => only_space_from fuel' rest
          | None => false
          end
      end
  end.

Definition only_space (s : string) : bool := only_space_from (String.length s) s.

(** [s.trimEnd()] *)
Fixpoint trimEnd (s : string) : string :=
  match s with
  | EmptyString => EmptyString
  | String a rest => if only_space s then EmptyString else String a (trimEnd rest)
  end.

(** [s.trim()] *)
Definition trim (s : string) : string := trimEnd (trimStart s).

Fixpoint digit_prefix (s : string) : string :=
  match s with
  | EmptyString => EmptyString
  | String a rest => if is_digit a then String a (digit_prefix rest) else EmptyString
  end.

(** A number as [parseInt] gives it. A whole number of at most 2^53 in
    absolute value is a double and is held as it is. A longer numeral gives
    a double near the number it denotes; how it is rounded is left to the
    engine, so [Rounded] keeps the number denoted and no more. *)
Inductive Number : Type :=
  | NaN
  | NegativeZero
  | Exactly (z : Z)
  | Rounded (denoted : Z).

Definition exact_bound : Z := 9007199254740992.

(** [parseInt(s, 10)]: white space is skipped, then a sign, then the decimal
    digits are read up to the first character that is not one. *)
Definition parseInt (s : string) : Number :=
  let s := trimStart s in
  let (negative, s) :=
    match s with
    | String "-" rest => (true, rest)
    | String "+" rest => (false, rest)
    | _ => (false, s)
    end in
  match digit_prefix s with
  | EmptyString => NaN
  | ds =>
      let n := numeral ds in
      if exact_bound <? n then Rounded (if negative then - n else n)
      else if negative then (if n =? 0 then NegativeZero else Exactly (- n))
      else Exactly n
  end.

(** [s.replace(/\n/g, '<br>')] on a string *)
Fixpoint replace_newlines (s : string) : string :=
  match s with
  | EmptyString => EmptyString
  | String a rest =>
      if Ascii.eqb a "010" then "<br>" ++ replace_newlines rest
      else String a (replace_newlines rest)
  end.

(** [v.replace(/\n/g, '<br>')] on any value: only strings have a [replace]. *)
Definition call_replace (v : JS.Value) : JS.Completion string :=
  match v with
  | JS.Str s => JS.Normal (replace_newlines s)
  | JS.Undefined | JS.Null => JS.Throw (JS.TypeError "Cannot read properties of undefined")
  | _ => JS.Throw (JS.TypeError "(message || '').replace is not a function")
  end.

(** A template literal: its parts are converted and appended from left to
    right. *)
Fixpoint template (parts : list (JS.Completion string)) : JS.Completion string :=
  match parts with
  | [] => JS.Normal ""
  | p :: parts' =>
      JS.bind p (fun s => JS.bind (template parts') (fun t => JS.Normal (s ++ t)))
  end.

Definition lit (s : string) : JS.Completion string := JS.Normal s.

(** [e.message] *)
Definition message_of (e : JS.Error) : string :=
  match e with
  | JS.TypeError m | JS.RangeError m | JS.SqliteError m | JS.SystemError m => m
  end.

(** *** The transport *)

(** The variables of [process.env] the server reads. *)
Record ProcessEnv : Type := {
  SMTP_HOST : option string;
  SMTP_PORT : option string;
  SMTP_SECURE : option string;
  SMTP_USER : option string;
  SMTP_PASS : option string;
  SMTP_FROM : option string;
  SMTP_TO : option string;
  CONTACT_TO_variable : option string
}.

Definition smtpPort (pe : ProcessEnv) : Number :=
  parseInt (or_string (SMTP_PORT pe) "587").

Definition smtpSecure (pe : ProcessEnv) : bool :=
  String.eqb (or_string (SMTP_SECURE pe) "false") "true".

Definition CONTACT_TO (pe : ProcessEnv) : string :=
  or_string (CONTACT_TO_variable pe) (or_string (SMTP_TO pe) "").

(** The options handed to [nodemailer.createTransport]. *)
Record Transport : Type := {
  host : string;
  port : Number;
  secure : bool;
  auth_user : string;
  auth_pass : string
}.

(** [mailer]: [None] is [null]. *)
Definition mailer (pe : ProcessEnv) : option Transport :=
  match SMTP_HOST pe, SMTP_USER pe, SMTP_PASS pe with
  | Some (String h hs), Some (String u us), Some (String w ws) =>
      Some {| host := String h hs; port := smtpPort pe; secure := smtpSecure pe;
              auth_user := String u us; auth_pass := String w ws |}
  | _, _, _ => None
  end.

Record Message : Type := {
  mail_from : string;
  mail_to : string;
  subject : string;
  text : string;
  html : string
}.

(** What the process does besides answering: mail handed to the transport
    and lines written to the console. *)
Inductive Effect : Type :=
  | SendMail (via : Transport) (m : Message)
  | Log (line : string)
  | Warn (label message : string).

(** The background check of the transport at startup; [verify_error] is the
    error it ends with, if any. *)
Definition verify_mailer (pe : ProcessEnv) (verify_error : option string) : list Effect :=
  match mailer pe with
  | None => []
  | Some _ =>
      match verify_error with
      | None => [Log "SMTP ready"]
      | Some m => [Warn "SMTP verify failed:" m]
      end
  end.

(** *** The notification *)

Definition nl : string := String "010" EmptyString.
Definition indent : string := "        ".

(** The body of the [try] block of the submission handler; [delivery_error]
    is the error the delivery ends with, if any. *)
Definition notify (pe : ProcessEnv) (delivery_error : option string)
    (name phone email message : JS.Value) (csv number submissionDate : string)
  : JS.Completion (list Effect) :=
  match mailer pe with
  | None => JS.Normal []
  | Some transport =>
      match CONTACT_TO pe with
      | EmptyString => JS.Normal []
      | to =>
          let fromAddr := or_string (SMTP_FROM pe) (auth_user transport) in
          JS.bind
            (template [lit "New contact (#"; lit number; lit ") - ";
                       JS.toString (JS.or name (JS.Str ""))])
            (fun subject_text =>
          let subject_line := trim subject_text in
          JS.bind
            (template [lit "Name: "; JS.toString (JS.or name (JS.Str "")); lit nl;
                       lit "Phone: "; JS.toString (JS.or phone (JS.Str "")); lit nl;
                       lit "Email: "; JS.toString (JS.or email (JS.Str "")); lit nl;
                       lit "Services: "; lit (or_string (Some csv) "-"); lit nl;
                       lit "Message:"; lit nl;
                       JS.toString (JS.or message (JS.Str "")); lit nl; lit nl;
                       lit "Customer No: "; lit number; lit nl;
                       lit "Date: "; lit submissionDate])
            (fun text_body =>
          JS.bind
            (template [lit nl; lit indent; lit "<h3>New Contact</h3>"; lit nl;
                       lit indent; lit "<p><strong>Name:</strong> ";
                       JS.toString (JS.or name (JS.Str "")); lit "</p>"; lit nl;
                       lit indent; lit "<p><strong>Phone:</strong> ";
                       JS.toString (JS.or phone (JS.Str "")); lit "</p>"; lit nl;
                       lit indent; lit "<p><strong>Email:</strong> ";
                       JS.toString (JS.or email (JS.Str "")); lit "</p>"; lit nl;
                       lit indent; lit "<p><strong>Services:</strong> ";
                       lit (or_string (Some csv) "-"); lit "</p>"; lit nl;
                       lit indent; lit "<p><strong>Message:</strong><br>";
                       call_replace (JS.or message (JS.Str "")); lit "</p>"; lit nl;
                       lit indent; lit "<hr>"; lit nl;
                       lit indent; lit "<p>Customer No: <strong>"; lit number;
                       lit "</strong></p>"; lit nl;
                       lit indent; lit "<p>Date: "; lit submissionDate; lit "</p>";
                       lit nl; lit "      "])
            (fun html_body =>
          JS.Normal
            (SendMail transport
               {| mail_from := fromAddr; mail_to := to; subject := subject_line;
                  text := text_body; html := html_body |}
             :: match delivery_error with
                | None => []
                | Some m => [Warn "Email send failed:" m]
                end))))
      end
  end.

(** The submission handler of the variant, with what it does besides
    answering. *)
Definition post_api_submit_notifying (pe : ProcessEnv) (delivery_error : option string)
    (env : Env) (req : Request) (c : Ctx) : (Ctx * Outcome) * list Effect :=
  let name := JS.get (body req) "name" in
  let phone := JS.get (body req) "phone" in
  let email := JS.get (body req) "email" in
  let message := JS.get (body req) "message" in
  match servicesCsv (body req) with
  | JS.Throw e => ((c, Raise e), [])
  | JS.Normal csv =>
      let number := customerNumber (Date_now env) in
      let submissionDate := locale_now env in
      match
        insert_submission (store_rejects env) (sql_now env) (db (state c))
          [JS.or name (JS.Str ""); JS.or phone (JS.Str ""); JS.or email (JS.Str "");
           JS.Str csv; JS.or message (JS.Str ""); JS.Str number; JS.Str submissionDate]
      with
      | JS.Throw e => ((c, Raise e), [])
      | JS.Normal d =>
          let effects :=
            match notify pe delivery_error name phone email message csv number
                    submissionDate with
            | JS.Normal effects => effects
            | JS.Throw e => [Warn "Email error:" (message_of e)]
            end in
          ((with_db c d, Respond (SendJson (SubmitAck number submissionDate))), effects)
      end
  end.

(** The same handler as a middleware of the stack. *)
Definition post_api_submit (pe : ProcessEnv) (delivery_error : option string)
  : Middleware :=
  fun env req c => fst (post_api_submit_notifying pe delivery_error env req c).

(** The routes of the variant, in the order it registers them. *)
Definition routes (pe : ProcessEnv) (delivery_error : option string) : list Route := [
  {| route_method := GET;  route_path := "/admin/login"; route_handlers := [get_admin_login] |};
  {| route_method := POST; route_path := "/admin/login"; route_handlers := [post_admin_login] |};
  {| route_method := POST; route_path := "/admin/logout";
     route_handlers := [requireAuth; post_admin_logout] |};
  {| route_method := GET;  route_path := "/admin";
     route_handlers := [requireAuth; get_admin] |};
  {| route_method := GET;  route_path := "/admin/submissions";
     route_handlers := [requireAuth; get_admin_submissions] |};
  {| route_method := GET;  route_path := "/admin/visits";
     route_handlers := [requireAuth; get_admin_visits] |};
  {| route_method := GET;  route_path := "/admin/editor";
     route_handlers := [requireAuth; get_admin_editor] |};
  {| route_method := POST; route_path := "/admin/editor";
     route_handlers := [requireAuth; post_admin_editor] |};
  {| route_method := POST; route_path := "/api/submit";
     route_handlers := [post_api_submit pe delivery_error] |};
  {| route_method := GET;  route_path := "/api/stats";
     route_handlers := [requireAuth; get_api_stats] |};
  {| route_method := GET;  route_path := "/"; route_handlers := [get_root] |}
].

Definition stack (pe : ProcessEnv) (delivery_error : option string) : list Middleware :=
  [track_visits; serve_static; router (routes pe delivery_error)].

Definition app (pe : ProcessEnv) (delivery_error : option string)
    (env : Env) (st : State) (req : Request) : State * Response :=
  let (c, o) := run (stack pe delivery_error) env req (load_session env st req) in
  (save_session c, finish o).

End Mail.

(** A process environment with a transport and a recipient, and one with
    no mail settings at all. *)
Definition mail_env : Mail.ProcessEnv :=
  {| Mail.SMTP_HOST := Some "smtp.example.org"; Mail.SMTP_PORT := Some "465";
     Mail.SMTP_SECURE := Some "true"; Mail.SMTP_USER := Some "site@example.org";
     Mail.SMTP_PASS := Some "secret"; Mail.SMTP_FROM := None; Mail.SMTP_TO := None;
     Mail.CONTACT_TO_variable := Some "owner@example.org" |}.

Definition no_mail_env : Mail.ProcessEnv :=
  {| Mail.SMTP_HOST := None; Mail.SMTP_PORT := None; Mail.SMTP_SECURE := None;
     Mail.SMTP_USER := None; Mail.SMTP_PASS := None; Mail.SMTP_FROM := None;
     Mail.SMTP_TO := None; Mail.CONTACT_TO_variable := None |}.

(** ** Strings *)

#[local] Arguments String.append !s1 s2 /.

Lemma append_nil_r (s : string) : s ++ "" = s.
Proof. induction s as [|a s IH]; simpl; [reflexivity | now rewrite IH]. Qed.

Lemma append_assoc (s1 s2 s3 : string) : (s1 ++ s2) ++ s3 = s1 ++ (s2 ++ s3).
Proof. induction s1 as [|a s1 IH]; simpl; [reflexivity | now rewrite IH]. Qed.

Lemma length_append (s1 s2 : string) :
  String.length (s1 ++ s2) = (String.length s1 + String.length s2)%nat.
Proof. induction s1 as [|a s1 IH]; simpl; [reflexivity | now rewrite IH]. Qed.

Lemma all_digits_append (s1 s2 : string) :
  all_digits (s1 ++ s2) = all_digits s1 && all_digits s2.
Proof.
  induction s1 as [|a s1 IH]; simpl; [reflexivity|].
  rewrite IH. now rewrite andb_assoc.
Qed.

Lemma substring_all (s : string) : String.substring 0 (String.length s) s = s.
Proof. induction s as [|a s IH]; simpl; [reflexivity | now rewrite IH]. Qed.

(** Dropping the first [k] characters leaves a suffix. *)
Lemma substring_suffix (s : string) (k : nat) :
  (k <= String.length s)%nat ->
  exists pre, s = pre ++ String.substring k (String.length s - k) s
              /\ String.length pre = k.
Proof.
  revert k. induction s as [|a s IH]; intros k Hk; simpl in *.
  - exists "". assert (k = 0%nat) by lia. subst. now simpl.
  - destruct k as [|k].
    + exists "". simpl. now rewrite substring_all.
    + destruct (IH k) as [pre [Hpre Hlen]]; [lia|].
      exists (String a pre). simpl. split; [now rewrite <- Hpre | now rewrite Hlen].
Qed.

Lemma length_substring_suffix (s : string) (k : nat) :
  (k <= String.length s)%nat ->
  String.length (String.substring k (String.length s - k) s) = (String.length s - k)%nat.
Proof.
  intros Hk. destruct (substring_suffix s k Hk) as [pre [Hpre Hlen]].
  apply (f_equal String.length) in Hpre. rewrite length_append in Hpre. lia.
Qed.

(** [s.slice(-k)] is the last [k] characters of [s]. *)
Lemma slice_last_chars (s : string) (k : nat) :
  (0 < k)%nat -> last_chars k s (slice s (- Z.of_nat k)).
Proof.
  intros Hk. unfold last_chars, slice.
  assert (Hneg : (- Z.of_nat k <? 0) = true) by (apply Z.ltb_lt; lia).
  rewrite Hneg. clear Hneg.
  set (len := String.length s).
  set (from := Z.max (Z.of_nat len + - Z.of_nat k) 0).
  assert (Hfrom : Z.to_nat from = (len - k)%nat) by (unfold from; lia).
  assert (Hrest : Z.to_nat (Z.of_nat len - from) = (len - (len - k))%nat)
    by (unfold from; lia).
  rewrite Hfrom, Hrest.
  destruct (substring_suffix s (len - k)) as [pre [Hpre Hlen]]; [unfold len; lia|].
  fold len in Hpre. split.
  - now exists pre.
  - unfold len. rewrite length_substring_suffix by lia. lia.
Qed.

(** ** Decimal numerals *)

Lemma digits_acc (fuel : nat) (n : Z) (acc : string) :
  digits fuel n acc = digits fuel n "" ++ acc.
Proof.
  revert n acc. induction fuel as [|fuel IH]; intros n acc; simpl; [reflexivity|].
  destruct (n <? 10); [reflexivity|].
  rewrite (IH _ (String _ acc)), (IH _ (String _ "")).
  now rewrite append_assoc.
Qed.

(** Any fuel that covers the digits of [n] gives the same numeral. *)
Lemma digits_fuel_irrelevant (f1 : nat) :
  forall (f2 : nat) (n : Z) (acc : string),
    0 <= n < 10 ^ Z.of_nat f1 -> 0 <= n < 10 ^ Z.of_nat f2 ->
    (0 < f1)%nat -> (0 < f2)%nat ->
    digits f1 n acc = digits f2 n acc.
Proof.
  induction f1 as [|f1 IH]; intros f2 n acc H1 H2 Hf1 Hf2; [lia|].
  destruct f2 as [|f2]; [lia|]. simpl.
  destruct (n <? 10) eqn:Hlt; [reflexivity|].
  apply Z.ltb_ge in Hlt.
  assert (Hpow : forall f : nat, 0 <= n < 10 ^ Z.of_nat (S f) ->
                 (0 < f)%nat /\ 0 <= n / 10 < 10 ^ Z.of_nat f).
  { intros f Hf. rewrite Nat2Z.inj_succ, Z.pow_succ_r in Hf by lia. split.
    - destruct f; [simpl in Hf; lia | lia].
    - split; [apply Z.div_pos; lia | apply Z.div_lt_upper_bound; lia]. }
  destruct (Hpow f1 H1) as [Hp1 Hb1]. destruct (Hpow f2 H2) as [Hp2 Hb2].
  now apply IH.
Qed.

Lemma digits_fuel_enough (n : Z) :
  0 <= n -> 0 <= n < 10 ^ Z.of_nat (digits_fuel n).
Proof.
  intros Hn. split; [assumption|]. unfold digits_fuel.
  rewrite Nat2Z.inj_succ, Z2Nat.id by apply Z.log2_nonneg.
  destruct (Z.eq_dec n 0) as [->|Hne]; [reflexivity|].
  apply Z.lt_le_trans with (2 ^ Z.succ (Z.log2 n)).
  - apply Z.log2_spec. lia.
  - apply Z.pow_le_mono_l. lia.
Qed.

Lemma decimal_small (n : Z) :
  0 <= n < 10 -> decimal n = String (digit_char n) "".
Proof.
  intros Hn. unfold decimal, digits_fuel. simpl.
  assert (Hlt : (n <? 10) = true) by (apply Z.ltb_lt; lia).
  rewrite Hlt. now rewrite Z.mod_small.
Qed.

Lemma decimal_step (n : Z) :
  10 <= n -> decimal n = decimal (n / 10) ++ String (digit_char (n mod 10)) "".
Proof.
  intros Hn. unfold decimal at 1. unfold digits_fuel at 1. simpl.
  assert (Hge : (n <? 10) = false) by (apply Z.ltb_ge; lia).
  rewrite Hge, digits_acc. f_equal.
  assert (Hq : 0 <= n / 10) by (apply Z.div_pos; lia).
  assert (Hlog : 0 < Z.log2 n) by (apply Z.log2_pos; lia).
  apply digits_fuel_irrelevant.
  - split; [assumption|].
    apply Z.div_lt_upper_bound; [lia|].
    rewrite Z2Nat.id by lia.
    apply Z.lt_le_trans with (2 ^ Z.succ (Z.log2 n)); [apply Z.log2_spec; lia|].
    rewrite Z.pow_succ_r by lia.
    assert (2 ^ Z.log2 n <= 10 ^ Z.log2 n) by (apply Z.pow_le_mono_l; lia). lia.
  - now apply digits_fuel_enough.
  - lia.
  - unfold digits_fuel. lia.
Qed.

(** Induction along the digits of a number. *)
Lemma decimal_ind (P : Z -> Prop) :
  (forall n, 0 <= n < 10 -> P n) ->
  (forall n, 10 <= n -> P (n / 10) -> P n) ->
  forall n, 0 <= n -> P n.
Proof.
  intros Hsmall Hstep n.
  induction (Z.lt_wf 0 n) as [n _ IH]. intros Hn.
  destruct (Z_lt_ge_dec n 10) as [Hlt|Hge].
  - apply Hsmall. lia.
  - apply Hstep; [lia|].
    assert (Hq : 0 <= n / 10 < n)
      by (split; [apply Z.div_pos; lia | apply Z.div_lt; lia]).
    apply IH; lia.
Qed.

Lemma digit_char_code (d : Z) :
  0 <= d < 10 -> nat_of_ascii (digit_char d) = (48 + Z.to_nat d)%nat.
Proof. intros Hd. unfold digit_char. apply nat_ascii_embedding. lia. Qed.

Lemma digit_char_is_digit (d : Z) : 0 <= d < 10 -> is_digit (digit_char d) = true.
Proof.
  intros Hd. unfold is_digit. rewrite digit_char_code by assumption.
  apply andb_true_iff. split; apply Nat.leb_le; lia.
Qed.

Lemma decimal_all_digits (n : Z) : 0 <= n -> all_digits (decimal n) = true.
Proof.
  revert n. apply decimal_ind.
  - intros n Hn. rewrite decimal_small by assumption. cbn [all_digits].
    now rewrite digit_char_is_digit.
  - intros n Hn IH. rewrite decimal_step, all_digits_append, IH by assumption.
    cbn [all_digits andb]. rewrite digit_char_is_digit; [reflexivity|].
    apply Z.mod_pos_bound. lia.
Qed.

Lemma decimal_nonempty (n : Z) : 0 <= n -> (1 <= String.length (decimal n))%nat.
Proof.
  revert n. apply decimal_ind.
  - intros n Hn. rewrite decimal_small by assumption. cbn [String.length]. lia.
  - intros n Hn IH. rewrite decimal_step, length_append by assumption. lia.
Qed.

Lemma numeral_from_append (acc : Z) (s1 s2 : string) :
  numeral_from acc (s1 ++ s2) = numeral_from (numeral_from acc s1) s2.
Proof. revert acc. induction s1 as [|a s1 IH]; intros acc; simpl; [reflexivity | apply IH]. Qed.

Lemma numeral_from_shift (acc : Z) (s : string) :
  numeral_from acc s = acc * 10 ^ Z.of_nat (String.length s) + numeral s.
Proof.
  unfold numeral. revert acc. induction s as [|a s IH]; intros acc.
  - simpl. lia.
  - cbn [numeral_from String.length]. rewrite IH, (IH (10 * 0 + _)).
    rewrite Nat2Z.inj_succ, Z.pow_succ_r by lia. ring.
Qed.

Lemma numeral_append (s1 s2 : string) :
  numeral (s1 ++ s2) = numeral s1 * 10 ^ Z.of_nat (String.length s2) + numeral s2.
Proof.
  unfold numeral at 1. rewrite numeral_from_append. apply numeral_from_shift.
Qed.

Lemma numeral_bound (s : string) :
  all_digits s = true -> 0 <= numeral s < 10 ^ Z.of_nat (String.length s).
Proof.
  induction s as [|a s IH]; intros Hs.
  - unfold numeral. simpl. lia.
  - simpl in Hs. apply andb_true_iff in Hs as [Ha Hs].
    unfold numeral. cbn [numeral_from String.length].
    rewrite numeral_from_shift, Nat2Z.inj_succ, Z.pow_succ_r by lia.
    specialize (IH Hs).
    unfold is_digit in Ha. apply andb_true_iff in Ha as [Ha1 Ha2].
    apply Nat.leb_le in Ha1, Ha2. nia.
Qed.

(** Reading back the numeral of [n] gives [n]. *)
Lemma numeral_decimal (n : Z) : 0 <= n -> numeral (decimal n) = n.
Proof.
  revert n. apply decimal_ind.
  - intros n Hn. rewrite decimal_small by assumption.
    unfold numeral. cbn [numeral_from]. rewrite digit_char_code by assumption. lia.
  - intros n Hn IH. rewrite decimal_step, numeral_append, IH by assumption.
    unfold numeral. cbn [numeral_from String.length].
    rewrite digit_char_code by (apply Z.mod_pos_bound; lia).
    pose proof (Z.div_mod n 10). pose proof (Z.mod_pos_bound n 10). lia.
Qed.

(** The last characters of a numeral denote the number modulo a power of
    ten. *)
Lemma numeral_last_chars (n : Z) (k : nat) (d : string) :
  0 <= n -> last_chars k (decimal n) d ->
  all_digits d = true /\ numeral d = n mod 10 ^ Z.of_nat k.
Proof.
  intros Hn [[pre Hpre] Hlen].
  pose proof (decimal_all_digits n Hn) as Hall.
  pose proof (numeral_decimal n Hn) as Hval.
  rewrite Hpre in Hall, Hval.
  rewrite all_digits_append in Hall. apply andb_true_iff in Hall as [Hp Hd].
  split; [assumption|].
  rewrite numeral_append in Hval.
  pose proof (numeral_bound d Hd) as Hbd.
  pose proof (numeral_bound pre Hp) as Hbp.
  assert (Hcases : (String.length d = k \/
                    (String.length d < k /\ pre = ""))%nat).
  { rewrite Hpre, length_append in Hlen.
    destruct (Nat.le_gt_cases k (String.length pre + String.length d)) as [Hle|Hgt].
    - left. lia.
    - right. split; [lia|]. destruct pre; [reflexivity | simpl in Hlen; lia]. }
  destruct Hcases as [Hk | [Hk ->]].
  - rewrite Hk in *.
    apply Z.mod_unique with (numeral pre); [left; lia | rewrite <- Hval; ring].
  - unfold numeral at 1 in Hval. simpl in Hval.
    assert (Hnd : numeral d = n) by lia. clear Hval. subst n.
    rewrite Z.mod_small; [reflexivity|]. split; [lia|].
    apply Z.lt_le_trans with (10 ^ Z.of_nat (String.length d)); [lia|].
    apply Z.pow_le_mono_r; lia.
Qed.

(** ** The customer reference *)

Lemma Number_toString_nonneg (n : Z) : 0 <= n -> Number_toString n = decimal n.
Proof.
  intros Hn. unfold Number_toString.
  assert (Hlt : (n <? 0) = false) by (apply Z.ltb_ge; lia). now rewrite Hlt.
Qed.

Lemma customerNumber_digits (now : Z) :
  0 <= now ->
  exists d,
    customerNumber now = "JN" ++ d
    /\ last_chars 6 (Number_toString now) d
    /\ (1 <= String.length d <= 6)%nat
    /\ all_digits d = true
    /\ numeral d = now mod 1000000.
Proof.
  intros Hn. exists (slice (Number_toString now) (-6)).
  assert (Hlast : last_chars 6 (Number_toString now) (slice (Number_toString now) (-6)))
    by (apply (slice_last_chars _ 6); lia).
  split; [reflexivity|]. split; [assumption|].
  rewrite Number_toString_nonneg in * by assumption.
  destruct (numeral_last_chars now 6 _ Hn Hlast) as [Hall Hval].
  pose proof (decimal_nonempty now Hn).
  destruct Hlast as [_ Hlen].
  repeat split; try assumption; lia.
Qed.

(** ** Routing *)

(** Splits a [Forall] over an explicit list into one goal per element. *)
Ltac each_element := repeat first [apply List.Forall_nil | apply List.Forall_cons].

(** Requests under the admin and API prefixes skip the visit recorder. *)
Lemma track_visits_skips (env : Env) (req : Request) (c : Ctx) :
  String.prefix "/admin" (path req) || String.prefix "/api" (path req) = true ->
  track_visits env req c = (c, Next).
Proof. intros H. unfold track_visits. now rewrite H. Qed.

Lemma serve_static_post (env : Env) (req : Request) (c : Ctx) :
  method req = POST -> serve_static env req c = (c, Next).
Proof. intros H. unfold serve_static. now rewrite H. Qed.

Lemma router_cons_skip (r : Route) (rs : list Route) (env : Env) (req : Request) (c : Ctx) :
  route_matches r req = false -> router (r :: rs) env req c = router rs env req c.
Proof. intros H. cbn [router]. now rewrite H. Qed.

Lemma router_cons_enter (r : Route) (rs : list Route) (env : Env) (req : Request) (c : Ctx) :
  route_matches r req = true ->
  router (r :: rs) env req c =
    match run (route_handlers r) env req c with
    | (c', Next) => router rs env req c'
    | done => done
    end.
Proof. intros H. cbn [router]. now rewrite H. Qed.

(** Walks the route table for a request whose method and path are known. *)
Ltac decide_route Hm Hp :=
  unfold route_matches; cbn [route_method route_path]; rewrite Hm, Hp;
  vm_compute; reflexivity.

Ltac find_route Hm Hp :=
  unfold routes;
  repeat (rewrite router_cons_skip by decide_route Hm Hp);
  rewrite router_cons_enter by decide_route Hm Hp;
  cbn [route_handlers run].

(** Relations between the context before and after a middleware that hold
    across a whole chain and across the router. *)
Section Preservation.
Variable P : Ctx -> Ctx -> Prop.
Hypothesis P_refl : forall c, P c c.
Hypothesis P_trans : forall c1 c2 c3, P c1 c2 -> P c2 c3 -> P c1 c3.

Lemma run_preserves (ms : list Middleware) :
  Forall (preserves P) ms -> preserves P (run ms).
Proof.
  induction 1 as [|m ms Hm _ IH]; intros env req c c' o Hrun; cbn [run] in Hrun.
  - injection Hrun as <- _. apply P_refl.
  - destruct (m env req c) as [c1 o1] eqn:E1. apply Hm in E1.
    destruct o1; try (injection Hrun as <- _; exact E1).
    eapply P_trans; [exact E1 | eapply IH; exact Hrun].
Qed.

Lemma router_preserves (rs : list Route) :
  Forall (fun r => Forall (preserves P) (route_handlers r)) rs ->
  preserves P (router rs).
Proof.
  induction 1 as [|r rs Hr _ IH]; intros env req c c' o Hrun; cbn [router] in Hrun.
  - injection Hrun as <- _. apply P_refl.
  - destruct (route_matches r req); [|eapply IH; exact Hrun].
    destruct (run (route_handlers r) env req c) as [c1 o1] eqn:E1.
    apply (run_preserves _ Hr) in E1.
    destruct o1; try (injection Hrun as <- _; exact E1).
    eapply P_trans; [exact E1 | eapply IH; exact Hrun].
Qed.
End Preservation.

(** ** The visit recorder *)

Lemma save_load_session (env : Env) (st : State) (req : Request) :
  save_session (load_session env st req) = st.
Proof.
  unfold load_session, save_session.
  destruct (cookie req) as [sid|]; [destruct (sessions st !! sid)|]; reflexivity.
Qed.

Lemma load_session_state (env : Env) (st : State) (req : Request) :
  state (load_session env st req) = st.
Proof.
  unfold load_session.
  destruct (cookie req) as [sid|]; [destruct (sessions st !! sid)|]; reflexivity.
Qed.

Lemma save_session_db (c : Ctx) : db (save_session c) = db (state c).
Proof.
  unfold save_session. destruct (session c); [destruct (modified c)|]; reflexivity.
Qed.

Lemma save_session_landing (c : Ctx) : landing (save_session c) = landing (state c).
Proof.
  unfold save_session. destruct (session c); [destruct (modified c)|]; reflexivity.
Qed.

Lemma or_string_nonempty (s fallback : string) :
  s <> "" -> or_string (Some s) fallback = s.
Proof. intros Hs. destruct s; [contradiction | reflexivity]. Qed.

Lemma track_visits_rejected (env : Env) (req : Request) (c : Ctx) :
  under_admin_or_api req = false -> store_rejects env = true ->
  track_visits env req c = (c, Raise store_fault).
Proof.
  unfold under_admin_or_api, track_visits, insert_visit. intros -> ->. reflexivity.
Qed.

Lemma track_visits_stored (env : Env) (req : Request) (c : Ctx) :
  under_admin_or_api req = false -> store_rejects env = false ->
  exists v,
    track_visits env req c =
      (with_db c {| submissions := submissions (db (state c));
                    visits := (visits (db (state c)) ++ [v])%list;
                    admins := admins (db (state c)) |}, Next)
    /\ visit_path v = or_string (Some (path req)) "/"
    /\ visit_ts v = sql_now env.
Proof.
  unfold under_admin_or_api, track_visits, insert_visit. intros -> ->.
  eexists. split; [reflexivity|]. split; reflexivity.
Qed.

(** ** Handlers and the tables they leave alone *)

(** A stored submission row is appended to the table, holds the bound
    parameters in column order, and leaves the other tables as they were. *)
Lemma insert_submission_normal (faulty : bool) (now : string) (d d' : Database)
    (args : list JS.Value) :
  insert_submission faulty now d args = Normal d' ->
  exists row ps,
    d' = {| submissions := (submissions d ++ [row])%list;
            visits := visits d; admins := admins d |}
    /\ faulty = false
    /\ bind_parameters args 7 = Normal ps
    /\ map text_affinity ps =
         [sub_name row; sub_phone row; sub_email row; sub_services row;
          sub_message row; sub_customer_number row; sub_submission_date row].
Proof.
  unfold insert_submission. intros H.
  destruct (bind_parameters args 7) as [ps|e] eqn:Hps; [|discriminate].
  cbn [JS.bind] in H.
  destruct (map text_affinity ps) as [|a1 [|a2 [|a3 [|a4 [|a5 [|a6 [|a7 [|a8 l]]]]]]]]
    eqn:Hmap; try discriminate.
  destruct faulty; [discriminate|]. injection H as <-.
  eexists. exists ps. repeat split. exact Hmap.
Qed.

Ltac crack_handler H :=
  repeat match goal with
  | H' : context [match ?x with _ => _ end] |- _ => destruct x eqn:?; simplify_eq
  end;
  simplify_eq.

Lemma track_visits_cases (env : Env) (req : Request) (c c' : Ctx) (o : Outcome) :
  track_visits env req c = (c', o) ->
  (c' = c /\ (o = Next \/ exists e, o = Raise e))
  \/ (exists d, c' = with_db c d /\ o = Next).
Proof.
  unfold track_visits. intros H. crack_handler H; eauto 6.
Qed.

Lemma serve_static_same (env : Env) (req : Request) (c c' : Ctx) (o : Outcome) :
  serve_static env req c = (c', o) -> c' = c.
Proof. unfold serve_static. intros H. crack_handler H; reflexivity. Qed.

Lemma routes_same_visits :
  Forall (fun r => Forall (preserves same_visits) (route_handlers r)) routes.
Proof.
  unfold routes. each_element; cbn [route_handlers]; each_element;
    intros env req c c' o H; unfold same_visits.
  all: try (unfold requireAuth, get_admin_login, post_admin_login, post_admin_logout,
            get_admin, get_admin_submissions, get_admin_visits, get_admin_editor,
            post_admin_editor, writeFileSync, get_api_stats, get_root in H;
            crack_handler H; reflexivity).
  unfold post_api_submit in H. crack_handler H; try reflexivity.
  match goal with
  | Hi : insert_submission _ _ _ _ = Normal _ |- _ =>
      apply insert_submission_normal in Hi as (row & ps & -> & _)
  end.
  reflexivity.
Qed.

Lemma run_cons_next (m : Middleware) (ms : list Middleware) (env : Env) (req : Request)
    (c c1 : Ctx) :
  m env req c = (c1, Next) -> run (m :: ms) env req c = run ms env req c1.
Proof. intros H. cbn [run]. now rewrite H. Qed.

Lemma run_cons_raise (m : Middleware) (ms : list Middleware) (env : Env) (req : Request)
    (c c1 : Ctx) (e : JS.Error) :
  m env req c = (c1, Raise e) -> run (m :: ms) env req c = (c1, Raise e).
Proof. intros H. cbn [run]. now rewrite H. Qed.

Lemma same_visits_refl (c : Ctx) : same_visits c c.
Proof. reflexivity. Qed.

Lemma same_visits_trans (c1 c2 c3 : Ctx) :
  same_visits c1 c2 -> same_visits c2 c3 -> same_visits c1 c3.
Proof. unfold same_visits. congruence. Qed.

(** Past the recorder, nothing writes to the visits table. *)
Lemma after_recorder_same_visits :
  preserves same_visits (run [serve_static; router routes]).
Proof.
  apply run_preserves; [exact same_visits_refl | exact same_visits_trans |].
  each_element.
  - intros env req c c' o H. apply serve_static_same in H as ->. reflexivity.
  - apply router_preserves;
      [exact same_visits_refl | exact same_visits_trans | exact routes_same_visits].
Qed.

(** C4. A request whose path does not begin with [/admin] or [/api] adds
    exactly one row to the visits table, holding the request path (the store
    accepting the write; Express hands the recorder a non-empty path), and a
    request whose path begins with one of the two prefixes adds none. *)
Theorem one_visit_per_recorded_request (env : Env) (st : State) (req : Request) :
  (under_admin_or_api req = false -> store_rejects env = false -> path req <> "" ->
   exists v,
     visits (db (fst (app env st req))) = (visits (db st) ++ [v])%list
     /\ visit_path v = path req)
  /\ (under_admin_or_api req = true ->
      visits (db (fst (app env st req))) = visits (db st)).
Proof.
  unfold app, stack. split.
  - intros Hout Hok Hpath.
    destruct (track_visits_stored env req (load_session env st req) Hout Hok)
      as (v & Htrack & Hv & _).
    exists v. rewrite (run_cons_next _ _ _ _ _ _ Htrack).
    destruct (run [serve_static; router routes] env req _) as [c o] eqn:Hrest.
    apply after_recorder_same_visits in Hrest. unfold same_visits in Hrest.
    cbn [fst]. rewrite save_session_db, Hrest. cbn.
    rewrite load_session_state. split; [reflexivity|].
    rewrite Hv. now apply or_string_nonempty.
  - intros Hin.
    rewrite (run_cons_next _ _ _ _ _ _ (track_visits_skips env req _ Hin)).
    destruct (run [serve_static; router routes] env req _) as [c o] eqn:Hrest.
    apply after_recorder_same_visits in Hrest. unfold same_visits in Hrest.
    cbn [fst]. rewrite save_session_db, Hrest. now rewrite load_session_state.
Qed.

Lemma one_visit_per_recorded_request_witness :
  (exists v,
     visits (db (fst (app sample_env empty_state (sample_request GET "/pricing" [] None))))
       = (visits (db empty_state) ++ [v])%list
     /\ visit_path v = "/pricing")
  /\ visits (db (fst (app sample_env empty_state
                        (sample_request POST "/api/submit" [] None))))
     = visits (db empty_state).
Proof.
  split.
  - apply (one_visit_per_recorded_request sample_env empty_state
             (sample_request GET "/pricing" [] None)).
    + reflexivity.
    + reflexivity.
    + discriminate.
  - apply (one_visit_per_recorded_request sample_env empty_state
             (sample_request POST "/api/submit" [] None)).
    reflexivity.
Defined.

(** The fallback of the recorder: an empty path is stored as ["/"]. *)
Lemma empty_path_recorded_as_root (env : Env) (req : Request) (c : Ctx) :
  path req = "" -> store_rejects env = false ->
  exists v c', track_visits env req c = (c', Next)
    /\ visits (db (state c')) = (visits (db (state c)) ++ [v])%list
    /\ visit_path v = "/".
Proof.
  intros Hp Hok.
  destruct (track_visits_stored env req c) as (v & Htrack & Hv & _);
    [unfold under_admin_or_api; now rewrite Hp | assumption |].
  exists v. eexists. split; [exact Htrack|]. split; [reflexivity|].
  rewrite Hv, Hp. reflexivity.
Qed.

(** C1 as the specification words it does not hold: with a store that
    rejects the write, the recorder does not reach the next handler. *)
Lemma visit_insert_failure_not_caught :
  ~ (forall env st req,
       under_admin_or_api req = false ->
       exists c', track_visits env req (load_session env st req) = (c', Next)).
Proof.
  intros H.
  destruct (H faulty_env empty_state (sample_request GET "/" [] None)) as [c' Hc'];
    [reflexivity|].
  vm_compute in Hc'. discriminate.
Qed.

(** C1, amended. For a request the recorder handles, the insert is not
    guarded: when the store accepts it the request proceeds to the next
    handler with the row stored; when the store rejects it the error leaves
    the recorder, no later handler runs, nothing is stored and the request
    ends in a server error. *)
Theorem visit_insert_error_propagates (env : Env) (st : State) (req : Request) :
  under_admin_or_api req = false ->
  (store_rejects env = false ->
   exists c', track_visits env req (load_session env st req) = (c', Next))
  /\ (store_rejects env = true ->
      track_visits env req (load_session env st req)
        = (load_session env st req, Raise store_fault)
      /\ app env st req = (st, InternalServerError store_fault)).
Proof.
  intros Hout. split.
  - intros Hok.
    destruct (track_visits_stored env req (load_session env st req) Hout Hok)
      as (v & Htrack & _).
    eexists. exact Htrack.
  - intros Hbad.
    pose proof (track_visits_rejected env req (load_session env st req) Hout Hbad)
      as Htrack.
    split; [exact Htrack|].
    unfold app, stack. rewrite (run_cons_raise _ _ _ _ _ _ _ Htrack).
    now rewrite save_load_session.
Qed.

Lemma visit_insert_error_propagates_witness :
  app faulty_env empty_state (sample_request GET "/" [] None)
    = (empty_state, InternalServerError store_fault).
Proof.
  apply (visit_insert_error_propagates faulty_env empty_state
           (sample_request GET "/" [] None)); reflexivity.
Defined.

(** ** The submission handler *)

Lemma join_strings_concat (sep : string) (l : list string) :
  join_strings sep l = String.concat sep l.
Proof.
  induction l as [|s l IH]; [reflexivity|].
  destruct l as [|s' l]; [reflexivity|].
  cbn [join_strings String.concat] in *. now rewrite IH.
Qed.

Lemma join_elems_strings (l : list string) : join_elems (map JS.Str l) = Normal l.
Proof.
  induction l as [|s l IH]; [reflexivity|].
  cbn [map join_elems join_elem JS.toString JS.bind]. now rewrite IH.
Qed.

Lemma Array_join_strings (l : list string) (sep : string) :
  Array_join (map JS.Str l) sep = Normal (String.concat sep l).
Proof.
  unfold Array_join. rewrite join_elems_strings. cbn [JS.bind].
  now rewrite join_strings_concat.
Qed.

(** On the documented shapes the normalization joins the services with
    a comma and a space. *)
Lemma servicesCsv_documented (fields : list (string * JS.Value)) (l : list string) :
  services_shape (JS.get fields "services") l ->
  servicesCsv fields = Normal (String.concat ", " l).
Proof.
  unfold servicesCsv. intros H. inversion H as [Hv | s Hv | l' Hv]; subst.
  - reflexivity.
  - unfold JS.or. cbn [truthy].
    destruct (String.eqb_spec s "") as [->|Hs]; [reflexivity|].
    cbn. reflexivity.
  - unfold JS.or. cbn [truthy typeof call_join]. apply Array_join_strings.
Qed.

(** The same with a services field that counts as false in place of an
    absent one. *)
Lemma servicesCsv_given (fields : list (string * JS.Value)) (l : list string) :
  services_given (JS.get fields "services") l ->
  servicesCsv fields = Normal (String.concat ", " l).
Proof.
  intros H. remember (JS.get fields "services") as v eqn:Hget.
  destruct H as [v Hv | s | l].
  - unfold servicesCsv, JS.or. rewrite <- Hget, Hv. reflexivity.
  - apply servicesCsv_documented. rewrite <- Hget. constructor.
  - apply servicesCsv_documented. rewrite <- Hget. constructor.
Qed.

Lemma or_plain_text (v : JS.Value) :
  plain_text v -> JS.or v (JS.Str "") = JS.Str (text_of v).
Proof.
  unfold JS.or. intros [Hs | Hf].
  - destruct v as [| |b|n|s|xs|fs]; try discriminate. cbn [truthy text_of].
    destruct (String.eqb_spec s "") as [->|Hne]; reflexivity.
  - rewrite Hf. destruct v as [| |b|n|s|xs|fs]; try reflexivity. cbn [truthy] in Hf.
    destruct (String.eqb_spec s "") as [Heq|Hne]; [now rewrite Heq | discriminate].
Qed.

Lemma or_text_field (v : JS.Value) :
  text_field v -> JS.or v (JS.Str "") = JS.Str (text_of v).
Proof.
  intros [-> | [s ->]]; [reflexivity|].
  unfold JS.or. cbn [truthy text_of].
  destruct (String.eqb_spec s "") as [->|Hs]; reflexivity.
Qed.

(** The submission handler never hands over to a later route. *)
Lemma post_api_submit_ends (env : Env) (req : Request) (c c' : Ctx) (o : Outcome) :
  post_api_submit env req c = (c', o) -> o <> Next.
Proof. unfold post_api_submit. intros H. crack_handler H; discriminate. Qed.

Lemma app_post_api_submit (env : Env) (st : State) (req : Request) :
  method req = POST -> path req = "/api/submit" ->
  app env st req =
    let (c, o) := post_api_submit env req (load_session env st req) in
    (save_session c, finish o).
Proof.
  intros Hm Hp. unfold app, stack.
  rewrite (run_cons_next _ _ _ _ _ _
             (track_visits_skips env req _ ltac:(now rewrite Hp))).
  rewrite (run_cons_next _ _ _ _ _ _ (serve_static_post env req _ Hm)).
  cbn [run]. find_route Hm Hp.
  destruct (post_api_submit env req (load_session env st req)) as [c o] eqn:Hh.
  apply post_api_submit_ends in Hh. destruct o; [contradiction | reflexivity..].
Qed.

(** C3, as the handler has it. A submission whose text fields are each a
    string or a value that counts as false (absent, [null], [false], [0])
    and whose services field is a list of strings, a single string or a
    value that counts as false succeeds (the store accepting the write) and
    appends one row: its services column is the services joined by a comma
    and a space, and each text column is the submitted string, or the empty
    string in place of a value that counts as false, never NULL. *)
Theorem submission_row_stored (env : Env) (st : State) (req : Request)
    (services : list string) :
  method req = POST -> path req = "/api/submit" ->
  store_rejects env = false ->
  plain_text (JS.get (body req) "name") ->
  plain_text (JS.get (body req) "phone") ->
  plain_text (JS.get (body req) "email") ->
  plain_text (JS.get (body req) "message") ->
  services_given (JS.get (body req) "services") services ->
  exists row,
    app env st req =
      ({| db := {| submissions := (submissions (db st) ++ [row])%list;
                   visits := visits (db st); admins := admins (db st) |};
          sessions := sessions st; landing := landing st |},
       SendJson (SubmitAck (customerNumber (Date_now env)) (locale_now env)))
    /\ sub_services row = Some (String.concat ", " services)
    /\ sub_name row = Some (text_of (JS.get (body req) "name"))
    /\ sub_phone row = Some (text_of (JS.get (body req) "phone"))
    /\ sub_email row = Some (text_of (JS.get (body req) "email"))
    /\ sub_message row = Some (text_of (JS.get (body req) "message")).
Proof.
  intros Hm Hp Hok Hname Hphone Hemail Hmessage Hservices.
  rewrite (app_post_api_submit env st req Hm Hp).
  unfold post_api_submit.
  rewrite (servicesCsv_given _ _ Hservices).
  rewrite (or_plain_text _ Hname), (or_plain_text _ Hphone),
    (or_plain_text _ Hemail), (or_plain_text _ Hmessage), Hok.
  unfold insert_submission, bind_parameters.
  cbn [bind_arguments bind_value JS.bind length Nat.ltb Nat.leb map text_affinity].
  eexists. split.
  - unfold with_db, save_session.
    rewrite load_session_state.
    assert (Hmod : modified (load_session env st req) = false).
    { unfold load_session.
      destruct (cookie req) as [sid|]; [destruct (sessions st !! sid)|]; reflexivity. }
    cbn [session modified state finish db sessions landing].
    rewrite Hmod.
    destruct (session (load_session env st req)); reflexivity.
  - cbn. repeat split; reflexivity.
Qed.

Lemma submission_row_stored_witness :
  exists row,
    app sample_env empty_state
      (sample_request POST "/api/submit"
         [("name", JS.Str "Sara"); ("phone", JS.Null);
          ("services", JS.Arr [JS.Str "A"; JS.Str "B"])] None)
    = ({| db := {| submissions := [row]; visits := []; admins := ∅ |};
          sessions := ∅; landing := None |},
       SendJson (SubmitAck "JN412348" "1405/8/11, 17:53:32"))
    /\ sub_services row = Some "A, B"
    /\ sub_name row = Some "Sara"
    /\ sub_phone row = Some ""
    /\ sub_email row = Some ""
    /\ sub_message row = Some "".
Proof.
  apply (submission_row_stored sample_env empty_state
           (sample_request POST "/api/submit"
              [("name", JS.Str "Sara"); ("phone", JS.Null);
               ("services", JS.Arr [JS.Str "A"; JS.Str "B"])]
              None)
           ["A"; "B"]).
  - reflexivity.
  - reflexivity.
  - reflexivity.
  - left. reflexivity.
  - right. reflexivity.
  - right. reflexivity.
  - right. reflexivity.
  - exact (services_several ["A"; "B"]).
Defined.

(** C3, as the specification has it, fails on a text field that is an
    array: the handler passes it on as it is and the driver spreads it into
    parameters, so the one-element array holding [null] is acknowledged and
    stored as NULL in the name column. *)
Lemma array_field_stored_as_null :
  exists row,
    app sample_env empty_state
      (sample_request POST "/api/submit" [("name", JS.Arr [JS.Null])] None)
    = ({| db := {| submissions := [row]; visits := []; admins := ∅ |};
          sessions := ∅; landing := None |},
       SendJson (SubmitAck "JN412348" "1405/8/11, 17:53:32"))
    /\ sub_name row = None
    /\ sub_name row <> Some ""
    /\ sub_services row = Some "".
Proof. eexists. repeat split. discriminate. Qed.

(** The three stored services values the specification lists. *)
Lemma servicesCsv_examples :
  servicesCsv [("services", JS.Arr [JS.Str "A"; JS.Str "B"])] = Normal "A, B"
  /\ servicesCsv [("services", JS.Str "A")] = Normal "A"
  /\ servicesCsv [] = Normal "".
Proof. repeat split; reflexivity. Qed.

(** The normalization returns on every value that counts as false and on
    every string. *)
Lemma servicesCsv_returns (fields : list (string * JS.Value)) :
  truthy (JS.get fields "services") = false \/ is_string (JS.get fields "services") = true ->
  exists csv, servicesCsv fields = Normal csv.
Proof.
  unfold servicesCsv, JS.or. intros [Hf | Hs].
  - rewrite Hf. cbn. eauto.
  - destruct (JS.get fields "services") as [| |b|n|s|xs|fs]; try discriminate.
    cbn [truthy]. destruct (negb (String.eqb s "")); cbn; eauto.
Qed.

(** On a truthy value that is neither a string nor an array the call of
    [join] throws. *)
Lemma servicesCsv_other_shape (fields : list (string * JS.Value)) :
  truthy (JS.get fields "services") = true ->
  is_string (JS.get fields "services") = false ->
  is_array (JS.get fields "services") = false ->
  servicesCsv fields = Throw (TypeError "services.join is not a function").
Proof.
  intros Ht Hs Ha. unfold servicesCsv, JS.or. rewrite Ht.
  destruct (JS.get fields "services") as [| |b|n|s|xs|fs];
    try discriminate; reflexivity.
Qed.

(** An element that cannot be converted ends the join of the elements. *)
Lemma join_elems_unconvertible (pre : list string) (fs : list (string * JS.Value))
    (post : list JS.Value) :
  has_key "toString" fs = true ->
  join_elems (map JS.Str pre ++ JS.Obj fs :: post)%list
    = Throw (TypeError "Cannot convert object to primitive value").
Proof.
  intros Hkey. induction pre as [|s pre IH].
  - cbn [map List.app join_elems join_elem JS.toString]. rewrite Hkey. reflexivity.
  - cbn [map List.app join_elems join_elem JS.toString JS.bind].
    cbn [map List.app] in IH. now rewrite IH.
Qed.

(** C10. The services normalization returns the joined services on the
    documented shapes (absent, a string, a list of strings) and throws
    neither on a value that counts as false nor on a string. On a truthy
    value that is neither a string nor an array the call of [join] throws,
    and the request ends in a server error and leaves the state, hence the
    submissions table, as it was. Nor is every array joined: one that holds,
    after strings, an object with a [toString] entry of its own makes the
    join throw. *)
Theorem services_of_other_shape_fail (env : Env) (st : State) (req : Request) :
  (forall l, services_shape (JS.get (body req) "services") l ->
     servicesCsv (body req) = Normal (String.concat ", " l))
  /\ ((exists e, servicesCsv (body req) = Throw e) ->
      truthy (JS.get (body req) "services") = true
      /\ is_string (JS.get (body req) "services") = false)
  /\ (method req = POST -> path req = "/api/submit" ->
      truthy (JS.get (body req) "services") = true ->
      is_string (JS.get (body req) "services") = false ->
      is_array (JS.get (body req) "services") = false ->
      servicesCsv (body req) = Throw (TypeError "services.join is not a function")
      /\ app env st req =
           (st, InternalServerError (TypeError "services.join is not a function")))
  /\ (forall pre fs post,
        JS.get (body req) "services" = JS.Arr (map JS.Str pre ++ JS.Obj fs :: post)%list ->
        has_key "toString" fs = true ->
        servicesCsv (body req)
          = Throw (TypeError "Cannot convert object to primitive value")).
Proof.
  split; [|split; [|split]].
  - intros l Hl. now apply servicesCsv_documented.
  - intros [e He].
    destruct (truthy (JS.get (body req) "services")) eqn:Ht.
    + split; [reflexivity|].
      destruct (is_string (JS.get (body req) "services")) eqn:Hs; [|reflexivity].
      destruct (servicesCsv_returns (body req)) as [csv Hcsv]; [now right|].
      congruence.
    + destruct (servicesCsv_returns (body req)) as [csv Hcsv]; [now left|].
      congruence.
  - intros Hm Hp Ht Hs Ha.
    pose proof (servicesCsv_other_shape (body req) Ht Hs Ha) as Hcsv.
    split; [exact Hcsv|].
    rewrite (app_post_api_submit env st req Hm Hp).
    unfold post_api_submit. rewrite Hcsv.
    now rewrite save_load_session.
  - intros pre fs post Hget Hkey. unfold servicesCsv, JS.or. rewrite Hget.
    cbn [truthy typeof call_join]. unfold Array_join.
    now rewrite (join_elems_unconvertible pre fs post Hkey).
Qed.

Lemma services_of_other_shape_fail_witness :
  app sample_env empty_state
    (sample_request POST "/api/submit" [("services", JS.Num 5)] None)
  = (empty_state, InternalServerError (TypeError "services.join is not a function")).
Proof.
  destruct (services_of_other_shape_fail sample_env empty_state
              (sample_request POST "/api/submit" [("services", JS.Num 5)] None))
    as (_ & _ & Hfails & _).
  apply Hfails; reflexivity.
Defined.

(** ** Parameters bound after the text fields *)

Lemma bind_arguments_last_two (args : list JS.Value) (x y : string) :
  forall (bound_object : bool) (ps : list SqlValue),
    bind_arguments (args ++ [JS.Str x; JS.Str y]) bound_object = Normal ps ->
    exists ps', ps = (ps' ++ [SText x; SText y])%list.
Proof.
  induction args as [|a args IH]; intros b ps H.
  - cbn in H. injection H as <-. now exists [].
  - rewrite <- app_comm_cons in H.
    destruct a as [| |b0|n|s|xs|fs]; cbn [bind_arguments bind_value JS.bind] in H;
      try discriminate.
    + destruct (bind_arguments (args ++ _) b) as [qs|e] eqn:Hq; [|discriminate].
      destruct (IH _ _ Hq) as [qs' ->]. cbn in H. injection H as <-.
      now exists (SNull :: qs').
    + destruct (bind_arguments (args ++ _) b) as [qs|e] eqn:Hq; [|discriminate].
      destruct (IH _ _ Hq) as [qs' ->]. cbn in H. injection H as <-.
      now exists (SNull :: qs').
    + destruct (bind_arguments (args ++ _) b) as [qs|e] eqn:Hq; [|discriminate].
      destruct (IH _ _ Hq) as [qs' ->]. cbn in H. injection H as <-.
      now exists (SReal n :: qs').
    + destruct (bind_arguments (args ++ _) b) as [qs|e] eqn:Hq; [|discriminate].
      destruct (IH _ _ Hq) as [qs' ->]. cbn in H. injection H as <-.
      now exists (SText s :: qs').
    + destruct (bind_array xs) as [ps0|e0]; [|discriminate]. cbn [JS.bind] in H.
      destruct (bind_arguments (args ++ _) b) as [qs|e] eqn:Hq; [|discriminate].
      destruct (IH _ _ Hq) as [qs' ->]. cbn in H. injection H as <-.
      exists (ps0 ++ qs')%list. now rewrite app_assoc.
    + destruct b; [discriminate|]. exact (IH _ _ H).
Qed.

(** Whatever the text fields hold, a stored row carries the bound reference
    in its customer-number column. *)
Lemma post_api_submit_cases (env : Env) (req : Request) (c : Ctx) :
  (exists e, post_api_submit env req c = (c, Raise e))
  \/ (exists row,
        post_api_submit env req c =
          (with_db c {| submissions := (submissions (db (state c)) ++ [row])%list;
                        visits := visits (db (state c));
                        admins := admins (db (state c)) |},
           Respond (SendJson (SubmitAck (customerNumber (Date_now env)) (locale_now env))))
        /\ sub_customer_number row = Some (customerNumber (Date_now env))
        /\ sub_submission_date row = Some (locale_now env)).
Proof.
  unfold post_api_submit.
  destruct (servicesCsv (body req)) as [csv|e]; [|left; eauto].
  match goal with
  | |- context [insert_submission ?f ?n ?d ?args] =>
      destruct (insert_submission f n d args) as [d'|e] eqn:Hins
  end; [|left; eauto].
  right. apply insert_submission_normal in Hins as (row & ps & -> & _ & Hps & Hmap).
  exists row. split; [reflexivity|].
  unfold bind_parameters in Hps.
  match type of Hps with
  | JS.bind (bind_arguments [?a1; ?a2; ?a3; ?a4; ?a5; ?a6; ?a7] _) _ = _ =>
      change [a1; a2; a3; a4; a5; a6; a7]
        with ([a1; a2; a3; a4; a5] ++ [a6; a7])%list in Hps
  end.
  match type of Hps with
  | JS.bind (bind_arguments ?l _) _ = _ =>
      destruct (bind_arguments l false) as [qs|e] eqn:Hqs; [|discriminate]
  end.
  apply bind_arguments_last_two in Hqs as [qs' ->].
  cbn [JS.bind] in Hps.
  repeat match type of Hps with
  | (if ?b then _ else _) = _ => destruct b; [discriminate|]
  end.
  injection Hps as <-.
  assert (Hlen : length qs' = 5%nat).
  { apply (f_equal (@length _)) in Hmap.
    rewrite length_map, length_app in Hmap. cbn in Hmap. lia. }
  destruct qs' as [|q1 [|q2 [|q3 [|q4 [|q5 [|q6 l]]]]]]; try discriminate.
  cbn in Hmap. injection Hmap as _ _ _ _ _ <- <-. split; reflexivity.
Qed.

(** Seven bound parameters and a store that takes the write give a stored
    row. *)
Lemma insert_submission_stores (now : string) (d : Database) (args : list JS.Value)
    (ps : list SqlValue) :
  bind_parameters args 7 = Normal ps ->
  exists d', insert_submission false now d args = Normal d'.
Proof.
  intros Hps. unfold insert_submission. rewrite Hps. cbn [JS.bind].
  assert (Hlen : length ps = 7%nat).
  { unfold bind_parameters in Hps.
    destruct (bind_arguments args false) as [qs|e]; [|discriminate].
    cbn [JS.bind] in Hps.
    destruct (Nat.ltb_spec (length qs) 7); [discriminate|].
    destruct (Nat.ltb_spec 7 (length qs)); [discriminate|].
    injection Hps as <-. lia. }
  destruct ps as [|p1 [|p2 [|p3 [|p4 [|p5 [|p6 [|p7 [|p8 ps]]]]]]]]; try discriminate.
  cbn [map]. eauto.
Qed.

(** The handler stores and acknowledges exactly the storable submissions,
    and throws on the others. *)
Lemma post_api_submit_storable (env : Env) (req : Request) (c : Ctx) :
  storable env req ->
  exists row,
    post_api_submit env req c =
      (with_db c {| submissions := (submissions (db (state c)) ++ [row])%list;
                    visits := visits (db (state c));
                    admins := admins (db (state c)) |},
       Respond (SendJson (SubmitAck (customerNumber (Date_now env)) (locale_now env))))
    /\ sub_customer_number row = Some (customerNumber (Date_now env))
    /\ sub_submission_date row = Some (locale_now env).
Proof.
  intros (Hok & csv & ps & Hcsv & Hps).
  destruct (post_api_submit_cases env req c) as [[e He] | Hrow]; [|exact Hrow].
  exfalso. revert He. unfold post_api_submit. rewrite Hcsv, Hok.
  destruct (insert_submission_stores (sql_now env) (db (state c)) _ _ Hps) as [d' Hd'].
  unfold submission_arguments in Hd'. rewrite Hd'. discriminate.
Qed.

Lemma post_api_submit_not_storable (env : Env) (req : Request) (c : Ctx) :
  ~ storable env req -> exists e, post_api_submit env req c = (c, Raise e).
Proof.
  intros Hno. unfold post_api_submit.
  destruct (servicesCsv (body req)) as [csv|e] eqn:Hcsv; [|eauto].
  match goal with
  | |- context [insert_submission ?f ?n ?d ?args] =>
      destruct (insert_submission f n d args) as [d'|e] eqn:Hins
  end; [|eauto].
  exfalso. apply Hno.
  apply insert_submission_normal in Hins as (row & ps & _ & Hok & Hps & _).
  split; [exact Hok|]. exists csv, ps. split; [exact Hcsv | exact Hps].
Qed.

(** A submission with text fields and services of the shapes the handler
    provides for is storable whenever the store takes the row. *)
Lemma plain_submission_storable (env : Env) (req : Request) (l : list string) :
  store_rejects env = false ->
  plain_text (JS.get (body req) "name") ->
  plain_text (JS.get (body req) "phone") ->
  plain_text (JS.get (body req) "email") ->
  plain_text (JS.get (body req) "message") ->
  services_given (JS.get (body req) "services") l ->
  storable env req.
Proof.
  intros Hok Hname Hphone Hemail Hmessage Hservices. split; [exact Hok|].
  exists (String.concat ", " l). eexists. split; [now apply servicesCsv_given|].
  unfold submission_arguments.
  rewrite (or_plain_text _ Hname), (or_plain_text _ Hphone),
    (or_plain_text _ Hemail), (or_plain_text _ Hmessage).
  reflexivity.
Qed.

(** C2. The reference of a submission is ["JN"] followed by the last six
    characters of the decimal numeral of the clock reading [Date.now()], all
    of them when the numeral is shorter: one to six decimal digits, which
    denote the reading modulo 10^6. The reading is the one the handler takes
    while it serves the request, so it is no earlier than the arrival of the
    request. A submission the handler can store (its services can be joined,
    the driver binds its fields and the store takes the row) is
    acknowledged with that reference, and the one row it appends carries the
    same reference; any other submission ends in a server error and leaves
    the state as it was. Every submission whose text fields are strings or
    count as false and whose services are a list of strings, a string or
    count as false can be stored, as long as the store takes the row. *)
Theorem customer_reference (env : Env) (st : State) (req : Request) :
  method req = POST -> path req = "/api/submit" -> 0 <= request_start env ->
  request_start env <= Date_now env
  /\ (exists d,
        customerNumber (Date_now env) = "JN" ++ d
        /\ last_chars 6 (Number_toString (Date_now env)) d
        /\ (1 <= String.length d <= 6)%nat
        /\ all_digits d = true
        /\ numeral d = Date_now env mod 1000000)
  /\ ((exists e, app env st req = (st, InternalServerError e))
      \/ (exists row,
            snd (app env st req)
              = SendJson (SubmitAck (customerNumber (Date_now env)) (locale_now env))
            /\ submissions (db (fst (app env st req)))
                 = (submissions (db st) ++ [row])%list
            /\ sub_customer_number row = Some (customerNumber (Date_now env))))
  /\ (storable env req ->
      exists row,
        app env st req =
          ({| db := {| submissions := (submissions (db st) ++ [row])%list;
                       visits := visits (db st); admins := admins (db st) |};
              sessions := sessions st; landing := landing st |},
           SendJson (SubmitAck (customerNumber (Date_now env)) (locale_now env)))
        /\ sub_customer_number row = Some (customerNumber (Date_now env)))
  /\ (~ storable env req -> exists e, app env st req = (st, InternalServerError e))
  /\ (forall l,
        store_rejects env = false ->
        plain_text (JS.get (body req) "name") ->
        plain_text (JS.get (body req) "phone") ->
        plain_text (JS.get (body req) "email") ->
        plain_text (JS.get (body req) "message") ->
        services_given (JS.get (body req) "services") l ->
        storable env req).
Proof.
  intros Hm Hp Hstart.
  assert (Hnow : request_start env <= Date_now env) by (unfold Date_now; lia).
  split; [exact Hnow|]. split; [apply customerNumber_digits; lia|].
  rewrite (app_post_api_submit env st req Hm Hp).
  split; [|split; [|split]]; [| | |apply plain_submission_storable].
  - destruct (post_api_submit_cases env req (load_session env st req))
      as [[e He] | (row & Hrow & Hnum & _)].
    + left. exists e. rewrite He. now rewrite save_load_session.
    + right. exists row. rewrite Hrow. cbn [fst snd finish].
      split; [reflexivity|]. split; [|exact Hnum].
      rewrite save_session_db. cbn. now rewrite load_session_state.
  - intros Hstorable.
    destruct (post_api_submit_storable env req (load_session env st req) Hstorable)
      as (row & Hrow & Hnum & _).
    exists row. rewrite Hrow. split; [|exact Hnum].
    cbn [finish]. f_equal.
    unfold with_db, save_session. rewrite load_session_state.
    assert (Hmod : modified (load_session env st req) = false).
    { unfold load_session.
      destruct (cookie req) as [sid|]; [destruct (sessions st !! sid)|]; reflexivity. }
    cbn [session modified state db sessions landing].
    rewrite Hmod.
    destruct (session (load_session env st req)); reflexivity.
  - intros Hno.
    destruct (post_api_submit_not_storable env req (load_session env st req) Hno)
      as [e He].
    exists e. rewrite He. now rewrite save_load_session.
Qed.

Lemma customer_reference_witness :
  exists row,
    app sample_env empty_state
      (sample_request POST "/api/submit"
         [("name", JS.Str "Sara"); ("services", JS.Str "A")] None)
    = ({| db := {| submissions := [row]; visits := []; admins := ∅ |};
          sessions := ∅; landing := None |},
       SendJson (SubmitAck "JN412348" "1405/8/11, 17:53:32"))
    /\ sub_customer_number row = Some "JN412348".
Proof.
  destruct (customer_reference sample_env empty_state
              (sample_request POST "/api/submit"
                 [("name", JS.Str "Sara"); ("services", JS.Str "A")] None)
              eq_refl eq_refl ltac:(vm_compute; discriminate))
    as (_ & _ & _ & Hstored & _ & Hplain).
  destruct Hstored as (row & Happ & Hnum).
  - apply (Hplain ["A"]).
    + reflexivity.
    + left. reflexivity.
    + right. reflexivity.
    + right. reflexivity.
    + right. reflexivity.
    + exact (services_one "A").
  - exists row. split; [exact Happ | exact Hnum].
Defined.

(** A reading with fewer than six digits is used whole, without padding. *)
Lemma customerNumber_examples :
  customerNumber 1762093412345 = "JN412345"
  /\ customerNumber 1762093000045 = "JN000045"
  /\ customerNumber 42 = "JN42"
  /\ customerNumber 0 = "JN0".
Proof. repeat split; reflexivity. Qed.

(** ** Chains and routes that end the request *)

Lemma run_singleton (m : Middleware) (env : Env) (req : Request) (c : Ctx) :
  run [m] env req c = m env req c.
Proof. cbn [run]. destruct (m env req c) as [c' []]; reflexivity. Qed.

Lemma router_enter_final (r : Route) (rs : list Route) (env : Env) (req : Request)
    (c : Ctx) :
  route_matches r req = true -> ends (run (route_handlers r)) ->
  router (r :: rs) env req c = run (route_handlers r) env req c.
Proof.
  intros Hr Hend. rewrite router_cons_enter by assumption.
  destruct (run (route_handlers r) env req c) as [c' o] eqn:Hrun.
  apply Hend in Hrun. destruct o; [contradiction | reflexivity..].
Qed.

Lemma handlers_end :
  ends get_admin_login /\ ends post_admin_login /\ ends post_admin_logout
  /\ ends get_admin /\ ends get_admin_submissions /\ ends get_admin_visits
  /\ ends get_admin_editor /\ ends post_admin_editor /\ ends post_api_submit
  /\ ends get_api_stats /\ ends get_root.
Proof.
  repeat split; intros env req c c' o H;
    unfold get_admin_login, post_admin_login, post_admin_logout, get_admin,
      get_admin_submissions, get_admin_visits, get_admin_editor, post_admin_editor,
      post_api_submit, get_api_stats, get_root in H;
    crack_handler H; discriminate.
Qed.

(** The gate in front of a handler: the handler runs on an admin session,
    any other session is sent to the login page. *)
Lemma gated_chain (h : Middleware) (env : Env) (req : Request) (c : Ctx) :
  run [requireAuth; h] env req c =
    if session_is_admin (session c) then h env req c
    else (c, Respond (Redirect "/admin/login")).
Proof.
  cbn [run]. unfold requireAuth.
  destruct (session_is_admin (session c)); [|reflexivity].
  destruct (h env req c) as [c' []]; reflexivity.
Qed.

Lemma gated_chain_ends (h : Middleware) : ends h -> ends (run [requireAuth; h]).
Proof.
  intros Hh env req c c' o H. rewrite gated_chain in H.
  destruct (session_is_admin (session c)); [eapply Hh; exact H|].
  injection H as _ <-. discriminate.
Qed.

Lemma single_chain_ends (h : Middleware) : ends h -> ends (run [h]).
Proof. intros Hh env req c c' o H. rewrite run_singleton in H. eapply Hh; exact H. Qed.

(** Past the recorder and the static files, the router decides. *)
Lemma app_router (env : Env) (st : State) (req : Request) :
  under_admin_or_api req = true ->
  (method req = GET -> public_file env st (path req) = None) ->
  method req <> HEAD ->
  app env st req =
    let (c, o) := router routes env req (load_session env st req) in
    (save_session c, finish o).
Proof.
  intros Hin Hstatic Hhead. unfold app, stack.
  rewrite (run_cons_next _ _ _ _ _ _ (track_visits_skips env req _ Hin)).
  assert (Hs : serve_static env req (load_session env st req)
               = (load_session env st req, Next)).
  { unfold serve_static. rewrite load_session_state.
    destruct (method req); try reflexivity; [|contradiction].
    now rewrite Hstatic. }
  rewrite (run_cons_next _ _ _ _ _ _ Hs). now rewrite run_singleton.
Qed.

Ltac find_final_route Hm Hp :=
  unfold routes;
  repeat (rewrite router_cons_skip by decide_route Hm Hp);
  rewrite router_enter_final;
  [ cbn [route_handlers]
  | decide_route Hm Hp
  | cbn [route_handlers];
    first [ apply gated_chain_ends | apply single_chain_ends ];
    apply handlers_end ].

Lemma session_is_admin_iff (s : option Session) :
  session_is_admin s = true <-> exists s', s = Some s' /\ user s' = JS.Str ADMIN_USERNAME.
Proof.
  unfold session_is_admin, strict_eq_string. split.
  - destruct s as [[u]|]; [|discriminate]. cbn [user].
    destruct u; try discriminate. intros H. apply String.eqb_eq in H as ->. eauto.
  - intros (s' & -> & ->). reflexivity.
Qed.

(** ** The authentication gate *)

Lemma app_gated_route (env : Env) (st : State) (req : Request)
    (m : Method) (p : string) (h : Middleware) :
  In (m, p, h) gated_routes ->
  method req = m -> path req = p ->
  (method req = GET -> public_file env st (path req) = None) ->
  app env st req =
    let (c, o) := run [requireAuth; h] env req (load_session env st req) in
    (save_session c, finish o).
Proof.
  intros Hin Hm Hp Hstatic. cbn [In gated_routes] in Hin.
  rewrite app_router.
  - repeat (destruct Hin as [Hin | Hin];
            [injection Hin as <- <- <-; find_final_route Hm Hp; reflexivity|]).
    contradiction.
  - unfold under_admin_or_api.
    repeat (destruct Hin as [Hin | Hin];
            [injection Hin as <- <- <-; rewrite Hp; reflexivity|]).
    contradiction.
  - exact Hstatic.
  - repeat (destruct Hin as [Hin | Hin];
            [injection Hin as <- <- <-; rewrite Hm; discriminate|]).
    contradiction.
Qed.

(** An admin session reaches the handler behind the gate. *)
Lemma app_gated_admin (env : Env) (st : State) (req : Request)
    (m : Method) (p : string) (h : Middleware) :
  In (m, p, h) gated_routes ->
  method req = m -> path req = p ->
  (method req = GET -> public_file env st (path req) = None) ->
  session_is_admin (session (load_session env st req)) = true ->
  app env st req =
    let (c, o) := h env req (load_session env st req) in (save_session c, finish o).
Proof.
  intros Hin Hm Hp Hstatic Hadmin.
  rewrite (app_gated_route env st req m p h Hin Hm Hp Hstatic), gated_chain.
  now rewrite Hadmin.
Qed.

(** C6. On each admin view and on the stats API (no static file of that
    name standing in front of a GET route), the handler behind the gate runs
    exactly when the marker of the request's session is the admin username;
    with any other session the state is left as it was and the response is a
    redirect to the login page. *)
Theorem gate_guards_admin_routes (env : Env) (st : State) (req : Request)
    (m : Method) (p : string) (h : Middleware) :
  In (m, p, h) gated_routes ->
  method req = m -> path req = p ->
  (method req = GET -> public_file env st (path req) = None) ->
  let c0 := load_session env st req in
  (session_is_admin (session c0) = true <->
   exists s, session c0 = Some s /\ user s = JS.Str ADMIN_USERNAME)
  /\ (session_is_admin (session c0) = true ->
      app env st req = let (c, o) := h env req c0 in (save_session c, finish o))
  /\ (session_is_admin (session c0) = false ->
      app env st req = (st, Redirect "/admin/login")).
Proof.
  intros Hin Hm Hp Hstatic c0. split; [apply session_is_admin_iff|].
  rewrite (app_gated_route env st req m p h Hin Hm Hp Hstatic), gated_chain.
  fold c0. split; intros ->; [reflexivity|].
  cbn [finish]. unfold c0. now rewrite save_load_session.
Qed.

Lemma gate_guards_admin_routes_witness :
  app sample_env empty_state (sample_request GET "/api/stats" [] None)
    = (empty_state, Redirect "/admin/login").
Proof.
  apply (gate_guards_admin_routes sample_env empty_state
           (sample_request GET "/api/stats" [] None) GET "/api/stats" get_api_stats).
  - cbn. tauto.
  - reflexivity.
  - reflexivity.
  - reflexivity.
  - reflexivity.
Defined.

(** ** Login *)

Lemma select_admin_string (d : Database) (u : string) :
  select_admin d (JS.Str u) =
    Normal (match admins d !! u with
            | Some p => Some {| username := u; password := p |}
            | None => None
            end).
Proof. reflexivity. Qed.

Lemma select_admin_absent (d : Database) : select_admin d JS.Undefined = Normal None.
Proof. reflexivity. Qed.

Lemma load_session_some (env : Env) (st : State) (req : Request) :
  exists s, session (load_session env st req) = Some s.
Proof.
  unfold load_session.
  destruct (cookie req) as [sid|]; [destruct (sessions st !! sid)|]; cbn; eauto.
Qed.

Lemma app_post_admin_login (env : Env) (st : State) (req : Request) :
  method req = POST -> path req = "/admin/login" ->
  app env st req =
    let (c, o) := post_admin_login env req (load_session env st req) in
    (save_session c, finish o).
Proof.
  intros Hm Hp. rewrite app_router.
  - find_final_route Hm Hp. now rewrite run_singleton.
  - unfold under_admin_or_api. now rewrite Hp.
  - rewrite Hm. discriminate.
  - rewrite Hm. discriminate.
Qed.

(** A login is accepted exactly when the admins table holds the submitted
    username with the submitted password. *)
Lemma post_admin_login_strings (env : Env) (req : Request) (c : Ctx) (u p : string) :
  JS.get (body req) "username" = JS.Str u ->
  JS.get (body req) "password" = JS.Str p ->
  post_admin_login env req c =
    if bool_decide (admins (db (state c)) !! u = Some p)
    then match session c with
         | Some _ => (set_session_user c (JS.Str ADMIN_USERNAME), Respond (Redirect "/admin"))
         | None => (c, Raise (TypeError "Cannot set properties of undefined"))
         end
    else (c, Respond (Render 401 (LoginView (Some LOGIN_ERROR)))).
Proof.
  intros Hu Hp. unfold post_admin_login. rewrite Hu, Hp, select_admin_string.
  destruct (admins (db (state c)) !! u) as [p'|] eqn:Hrow.
  - cbn [Sqlite.password strict_eq_string].
    destruct (String.eqb_spec p p') as [->|Hne].
    + now rewrite bool_decide_eq_true_2.
    + rewrite bool_decide_eq_false_2; [reflexivity | congruence].
  - now rewrite bool_decide_eq_false_2.
Qed.

Lemma post_admin_login_mismatch (env : Env) (req : Request) (c : Ctx) :
  text_field (JS.get (body req) "username") ->
  text_field (JS.get (body req) "password") ->
  ~ credentials_match (db (state c)) (JS.get (body req) "username")
      (JS.get (body req) "password") ->
  post_admin_login env req c = (c, Respond (Render 401 (LoginView (Some LOGIN_ERROR)))).
Proof.
  intros Hu Hp Hno.
  destruct Hu as [Hu | [u Hu]].
  - unfold post_admin_login. now rewrite Hu, select_admin_absent.
  - destruct Hp as [Hp | [p Hp]].
    + unfold post_admin_login. rewrite Hu, Hp, select_admin_string.
      destruct (admins (db (state c)) !! u); reflexivity.
    + rewrite (post_admin_login_strings env req c u p Hu Hp).
      rewrite bool_decide_eq_false_2; [reflexivity|].
      intros Hrow. apply Hno. exists u, p. now rewrite Hu, Hp.
Qed.

(** A stored session with the marker passes the gate on the next request
    that carries its id. *)
Lemma authenticated_passes_gate (env : Env) (st : State) (req : Request) (sid : string) :
  authenticated st sid -> cookie req = Some sid ->
  session_is_admin (session (load_session env st req)) = true.
Proof.
  unfold authenticated, load_session. intros Hauth ->.
  destruct (sessions st !! sid) as [s|]; [exact Hauth | discriminate].
Qed.

(** A username that is a string, absent or [null] is looked up; whatever
    the password field holds, anything but the credentials of a row is
    answered 401. *)
Lemma post_admin_login_looked_up (env : Env) (req : Request) (c : Ctx) :
  looked_up (JS.get (body req) "username") ->
  ~ credentials_match (db (state c)) (JS.get (body req) "username")
      (JS.get (body req) "password") ->
  post_admin_login env req c = (c, Respond (Render 401 (LoginView (Some LOGIN_ERROR)))).
Proof.
  intros Hu Hno. unfold post_admin_login.
  destruct Hu as [Hu | [Hu | Hu]].
  - destruct (JS.get (body req) "username") as [| |b|n|u|xs|fs] eqn:Huser;
      try discriminate.
    rewrite select_admin_string.
    destruct (admins (db (state c)) !! u) as [p'|] eqn:Hrow; [|reflexivity].
    cbn [Sqlite.password].
    destruct (JS.get (body req) "password") as [| |b|n|p|xs|fs] eqn:Hpass;
      try reflexivity.
    cbn [strict_eq_string].
    destruct (String.eqb_spec p p') as [->|Hne]; [|reflexivity].
    exfalso. apply Hno. exists u, p'. repeat split. exact Hrow.
  - rewrite Hu. reflexivity.
  - rewrite Hu. reflexivity.
Qed.

(** A username that is a boolean or an object makes the driver throw. *)
Lemma post_admin_login_refused (env : Env) (req : Request) (c : Ctx) :
  refused (JS.get (body req) "username") = true ->
  exists e, post_admin_login env req c = (c, Raise e).
Proof.
  intros Hu. unfold post_admin_login.
  destruct (JS.get (body req) "username") as [| |b|n|u|xs|fs]; try discriminate;
    cbn; eauto.
Qed.

(** C5, as the handler has it. A login whose username and password are
    those of a row of the admins table sets the marker of the request's
    session, which from then on passes the gate, and redirects to the
    dashboard. With a username that is a string, absent or [null], any other
    login (no row for the username, another password, a password that is
    absent or not a string) is answered 401 with the login view and its
    error message, and leaves the state, hence every session, as it was. A
    username that is a boolean or an object is refused by the database
    driver: the request ends in a server error, the state as it was. *)
Theorem login_transition (env : Env) (st : State) (req : Request) :
  method req = POST -> path req = "/admin/login" ->
  let sid := session_id (load_session env st req) in
  (credentials_match (db st) (JS.get (body req) "username")
     (JS.get (body req) "password") ->
   snd (app env st req) = Redirect "/admin"
   /\ sessions (fst (app env st req)) !! sid = Some {| user := JS.Str ADMIN_USERNAME |}
   /\ authenticated (fst (app env st req)) sid)
  /\ (looked_up (JS.get (body req) "username") ->
      ~ credentials_match (db st) (JS.get (body req) "username")
          (JS.get (body req) "password") ->
      app env st req = (st, Render 401 (LoginView (Some LOGIN_ERROR)))
      /\ LOGIN_ERROR <> "")
  /\ (refused (JS.get (body req) "username") = true ->
      exists e, app env st req = (st, InternalServerError e)).
Proof.
  intros Hm Hp sid.
  rewrite (app_post_admin_login env st req Hm Hp).
  split; [|split].
  - intros (u & p & Hu' & Hp' & Hrow).
    rewrite (post_admin_login_strings env req _ u p Hu' Hp'), load_session_state.
    rewrite bool_decide_eq_true_2 by assumption.
    destruct (load_session_some env st req) as [s Hs]. rewrite Hs.
    cbn [fst snd finish]. split; [reflexivity|].
    assert (Hstore : sessions (save_session
                       (set_session_user (load_session env st req)
                          (JS.Str ADMIN_USERNAME))) !! sid
                     = Some {| user := JS.Str ADMIN_USERNAME |}).
    { unfold save_session, set_session_user. cbn. apply lookup_insert_eq. }
    split; [exact Hstore|]. unfold authenticated. rewrite Hstore. reflexivity.
  - intros Hu Hno.
    rewrite post_admin_login_looked_up;
      [| assumption | now rewrite load_session_state].
    rewrite save_load_session. split; [reflexivity | discriminate].
  - intros Hu.
    destruct (post_admin_login_refused env req (load_session env st req) Hu) as [e He].
    exists e. rewrite He. now rewrite save_load_session.
Qed.

Lemma login_transition_witness :
  snd (app sample_env admin_state
         (sample_request POST "/admin/login"
            [("username", JS.Str "admin"); ("password", JS.Str "erfan9028@")] None))
    = Redirect "/admin"
  /\ app sample_env admin_state
       (sample_request POST "/admin/login"
          [("username", JS.Str "admin"); ("password", JS.Num 5)] None)
     = (admin_state, Render 401 (LoginView (Some LOGIN_ERROR)))
  /\ exists e,
       app sample_env admin_state
         (sample_request POST "/admin/login"
            [("username", JS.Obj [("$ne", JS.Null)]); ("password", JS.Str "erfan9028@")]
            None)
       = (admin_state, InternalServerError e).
Proof.
  split; [|split].
  - apply (login_transition sample_env admin_state
             (sample_request POST "/admin/login"
                [("username", JS.Str "admin"); ("password", JS.Str "erfan9028@")] None)).
    + reflexivity.
    + reflexivity.
    + exists "admin", "erfan9028@". repeat split; reflexivity.
  - apply (login_transition sample_env admin_state
             (sample_request POST "/admin/login"
                [("username", JS.Str "admin"); ("password", JS.Num 5)] None)).
    + reflexivity.
    + reflexivity.
    + left. reflexivity.
    + intros (u & p & Hu & Hp & Hrow). discriminate Hp.
  - apply (login_transition sample_env admin_state
             (sample_request POST "/admin/login"
                [("username", JS.Obj [("$ne", JS.Null)]);
                 ("password", JS.Str "erfan9028@")] None)).
    + reflexivity.
    + reflexivity.
    + reflexivity.
Defined.

(** C5, as the specification has it, fails on a username the driver cannot
    bind: the boolean [true] names no row, yet the login is not answered 401
    but ends in a server error. *)
Lemma boolean_username_is_server_error :
  ~ credentials_match (db admin_state) (JS.Bool true) (JS.Str "erfan9028@")
  /\ (exists e,
        app sample_env admin_state
          (sample_request POST "/admin/login"
             [("username", JS.Bool true); ("password", JS.Str "erfan9028@")] None)
        = (admin_state, InternalServerError e))
  /\ snd (app sample_env admin_state
            (sample_request POST "/admin/login"
               [("username", JS.Bool true); ("password", JS.Str "erfan9028@")] None))
     <> Render 401 (LoginView (Some LOGIN_ERROR)).
Proof.
  split; [|split].
  - intros (u & p & Hu & _). discriminate Hu.
  - eexists. reflexivity.
  - discriminate.
Qed.

(** ** The content editor *)

Lemma readFileSync_cases (env : Env) (st : State) :
  (forall text, landing st = Some text -> read_fails env = false ->
                readFileSync env st = Normal text)
  /\ (landing st = None \/ read_fails env = true ->
      exists e, readFileSync env st = Throw e).
Proof.
  unfold readFileSync. split.
  - intros text -> ->. reflexivity.
  - intros [-> | ->]; [eauto|]. destruct (landing st); eauto.
Qed.

(** C8, as the handler has it. For an admin session: GET /admin/editor
    renders the text of the landing file, and the empty string when the file
    is absent or cannot be read, in either case with a normal response and
    the state untouched; POST /admin/editor with a content string (the write
    succeeding) leaves the landing file holding exactly that string and
    redirects to the editor; POST /admin/editor with a content field that is
    absent or not a string ends in a server error and leaves the state,
    hence the file, as it was. *)
Theorem editor_reads_and_overwrites (env : Env) (st : State) (req : Request) :
  path req = "/admin/editor" ->
  session_is_admin (session (load_session env st req)) = true ->
  (method req = GET -> static_file env = None ->
   (forall text, landing st = Some text -> read_fails env = false ->
      app env st req = (st, Render 200 (EditorView text)))
   /\ (landing st = None \/ read_fails env = true ->
       app env st req = (st, Render 200 (EditorView ""))))
  /\ (forall text, method req = POST ->
        JS.get (body req) "content" = JS.Str text -> write_fails env = false ->
        snd (app env st req) = Redirect "/admin/editor"
        /\ landing (fst (app env st req)) = Some text)
  /\ (method req = POST -> is_string (JS.get (body req) "content") = false ->
      exists e, app env st req = (st, InternalServerError e)).
Proof.
  intros Hp Hadmin. split; [|split].
  - intros Hm Hstatic.
    assert (Happ : app env st req =
                   let (c, o) := get_admin_editor env req (load_session env st req) in
                   (save_session c, finish o)).
    { apply (app_gated_admin env st req GET "/admin/editor");
        [cbn; tauto | assumption | assumption | | assumption].
      intros _. unfold public_file. rewrite Hp. exact Hstatic. }
    rewrite Happ. unfold get_admin_editor. rewrite load_session_state.
    destruct (readFileSync_cases env st) as [Hread Hfail]. split.
    + intros text Hfile Hok. rewrite (Hread text Hfile Hok).
      now rewrite save_load_session.
    + intros Hbad. destruct (Hfail Hbad) as [e ->].
      now rewrite save_load_session.
  - intros text Hm Hcontent Hok.
    assert (Happ : app env st req =
                   let (c, o) := post_admin_editor env req (load_session env st req) in
                   (save_session c, finish o)).
    { apply (app_gated_admin env st req POST "/admin/editor");
        [cbn; tauto | assumption | assumption | | assumption].
      rewrite Hm. discriminate. }
    rewrite Happ. unfold post_admin_editor, writeFileSync. rewrite Hcontent, Hok.
    cbn [fst snd finish]. split; [reflexivity|].
    now rewrite save_session_landing.
  - intros Hm Hcontent.
    assert (Happ : app env st req =
                   let (c, o) := post_admin_editor env req (load_session env st req) in
                   (save_session c, finish o)).
    { apply (app_gated_admin env st req POST "/admin/editor");
        [cbn; tauto | assumption | assumption | | assumption].
      rewrite Hm. discriminate. }
    rewrite Happ. unfold post_admin_editor, writeFileSync.
    destruct (JS.get (body req) "content") as [| |b|n|text|xs|fs]; try discriminate;
      eexists; now rewrite save_load_session.
Qed.

Lemma editor_reads_and_overwrites_witness :
  app sample_env admin_state (sample_request GET "/admin/editor" [] (Some "sid-0"))
    = (admin_state, Render 200 (EditorView "<h1>Welcome</h1>"))
  /\ landing (fst (app sample_env admin_state
                     (sample_request POST "/admin/editor"
                        [("content", JS.Str "<h1>Hi</h1>")] (Some "sid-0"))))
     = Some "<h1>Hi</h1>"
  /\ exists e,
       app sample_env admin_state
         (sample_request POST "/admin/editor"
            [("content", JS.Arr [JS.Str "<h1>Hi</h1>"])] (Some "sid-0"))
       = (admin_state, InternalServerError e).
Proof.
  split; [|split].
  - apply (editor_reads_and_overwrites sample_env admin_state
             (sample_request GET "/admin/editor" [] (Some "sid-0")));
      reflexivity.
  - apply (editor_reads_and_overwrites sample_env admin_state
             (sample_request POST "/admin/editor"
                [("content", JS.Str "<h1>Hi</h1>")] (Some "sid-0")));
      reflexivity.
  - apply (editor_reads_and_overwrites sample_env admin_state
             (sample_request POST "/admin/editor"
                [("content", JS.Arr [JS.Str "<h1>Hi</h1>"])] (Some "sid-0")));
      reflexivity.
Defined.

(** C8, as the specification has it, fails on a POST that carries no
    content: the admin's request is not redirected but ends in a server
    error, and the landing file keeps its text. *)
Lemma editor_post_without_content_fails :
  session_is_admin
    (session (load_session sample_env admin_state
                (sample_request POST "/admin/editor" [] (Some "sid-0")))) = true
  /\ (exists e,
        app sample_env admin_state (sample_request POST "/admin/editor" [] (Some "sid-0"))
        = (admin_state, InternalServerError e))
  /\ snd (app sample_env admin_state
            (sample_request POST "/admin/editor" [] (Some "sid-0")))
     <> Redirect "/admin/editor"
  /\ landing (fst (app sample_env admin_state
                     (sample_request POST "/admin/editor" [] (Some "sid-0"))))
     = Some "<h1>Welcome</h1>".
Proof.
  split; [|split; [|split]].
  - reflexivity.
  - eexists. reflexivity.
  - discriminate.
  - reflexivity.
Qed.

(** What the editor wrote is what the public landing path then serves. *)
Lemma landing_served_after_edit (env : Env) (c : Ctx) (req : Request) (text : string) :
  landing (state c) = Some text -> method req = GET -> path req = LANDING_URL ->
  serve_static env req c = (c, Respond (StaticFile text)).
Proof.
  intros Hfile Hm Hp. unfold serve_static, public_file.
  rewrite Hm, Hp, String.eqb_refl, Hfile. reflexivity.
Qed.

(** ** Grouping, ordering and limiting *)

Section GroupCount.
Context {A K : Type} `{EqDecision K} (key : A -> K).

Lemma group_count_keys (rows : list A) :
  fst <$> group_count key rows = remove_dups (key <$> rows).
Proof.
  unfold group_count. rewrite <- list_fmap_compose.
  apply list_fmap_id.
Qed.

Lemma group_count_NoDup (rows : list A) : NoDup (fst <$> group_count key rows).
Proof. rewrite group_count_keys. apply NoDup_remove_dups. Qed.

Lemma elem_of_group_count (rows : list A) (k : K) (n : nat) :
  (k, n) ∈ group_count key rows <->
  k ∈ key <$> rows /\ n = length (filter (fun r => key r = k) rows).
Proof.
  unfold group_count. rewrite list_elem_of_fmap. split.
  - intros (k' & Heq & Hin). injection Heq as -> ->.
    rewrite elem_of_remove_dups in Hin. split; [exact Hin | reflexivity].
  - intros (Hin & ->). exists k. split; [reflexivity|].
    now rewrite elem_of_remove_dups.
Qed.

Lemma group_count_positive (rows : list A) (k : K) (n : nat) :
  (k, n) ∈ group_count key rows -> (1 <= n)%nat.
Proof.
  intros (Hin & ->)%elem_of_group_count.
  apply list_elem_of_fmap in Hin as (r & -> & Hr).
  assert (Hf : r ∈ filter (fun r' => key r' = key r) rows)
    by (apply list_elem_of_filter; auto).
  destruct (filter (fun r' => key r' = key r) rows); [inversion Hf | cbn; lia].
Qed.

(** Counting the rows of pairwise different keys adds up. *)
Lemma sum_counts (ks : list K) (rows : list A) :
  NoDup ks ->
  sum_list ((fun k => length (filter (fun r => key r = k) rows)) <$> ks)
  = length (filter (fun r => key r ∈ ks) rows).
Proof.
  induction 1 as [|k ks Hk Hks IH].
  - cbn. induction rows as [|r rows IHr]; [reflexivity|].
    rewrite filter_cons_False; [exact IHr | apply not_elem_of_nil].
  - cbn [fmap list_fmap sum_list sum_list_with]. rewrite IH. clear IH.
    induction rows as [|r rows IHr]; [reflexivity|].
    rewrite !filter_cons.
    destruct (decide (key r = k)) as [Heq|Hne].
    + rewrite (decide_False (P := key r ∈ ks)) by (rewrite Heq; exact Hk).
      rewrite (decide_True (P := key r ∈ k :: ks)) by (rewrite Heq; left).
      unfold id in *. cbn [length]. lia.
    + destruct (decide (key r ∈ ks)) as [Hin|Hout].
      * rewrite (decide_True (P := key r ∈ k :: ks)) by (now right).
        unfold id in *. cbn [length]. lia.
      * rewrite (decide_False (P := key r ∈ k :: ks)); [exact IHr|].
        intros [?|?]%elem_of_cons; contradiction.
Qed.

Lemma filter_all (P : A -> Prop) `{forall x, Decision (P x)} (l : list A) :
  (forall x, x ∈ l -> P x) -> filter P l = l.
Proof.
  induction l as [|x l IH]; intros Hall; [reflexivity|].
  rewrite filter_cons_True by (apply Hall; left).
  f_equal. apply IH. intros y Hy. apply Hall. now right.
Qed.

(** The counts of the groups add up to the number of rows. *)
Lemma group_count_total (rows : list A) :
  sum_list (snd <$> group_count key rows) = length rows.
Proof.
  unfold group_count. rewrite <- list_fmap_compose.
  change (snd ∘ _) with (fun k => length (filter (fun r => key r = k) rows)).
  rewrite sum_counts by apply NoDup_remove_dups.
  f_equal. apply filter_all. intros r Hr.
  rewrite elem_of_remove_dups. now apply list_elem_of_fmap_2.
Qed.
End GroupCount.

(** ** The stats queries *)

#[local] Instance day_desc_total : Total day_desc.
Proof. intros a b. unfold day_desc. apply (total String.le). Qed.

#[local] Instance day_desc_trans : Transitive day_desc.
Proof. intros a b c Hab Hbc. unfold day_desc in *. now transitivity (fst b). Qed.

#[local] Instance count_desc_total : Total count_desc.
Proof. intros a b. unfold count_desc. lia. Qed.

#[local] Instance count_desc_trans : Transitive count_desc.
Proof. intros a b c. unfold count_desc. lia. Qed.

Lemma sum_list_Permutation (l1 l2 : list nat) : l1 ≡ₚ l2 -> sum_list l1 = sum_list l2.
Proof. induction 1; cbn in *; lia. Qed.

Lemma StronglySorted_take {A} (R : relation A) (n : nat) (l : list A) :
  StronglySorted R l -> StronglySorted R (take n l).
Proof.
  intros H. rewrite <- (take_drop n l) in H. now apply StronglySorted_app_1_l in H.
Qed.

Lemma elem_of_take_in {A} (x : A) (n : nat) (l : list A) : x ∈ take n l -> x ∈ l.
Proof. intros H. rewrite <- (take_drop n l). apply elem_of_app. now left. Qed.

(** Sorted by day with no day twice is strictly descending. *)
Lemma sorted_days_strict (l : list (string * nat)) :
  StronglySorted day_desc l -> NoDup (fst <$> l) ->
  StronglySorted (fun a b => day_after (fst a) (fst b)) l.
Proof.
  induction 1 as [|x l Hl IH Hx]; intros Hnd; [constructor|].
  rewrite fmap_cons in Hnd. apply NoDup_cons in Hnd as [Hnotin Hnd].
  constructor; [now apply IH|].
  rewrite Forall_forall in Hx |- *. intros b Hb.
  split; [apply Hx; exact Hb|].
  intros Heq. apply Hnotin. rewrite Heq. now apply list_elem_of_fmap_2.
Qed.

Lemma visits_by_day_spec (d : Database) :
  let byDay := visits_by_day d in
  (length byDay <= 30)%nat
  /\ StronglySorted (fun a b => day_after (fst a) (fst b)) byDay
  /\ (forall day n, (day, n) ∈ byDay ->
        n = visits_on day (visits d) /\ (1 <= n)%nat)
  /\ (forall v, v ∈ visits d ->
        date (visit_ts v) ∈ fst <$> byDay
        \/ (length byDay = 30%nat
            /\ forall e, e ∈ byDay -> day_after (fst e) (date (visit_ts v)))).
Proof.
  unfold visits_by_day.
  set (G := group_count (fun v => date (visit_ts v)) (visits d)).
  set (S := merge_sort day_desc G).
  assert (HP : S ≡ₚ G) by apply merge_sort_Permutation.
  assert (HS : StronglySorted day_desc S) by (apply StronglySorted_merge_sort; apply _).
  assert (HN : NoDup (fst <$> S)) by (rewrite HP; apply group_count_NoDup).
  cbn zeta. split; [|split; [|split]].
  - rewrite length_take. lia.
  - apply sorted_days_strict; [now apply StronglySorted_take|].
    rewrite fmap_take. eapply sublist_NoDup; [exact HN | apply sublist_take].
  - intros day n Hday.
    assert (Hin : (day, n) ∈ G).
    { rewrite <- HP. eapply elem_of_take_in. exact Hday. }
    split; [|eapply group_count_positive; exact Hin].
    now apply elem_of_group_count in Hin as [_ ->].
  - intros v Hv.
    assert (Hin : (date (visit_ts v), visits_on (date (visit_ts v)) (visits d)) ∈ S).
    { rewrite HP. apply elem_of_group_count. split; [|reflexivity].
      now apply (list_elem_of_fmap_2 (fun v => date (visit_ts v))). }
    rewrite <- (take_drop 30 S) in Hin, HS, HN.
    apply elem_of_app in Hin as [Hin | Hin].
    + left. now apply (list_elem_of_fmap_2 fst) in Hin.
    + right. split.
      * rewrite length_take. apply Nat.min_l.
        destruct (Nat.le_gt_cases 30 (length S)) as [Hle|Hgt]; [exact Hle|].
        rewrite drop_ge in Hin by lia. inversion Hin.
      * intros e He. split.
        -- exact (StronglySorted_app_1_elem_of _ _ _ _ _ HS He Hin).
        -- rewrite fmap_app in HN. apply NoDup_app in HN as (_ & Hdisj & _).
           intros Heq. apply (Hdisj (fst e)).
           ++ now apply list_elem_of_fmap_2.
           ++ rewrite Heq. now apply (list_elem_of_fmap_2 fst) in Hin.
Qed.

Lemma visits_by_path_spec (d : Database) :
  let byPath := visits_by_path d in
  StronglySorted (fun a b => (snd b <= snd a)%nat) byPath
  /\ NoDup (fst <$> byPath)
  /\ (forall p n, (p, n) ∈ byPath <->
        p ∈ visit_path <$> visits d /\ n = visits_to p (visits d))
  /\ sum_list (snd <$> byPath) = length (visits d).
Proof.
  unfold visits_by_path.
  set (G := group_count visit_path (visits d)).
  assert (HP : merge_sort count_desc G ≡ₚ G) by apply merge_sort_Permutation.
  cbn zeta. split; [|split; [|split]].
  - apply (StronglySorted_merge_sort count_desc).
  - rewrite HP. apply group_count_NoDup.
  - intros p n. rewrite HP. apply elem_of_group_count.
  - rewrite (sum_list_Permutation _ (snd <$> G)) by (now rewrite HP).
    apply group_count_total.
Qed.

(** C7. For an admin session, GET /api/stats answers with the state
    untouched and a report in which: [total] is the number of visit rows and
    the sum of the per-path counts; [today] is the number of rows whose day
    is the server's current day; [byDay] has at most 30 entries, strictly
    descending by day (so one per day), each with the number of visits of
    its day, and leaves out only days before all thirty listed; [byPath] has
    one entry per visited path with its number of visits, descending by
    count. *)
Theorem stats_report (env : Env) (st : State) (req : Request) :
  method req = GET -> path req = "/api/stats" -> static_file env = None ->
  session_is_admin (session (load_session env st req)) = true ->
  let vs := visits (db st) in
  let byDay := visits_by_day (db st) in
  let byPath := visits_by_path (db st) in
  app env st req =
    (st, SendJson (Stats (length vs) (visits_on (date (sql_now env)) vs) byDay byPath))
  /\ ((length byDay <= 30)%nat
      /\ StronglySorted (fun a b => day_after (fst a) (fst b)) byDay
      /\ (forall day n, (day, n) ∈ byDay -> n = visits_on day vs /\ (1 <= n)%nat)
      /\ (forall v, v ∈ vs ->
            date (visit_ts v) ∈ fst <$> byDay
            \/ (length byDay = 30%nat
                /\ forall e, e ∈ byDay -> day_after (fst e) (date (visit_ts v)))))
  /\ (StronglySorted (fun a b => (snd b <= snd a)%nat) byPath
      /\ NoDup (fst <$> byPath)
      /\ (forall p n, (p, n) ∈ byPath <->
            p ∈ visit_path <$> vs /\ n = visits_to p vs)
      /\ sum_list (snd <$> byPath) = length vs).
Proof.
  intros Hm Hp Hstatic Hadmin vs byDay byPath. split; [|split].
  - assert (Happ : app env st req =
                   let (c, o) := get_api_stats env req (load_session env st req) in
                   (save_session c, finish o)).
    { apply (app_gated_admin env st req GET "/api/stats");
        [cbn; tauto | assumption | assumption | | assumption].
      intros _. unfold public_file. rewrite Hp. exact Hstatic. }
    rewrite Happ. unfold get_api_stats. rewrite load_session_state.
    now rewrite save_load_session.
  - apply visits_by_day_spec.
  - apply visits_by_path_spec.
Qed.

Lemma stats_report_witness :
  app sample_env admin_state (sample_request GET "/api/stats" [] (Some "sid-0"))
    = (admin_state,
       SendJson (Stats 3 2 [("2026-11-02", 2%nat); ("2026-11-01", 1%nat)]
                           [("/", 2%nat); ("/pricing", 1%nat)])).
Proof.
  apply (stats_report sample_env admin_state
           (sample_request GET "/api/stats" [] (Some "sid-0")));
    reflexivity.
Defined.

(** ** The marker of a session *)

Lemma startup_admins (st : State) :
  admins (db (startup st)) !! ADMIN_USERNAME = Some ADMIN_PASSWORD
  /\ forall u, u <> ADMIN_USERNAME -> admins (db (startup st)) !! u = admins (db st) !! u.
Proof.
  unfold startup, insert_or_replace_admin. cbn [db admins]. split.
  - apply lookup_insert_eq.
  - intros u Hu. now apply lookup_insert_ne.
Qed.

(** An accepted login stores the admin username, whatever username was
    submitted. *)
Lemma login_accepted (env : Env) (st : State) (req : Request) (u p : string) :
  method req = POST -> path req = "/admin/login" ->
  JS.get (body req) "username" = JS.Str u ->
  JS.get (body req) "password" = JS.Str p ->
  admins (db st) !! u = Some p ->
  snd (app env st req) = Redirect "/admin"
  /\ sessions (fst (app env st req)) !! session_id (load_session env st req)
     = Some {| user := JS.Str ADMIN_USERNAME |}.
Proof.
  intros Hm Hp Hu Hpw Hrow.
  rewrite (app_post_admin_login env st req Hm Hp).
  rewrite (post_admin_login_strings env req _ u p Hu Hpw), load_session_state.
  rewrite bool_decide_eq_true_2 by assumption.
  destruct (load_session_some env st req) as [s Hs]. rewrite Hs.
  cbn [fst snd finish]. split; [reflexivity|].
  unfold save_session, set_session_user. cbn. apply lookup_insert_eq.
Qed.

Lemma keeps_marker_refl (c : Ctx) : keeps_marker c c.
Proof. unfold keeps_marker. auto. Qed.

Lemma keeps_marker_trans (c1 c2 c3 : Ctx) :
  keeps_marker c1 c2 -> keeps_marker c2 c3 -> keeps_marker c1 c3.
Proof. unfold keeps_marker. auto. Qed.

Lemma with_db_marker (c : Ctx) (d : Database) : keeps_marker c (with_db c d).
Proof. unfold keeps_marker, marker_ok, only_admin_marker. cbn. auto. Qed.

Lemma with_landing_marker (c : Ctx) (text : string) : keeps_marker c (with_landing c text).
Proof. unfold keeps_marker, marker_ok, only_admin_marker. cbn. auto. Qed.

Lemma set_session_user_marker (c : Ctx) :
  keeps_marker c (set_session_user c (JS.Str ADMIN_USERNAME)).
Proof. unfold keeps_marker, marker_ok. cbn. intros [Hstore _]. auto. Qed.

Lemma destroy_session_marker (c : Ctx) : keeps_marker c (destroy_session c).
Proof.
  unfold keeps_marker, marker_ok, only_admin_marker. cbn. intros [Hstore _].
  split; [|discriminate].
  intros sid s Hs. apply lookup_delete_Some in Hs as [_ Hs]. eauto.
Qed.

Lemma routes_keep_marker :
  Forall (fun r => Forall (preserves keeps_marker) (route_handlers r)) routes.
Proof.
  unfold routes. each_element; cbn [route_handlers]; each_element;
    intros env req c c' o H.
  all: unfold requireAuth, get_admin_login, post_admin_login, post_admin_logout,
         get_admin, get_admin_submissions, get_admin_visits, get_admin_editor,
         post_admin_editor, writeFileSync, post_api_submit, get_api_stats,
         get_root in H;
       crack_handler H;
       auto using keeps_marker_refl, with_db_marker, with_landing_marker,
         set_session_user_marker, destroy_session_marker.
Qed.

Lemma stack_keeps_marker : preserves keeps_marker (run stack).
Proof.
  apply run_preserves; [exact keeps_marker_refl | exact keeps_marker_trans |].
  unfold stack. each_element.
  - intros env req c c' o H.
    apply track_visits_cases in H as [[-> _] | (d & -> & _)];
      auto using keeps_marker_refl, with_db_marker.
  - intros env req c c' o H. apply serve_static_same in H as ->.
    apply keeps_marker_refl.
  - apply router_preserves;
      [exact keeps_marker_refl | exact keeps_marker_trans | exact routes_keep_marker].
Qed.

(** One request keeps every stored marker the admin username. *)
Lemma app_keeps_marker (env : Env) (st : State) (req : Request) :
  only_admin_marker st -> only_admin_marker (fst (app env st req)).
Proof.
  intros Hst. unfold app.
  destruct (run stack env req (load_session env st req)) as [c o] eqn:Hrun.
  apply stack_keeps_marker in Hrun.
  assert (Hload : marker_ok (load_session env st req)).
  { split; [now rewrite load_session_state|].
    unfold load_session.
    destruct (cookie req) as [sid|]; [destruct (sessions st !! sid)|]; discriminate. }
  destruct (Hrun Hload) as [Hstore Hmod]. cbn [fst].
  unfold save_session.
  destruct (session c) as [s|] eqn:Hs; [|exact Hstore].
  destruct (modified c); [|exact Hstore].
  specialize (Hmod eq_refl). injection Hmod as ->.
  intros sid s' Hlook. cbn [sessions] in Hlook.
  apply lookup_insert_Some in Hlook as [[_ <-] | [_ Hlook]]; [reflexivity|].
  eapply Hstore; exact Hlook.
Qed.

Lemma serve_keeps_marker (reqs : list (Env * Request)) (st : State) :
  only_admin_marker st -> only_admin_marker (serve st reqs).
Proof.
  revert st. induction reqs as [|[env req] reqs IH]; intros st Hst; [exact Hst|].
  cbn [serve]. apply IH. now apply app_keeps_marker.
Qed.

(** C9. Starting the server replaces the row of the admin username and no
    other. A login accepted for any row of the admins table, a leftover row
    of another username included, stores the admin username (not the
    submitted one) as the marker of the session, and every later request
    with that session passes the gate. Over any sequence of requests the
    stored markers are never anything but the admin username. *)
Theorem any_admins_row_grants_admin (st : State) :
  (admins (db (startup st)) !! ADMIN_USERNAME = Some ADMIN_PASSWORD
   /\ forall u, u <> ADMIN_USERNAME ->
        admins (db (startup st)) !! u = admins (db st) !! u)
  /\ (forall env req u p,
        method req = POST -> path req = "/admin/login" ->
        JS.get (body req) "username" = JS.Str u ->
        JS.get (body req) "password" = JS.Str p ->
        u <> ADMIN_USERNAME -> admins (db st) !! u = Some p ->
        let sid := session_id (load_session env (startup st) req) in
        let st' := fst (app env (startup st) req) in
        snd (app env (startup st) req) = Redirect "/admin"
        /\ sessions st' !! sid = Some {| user := JS.Str ADMIN_USERNAME |}
        /\ forall env' req', cookie req' = Some sid ->
             session_is_admin (session (load_session env' st' req')) = true)
  /\ (forall reqs, only_admin_marker st -> only_admin_marker (serve st reqs)).
Proof.
  split; [apply startup_admins|]. split; [|intros reqs; apply serve_keeps_marker].
  intros env req u p Hm Hp Hu Hpw Hother Hrow sid st'.
  assert (Hkept : admins (db (startup st)) !! u = Some p).
  { destruct (startup_admins st) as [_ Hrest]. now rewrite Hrest. }
  destruct (login_accepted env (startup st) req u p Hm Hp Hu Hpw Hkept)
    as [Hresp Hstore].
  split; [exact Hresp|]. split; [exact Hstore|].
  intros env' req' Hcookie.
  apply (authenticated_passes_gate env' st' req' sid); [|exact Hcookie].
  unfold authenticated. fold sid in Hstore. fold st' in Hstore.
  rewrite Hstore. reflexivity.
Qed.

Lemma any_admins_row_grants_admin_witness :
  snd (app sample_env (startup leftover_state)
         (sample_request POST "/admin/login"
            [("username", JS.Str "operator"); ("password", JS.Str "hunter2")] None))
    = Redirect "/admin"
  /\ sessions (fst (app sample_env (startup leftover_state)
                      (sample_request POST "/admin/login"
                         [("username", JS.Str "operator");
                          ("password", JS.Str "hunter2")] None))) !! "sid-1"
     = Some {| user := JS.Str "admin" |}
  /\ only_admin_marker
       (serve admin_state
          [(sample_env, sample_request POST "/admin/logout" [] (Some "sid-0"))]).
Proof.
  destruct (any_admins_row_grants_admin leftover_state) as (_ & Hlogin & _).
  destruct (any_admins_row_grants_admin admin_state) as (_ & _ & Hserve).
  destruct (Hlogin sample_env
              (sample_request POST "/admin/login"
                 [("username", JS.Str "operator"); ("password", JS.Str "hunter2")] None)
              "operator" "hunter2") as (Hresp & Hstore & _); try reflexivity.
  { vm_compute. discriminate. }
  split; [exact Hresp|]. split; [exact Hstore|].
  apply Hserve.
  intros sid s Hs. unfold admin_state in Hs. cbn [sessions] in Hs.
  apply lookup_singleton_Some in Hs as [_ <-]. reflexivity.
Defined.

(** ** Chains, one request at a time *)

Section Respects.
Variable Q : Ctx -> Ctx -> Outcome -> Prop.
Variable env : Env.
Variable req : Request.
Hypothesis Q_next : forall c, Q c c Next.
Hypothesis Q_seq : forall c1 c2 c3 o, Q c1 c2 Next -> Q c2 c3 o -> Q c1 c3 o.

Lemma run_respects (ms : list Middleware) :
  Forall (respects Q env req) ms -> respects Q env req (run ms).
Proof.
  induction 1 as [|m ms Hm _ IH]; intros c c' o Hrun; cbn [run] in Hrun.
  - injection Hrun as <- <-. apply Q_next.
  - destruct (m env req c) as [c1 o1] eqn:E1. apply Hm in E1.
    destruct o1; try (injection Hrun as <- <-; exact E1).
    eapply Q_seq; [exact E1 | eapply IH; exact Hrun].
Qed.

(** Only the routes that match the request matter. *)
Lemma router_respects (rs : list Route) :
  Forall (fun r => route_matches r req = true ->
                   respects Q env req (run (route_handlers r))) rs ->
  respects Q env req (router rs).
Proof.
  induction 1 as [|r rs Hr _ IH]; intros c c' o Hrun; cbn [router] in Hrun.
  - injection Hrun as <- <-. apply Q_next.
  - destruct (route_matches r req); [|eapply IH; exact Hrun].
    destruct (run (route_handlers r) env req c) as [c1 o1] eqn:E1.
    apply (Hr eq_refl) in E1.
    destruct o1; try (injection Hrun as <- <-; exact E1).
    eapply Q_seq; [exact E1 | eapply IH; exact Hrun].
Qed.
End Respects.

(** ** Tables that only grow *)

Lemma db_grows_refl (d : Database) : db_grows d d.
Proof. unfold db_grows. auto. Qed.

Lemma db_grows_trans (d1 d2 d3 : Database) :
  db_grows d1 d2 -> db_grows d2 d3 -> db_grows d1 d3.
Proof.
  unfold db_grows. intros (Ha1 & Hs1 & Hv1) (Ha2 & Hs2 & Hv2).
  split; [congruence|]. split; etrans; eassumption.
Qed.

Lemma insert_visit_grows (faulty : bool) (now : string) (d d' : Database)
    (ip ua p : string) :
  insert_visit faulty now d ip ua p = Normal d' -> db_grows d d'.
Proof.
  unfold insert_visit. destruct faulty; [discriminate|]. intros H. injection H as <-.
  unfold db_grows. cbn. split; [reflexivity|]. split; [reflexivity|].
  now apply prefix_app_r.
Qed.

Lemma insert_submission_grows (faulty : bool) (now : string) (d d' : Database)
    (args : list JS.Value) :
  insert_submission faulty now d args = Normal d' -> db_grows d d'.
Proof.
  intros H. apply insert_submission_normal in H as (row & ps & -> & _).
  unfold db_grows. cbn. split; [reflexivity|]. split; [|reflexivity].
  now apply prefix_app_r.
Qed.

Lemma routes_db_grows :
  Forall (fun r => Forall (preserves ctx_db_grows) (route_handlers r)) routes.
Proof.
  unfold routes. each_element; cbn [route_handlers]; each_element;
    intros env req c c' o H; unfold ctx_db_grows.
  all: unfold requireAuth, get_admin_login, post_admin_login, post_admin_logout,
         get_admin, get_admin_submissions, get_admin_visits, get_admin_editor,
         post_admin_editor, writeFileSync, post_api_submit, get_api_stats,
         get_root in H;
       crack_handler H; cbn; eauto using db_grows_refl, insert_submission_grows.
Qed.

Lemma stack_db_grows : preserves ctx_db_grows (run stack).
Proof.
  apply run_preserves.
  - intros c. apply db_grows_refl.
  - intros c1 c2 c3. apply db_grows_trans.
  - unfold stack. each_element.
    + intros env req c c' o H. unfold track_visits in H.
      crack_handler H; unfold ctx_db_grows; cbn;
        eauto using db_grows_refl, insert_visit_grows.
    + intros env req c c' o H. apply serve_static_same in H as ->.
      apply db_grows_refl.
    + apply router_preserves;
        [intros c; apply db_grows_refl | intros c1 c2 c3; apply db_grows_trans
        | exact routes_db_grows].
Qed.

Lemma app_db_grows (env : Env) (st : State) (req : Request) :
  db_grows (db st) (db (fst (app env st req))).
Proof.
  unfold app.
  destruct (run stack env req (load_session env st req)) as [c o] eqn:Hrun.
  apply stack_db_grows in Hrun. unfold ctx_db_grows in Hrun.
  rewrite load_session_state in Hrun. cbn [fst]. now rewrite save_session_db.
Qed.

Lemma serve_db_grows (reqs : list (Env * Request)) (st : State) :
  db_grows (db st) (db (serve st reqs)).
Proof.
  revert st. induction reqs as [|[env req] reqs IH]; intros st; [apply db_grows_refl|].
  cbn [serve]. eapply db_grows_trans; [apply app_db_grows | apply IH].
Qed.

(** X1. Serving requests never changes the admins table: whatever the
    requests, the credentials are those the store held when they began. *)
Theorem requests_never_change_admins (st : State) (reqs : list (Env * Request)) :
  admins (db (serve st reqs)) = admins (db st).
Proof. apply serve_db_grows. Qed.

(** X2. Submissions and visits are append-only: after any sequence of
    requests both tables still begin with the rows they held before, in the
    same order and unchanged. *)
Theorem tables_are_append_only (st : State) (reqs : list (Env * Request)) :
  submissions (db st) `prefix_of` submissions (db (serve st reqs))
  /\ visits (db st) `prefix_of` visits (db (serve st reqs)).
Proof. apply serve_db_grows. Qed.

(** ** Row ids *)

Lemma next_id_above (ids : list Z) (x : Z) : x ∈ ids -> x < next_id ids.
Proof.
  unfold next_id. induction 1 as [x ids | x y ids _ IH]; cbn [foldr]; lia.
Qed.

Lemma next_id_fresh (ids : list Z) : next_id ids ∉ ids.
Proof. intros Hin. apply next_id_above in Hin. lia. Qed.

Lemma insert_visit_row (now : string) (d d' : Database) (ip ua p : string) :
  insert_visit false now d ip ua p = Normal d' ->
  exists v,
    d' = {| submissions := submissions d; visits := (visits d ++ [v])%list;
            admins := admins d |}
    /\ visit_id v = next_id (visit_id <$> visits d)
    /\ visit_path v = p /\ visit_ip v = ip /\ visit_ua v = ua /\ visit_ts v = now.
Proof.
  unfold insert_visit. intros H. injection H as <-.
  eexists. split; [reflexivity|]. cbn. repeat split; reflexivity.
Qed.

Lemma insert_submission_id (faulty : bool) (now : string) (d d' : Database)
    (args : list JS.Value) :
  insert_submission faulty now d args = Normal d' ->
  exists row,
    d' = {| submissions := (submissions d ++ [row])%list;
            visits := visits d; admins := admins d |}
    /\ sub_id row = next_id (sub_id <$> submissions d).
Proof.
  unfold insert_submission. intros H.
  destruct (bind_parameters args 7) as [ps|e]; [|discriminate].
  cbn [JS.bind] in H.
  destruct (map text_affinity ps) as [|a1 [|a2 [|a3 [|a4 [|a5 [|a6 [|a7 [|a8 l]]]]]]]];
    try discriminate.
  destruct faulty; [discriminate|]. injection H as <-.
  eexists. split; reflexivity.
Qed.

Lemma NoDup_snoc_fresh (ids : list Z) : NoDup ids -> NoDup (ids ++ [next_id ids]).
Proof.
  intros Hnd. apply NoDup_app. split; [exact Hnd|]. split.
  - intros x Hx Hin. apply list_elem_of_singleton in Hin as ->.
    now apply next_id_fresh in Hx.
  - apply NoDup_singleton.
Qed.

Lemma insert_visit_ids (faulty : bool) (now : string) (d d' : Database)
    (ip ua p : string) :
  insert_visit faulty now d ip ua p = Normal d' -> ids_distinct d -> ids_distinct d'.
Proof.
  destruct faulty; [discriminate|].
  intros (v & -> & Hid & _)%insert_visit_row [Hv Hs]. split; [|exact Hs].
  cbn [visits]. rewrite fmap_app. cbn [fmap list_fmap]. rewrite Hid.
  now apply NoDup_snoc_fresh.
Qed.

Lemma insert_submission_ids (faulty : bool) (now : string) (d d' : Database)
    (args : list JS.Value) :
  insert_submission faulty now d args = Normal d' -> ids_distinct d -> ids_distinct d'.
Proof.
  intros (row & -> & Hid)%insert_submission_id [Hv Hs]. split; [exact Hv|].
  cbn [submissions]. rewrite fmap_app. cbn [fmap list_fmap]. rewrite Hid.
  now apply NoDup_snoc_fresh.
Qed.

Lemma routes_keep_ids_distinct :
  Forall (fun r => Forall (preserves keeps_ids_distinct) (route_handlers r)) routes.
Proof.
  unfold routes. each_element; cbn [route_handlers]; each_element;
    intros env req c c' o H; unfold keeps_ids_distinct.
  all: unfold requireAuth, get_admin_login, post_admin_login, post_admin_logout,
         get_admin, get_admin_submissions, get_admin_visits, get_admin_editor,
         post_admin_editor, writeFileSync, post_api_submit, get_api_stats,
         get_root in H;
       crack_handler H; cbn; eauto using insert_submission_ids.
Qed.

Lemma stack_keeps_ids_distinct : preserves keeps_ids_distinct (run stack).
Proof.
  apply run_preserves.
  - intros c H. exact H.
  - intros c1 c2 c3 H12 H23 H. auto.
  - unfold stack. each_element.
    + intros env req c c' o H. unfold track_visits in H.
      crack_handler H; unfold keeps_ids_distinct; cbn; eauto using insert_visit_ids.
    + intros env req c c' o H. apply serve_static_same in H as ->. intros H. exact H.
    + apply router_preserves;
        [intros c H; exact H | intros c1 c2 c3 H12 H23 H; auto
        | exact routes_keep_ids_distinct].
Qed.

Lemma app_keeps_ids_distinct (env : Env) (st : State) (req : Request) :
  ids_distinct (db st) -> ids_distinct (db (fst (app env st req))).
Proof.
  intros Hst. unfold app.
  destruct (run stack env req (load_session env st req)) as [c o] eqn:Hrun.
  apply stack_keeps_ids_distinct in Hrun. unfold keeps_ids_distinct in Hrun.
  rewrite load_session_state in Hrun. cbn [fst]. rewrite save_session_db. auto.
Qed.

(** X3. Row ids stay distinct: if no two visits and no two submissions
    share an id, the same holds after any sequence of requests. *)
Theorem row_ids_stay_distinct (st : State) (reqs : list (Env * Request)) :
  ids_distinct (db st) -> ids_distinct (db (serve st reqs)).
Proof.
  revert st. induction reqs as [|[env req] reqs IH]; intros st Hst; [exact Hst|].
  cbn [serve]. apply IH. now apply app_keeps_ids_distinct.
Qed.

Lemma row_ids_stay_distinct_witness :
  ids_distinct
    (db (serve admin_state
           [(sample_env, sample_request GET "/pricing" [] None);
            (sample_env, sample_request POST "/api/submit" [] None)])).
Proof.
  apply (row_ids_stay_distinct admin_state).
  split; apply (bool_decide_unpack _); vm_compute; exact I.
Defined.

(** ** The rows with the largest ids *)

#[local] Instance visit_id_desc_total : Total visit_id_desc.
Proof. intros a b. unfold visit_id_desc. lia. Qed.

#[local] Instance visit_id_desc_trans : Transitive visit_id_desc.
Proof. intros a b c. unfold visit_id_desc. lia. Qed.

#[local] Instance sub_id_desc_total : Total sub_id_desc.
Proof. intros a b. unfold sub_id_desc. lia. Qed.

#[local] Instance sub_id_desc_trans : Transitive sub_id_desc.
Proof. intros a b c. unfold sub_id_desc. lia. Qed.

Section TopRows.
Context {A : Type} (R : relation A) `{forall x y, Decision (R x y)}.
Context `{!Total R} `{!Transitive R}.

(** [ORDER BY ... LIMIT n]: the first [n] rows of the order, every other
    row coming after each of them. *)
Lemma top_rows (n : nat) (rows : list A) :
  let top := take n (merge_sort R rows) in
  length top = Nat.min n (length rows)
  /\ StronglySorted R top
  /\ exists rest, (top ++ rest)%list ≡ₚ rows
                  /\ forall x y, x ∈ top -> y ∈ rest -> R x y.
Proof.
  cbn zeta.
  assert (HP : merge_sort R rows ≡ₚ rows) by apply merge_sort_Permutation.
  assert (HS : StronglySorted R (merge_sort R rows))
    by (apply StronglySorted_merge_sort; assumption).
  split; [|split].
  - rewrite length_take. now rewrite HP.
  - now apply StronglySorted_take.
  - exists (drop n (merge_sort R rows)). rewrite take_drop. split; [exact HP|].
    intros x y Hx Hy. rewrite <- (take_drop n (merge_sort R rows)) in HS.
    exact (StronglySorted_app_1_elem_of _ _ _ _ _ HS Hx Hy).
Qed.

(** A row that comes strictly before every other row is listed first. *)
Lemma newest_row_first (rows : list A) (x : A) :
  (forall y, y ∈ rows -> R x y /\ ~ R y x) ->
  exists rest, merge_sort R (rows ++ [x]) = x :: rest /\ rest ≡ₚ rows.
Proof.
  intros Hx.
  assert (HP : merge_sort R (rows ++ [x]) ≡ₚ x :: rows).
  { rewrite merge_sort_Permutation. apply Permutation_app_comm. }
  assert (HS : StronglySorted R (merge_sort R (rows ++ [x])))
    by (apply StronglySorted_merge_sort; assumption).
  destruct (merge_sort R (rows ++ [x])) as [|z rest] eqn:Hsorted.
  - apply Permutation_nil_l in HP. discriminate.
  - apply StronglySorted_cons in HS as [Hz _]. rewrite Forall_forall in Hz.
    assert (Hzin : z ∈ x :: rows) by (rewrite <- HP; left).
    assert (Hxin : x ∈ z :: rest) by (rewrite HP; left).
    assert (Heq : z = x).
    { apply elem_of_cons in Hzin as [->|Hzrows]; [reflexivity|].
      apply elem_of_cons in Hxin as [->|Hxrest]; [reflexivity|].
      destruct (Hx z Hzrows) as [_ Hnot]. exfalso. apply Hnot. now apply Hz. }
    subst z. exists rest. split; [reflexivity|].
    now apply Permutation_cons_inv in HP.
Qed.
End TopRows.

(** ** The admin views *)

(** X4. For an admin session, GET /admin renders the dashboard and leaves
    the state alone: the totals are the sizes of the two tables, today's
    count is the number of visits of the server's current day, and the list
    holds the submissions with the ten largest ids (all of them when there
    are fewer), largest first. *)
Theorem dashboard_report (env : Env) (st : State) (req : Request) :
  method req = GET -> path req = "/admin" -> static_file env = None ->
  session_is_admin (session (load_session env st req)) = true ->
  let subs := submissions (db st) in
  let last10 := take 10 (submissions_desc (db st)) in
  app env st req =
    (st, Render 200 (DashboardView (length (visits (db st)))
                       (visits_on (date (sql_now env)) (visits (db st)))
                       (length subs) last10))
  /\ length last10 = Nat.min 10 (length subs)
  /\ StronglySorted (fun a b => sub_id b <= sub_id a) last10
  /\ exists rest, (last10 ++ rest)%list ≡ₚ subs
                  /\ forall x y, x ∈ last10 -> y ∈ rest -> sub_id y <= sub_id x.
Proof.
  intros Hm Hp Hstatic Hadmin subs last10. split.
  - assert (Happ : app env st req =
                   let (c, o) := get_admin env req (load_session env st req) in
                   (save_session c, finish o)).
    { apply (app_gated_admin env st req GET "/admin");
        [cbn; tauto | assumption | assumption | | assumption].
      intros _. unfold public_file. rewrite Hp. exact Hstatic. }
    rewrite Happ. unfold get_admin. rewrite load_session_state.
    now rewrite save_load_session.
  - apply (top_rows sub_id_desc 10 subs).
Qed.

Lemma dashboard_report_witness :
  app sample_env admin_state (sample_request GET "/admin" [] (Some "sid-0"))
    = (admin_state, Render 200 (DashboardView 3 2 0 [])).
Proof.
  apply (dashboard_report sample_env admin_state
           (sample_request GET "/admin" [] (Some "sid-0")));
    reflexivity.
Defined.

(** X5. For an admin session, GET /admin/submissions lists every
    submission exactly once, largest id first, and leaves the state alone. *)
Theorem submissions_view_lists_all (env : Env) (st : State) (req : Request) :
  method req = GET -> path req = "/admin/submissions" -> static_file env = None ->
  session_is_admin (session (load_session env st req)) = true ->
  let rows := submissions_desc (db st) in
  app env st req = (st, Render 200 (SubmissionsView rows))
  /\ rows ≡ₚ submissions (db st)
  /\ StronglySorted (fun a b => sub_id b <= sub_id a) rows.
Proof.
  intros Hm Hp Hstatic Hadmin rows. split; [|split].
  - assert (Happ : app env st req =
                   let (c, o) := get_admin_submissions env req (load_session env st req) in
                   (save_session c, finish o)).
    { apply (app_gated_admin env st req GET "/admin/submissions");
        [cbn; tauto | assumption | assumption | | assumption].
      intros _. unfold public_file. rewrite Hp. exact Hstatic. }
    rewrite Happ. unfold get_admin_submissions. rewrite load_session_state.
    now rewrite save_load_session.
  - apply merge_sort_Permutation.
  - apply (StronglySorted_merge_sort sub_id_desc).
Qed.

Lemma submissions_view_lists_all_witness :
  exists s3 s2 s1,
    app sample_env submitted_state
      (sample_request GET "/admin/submissions" [] (Some "sid-0"))
      = (submitted_state, Render 200 (SubmissionsView [s3; s2; s1]))
    /\ submissions (db submitted_state) = [s1; s2; s3]
    /\ sub_id s3 = 3 /\ sub_id s2 = 2 /\ sub_id s1 = 1
    /\ sub_customer_number s3 = Some "JN498765"
    /\ [s3; s2; s1] ≡ₚ submissions (db submitted_state)
    /\ StronglySorted (fun a b => sub_id b <= sub_id a) [s3; s2; s1].
Proof.
  destruct (submissions_view_lists_all sample_env submitted_state
              (sample_request GET "/admin/submissions" [] (Some "sid-0"))
              eq_refl eq_refl eq_refl eq_refl)
    as (Happ & Hperm & Hsorted).
  do 3 eexists. split; [exact Happ|].
  split; [reflexivity|]. split; [reflexivity|]. split; [reflexivity|].
  split; [reflexivity|]. split; [reflexivity|].
  split; [exact Hperm | exact Hsorted].
Defined.

(** X6. For an admin session, GET /admin/visits lists the visits with the
    thousand largest ids (all of them when there are fewer), largest first:
    every visit left out has an id no larger than any visit listed. The
    state is left alone. *)
Theorem visits_view_most_recent (env : Env) (st : State) (req : Request) :
  method req = GET -> path req = "/admin/visits" -> static_file env = None ->
  session_is_admin (session (load_session env st req)) = true ->
  let rows := visits_desc_1000 (db st) in
  app env st req = (st, Render 200 (VisitsView rows))
  /\ length rows = Nat.min 1000 (length (visits (db st)))
  /\ StronglySorted (fun a b => visit_id b <= visit_id a) rows
  /\ exists rest, (rows ++ rest)%list ≡ₚ visits (db st)
                  /\ forall x y, x ∈ rows -> y ∈ rest -> visit_id y <= visit_id x.
Proof.
  intros Hm Hp Hstatic Hadmin rows. split.
  - assert (Happ : app env st req =
                   let (c, o) := get_admin_visits env req (load_session env st req) in
                   (save_session c, finish o)).
    { apply (app_gated_admin env st req GET "/admin/visits");
        [cbn; tauto | assumption | assumption | | assumption].
      intros _. unfold public_file. rewrite Hp. exact Hstatic. }
    rewrite Happ. unfold get_admin_visits. rewrite load_session_state.
    now rewrite save_load_session.
  - apply (top_rows visit_id_desc 1000 (visits (db st))).
Qed.

Lemma visits_view_most_recent_witness :
  exists v3 v2 v1,
    app sample_env admin_state (sample_request GET "/admin/visits" [] (Some "sid-0"))
      = (admin_state, Render 200 (VisitsView [v3; v2; v1]))
    /\ visit_id v3 = 3 /\ visit_id v2 = 2 /\ visit_id v1 = 1.
Proof.
  do 3 eexists. split.
  - apply (visits_view_most_recent sample_env admin_state
             (sample_request GET "/admin/visits" [] (Some "sid-0")));
      reflexivity.
  - repeat split; reflexivity.
Defined.

(** ** What the recorder stores *)

Lemma app_records_visit (env : Env) (st : State) (req : Request) :
  under_admin_or_api req = false -> store_rejects env = false ->
  exists v,
    visits (db (fst (app env st req))) = (visits (db st) ++ [v])%list
    /\ visit_id v = next_id (visit_id <$> visits (db st))
    /\ visit_path v = or_string (Some (path req)) "/"
    /\ visit_ip v = or_string (option_map before_comma (x_forwarded_for req))
                      (or_string (remote_address req) "unknown")
    /\ visit_ua v = or_string (user_agent req) "unknown"
    /\ visit_ts v = sql_now env.
Proof.
  intros Hout Hok. unfold app, stack.
  assert (Htrack : exists v d,
            track_visits env req (load_session env st req)
              = (with_db (load_session env st req) d, Next)
            /\ d = {| submissions := submissions (db st);
                      visits := (visits (db st) ++ [v])%list;
                      admins := admins (db st) |}
            /\ visit_id v = next_id (visit_id <$> visits (db st))
            /\ visit_path v = or_string (Some (path req)) "/"
            /\ visit_ip v = or_string (option_map before_comma (x_forwarded_for req))
                              (or_string (remote_address req) "unknown")
            /\ visit_ua v = or_string (user_agent req) "unknown"
            /\ visit_ts v = sql_now env).
  { unfold track_visits. unfold under_admin_or_api in Hout. rewrite Hout, Hok.
    rewrite load_session_state.
    destruct (insert_visit false (sql_now env) (db st) _ _ _) as [d|e] eqn:Hins;
      [|discriminate].
    apply insert_visit_row in Hins as (v & -> & Hid & Hp & Hip & Hua & Hts).
    exists v. eexists. split; [reflexivity|]. auto 10. }
  destruct Htrack as (v & d & Htrack & -> & Hv).
  exists v. rewrite (run_cons_next _ _ _ _ _ _ Htrack).
  destruct (run [serve_static; router routes] env req _) as [c o] eqn:Hrest.
  apply after_recorder_same_visits in Hrest. unfold same_visits in Hrest.
  cbn [fst]. rewrite save_session_db, Hrest. split; [reflexivity | exact Hv].
Qed.

Lemma or_string_not_empty (s : option string) (fallback : string) :
  fallback <> "" -> or_string s fallback <> "".
Proof. intros Hf. destruct s as [[|a s]|]; cbn; try assumption; discriminate. Qed.

(** [split(',')[0]] of an entry followed by nothing or by a comma. *)
Lemma before_comma_first (first rest : string) :
  comma_free first = true -> (rest = "" \/ exists r, rest = String "," r) ->
  before_comma (first ++ rest) = first.
Proof.
  intros Hfree Hrest. induction first as [|a first IH]; cbn [append].
  - destruct Hrest as [-> | [r ->]]; reflexivity.
  - cbn [comma_free] in Hfree. apply andb_true_iff in Hfree as [Ha Hfree].
    cbn [before_comma]. apply negb_true_iff in Ha. rewrite Ha.
    now rewrite IH.
Qed.

(** X7. The visit stored for a recorded request never has an empty
    address or user agent. The address is the first entry of the
    [x-forwarded-for] header, the text before its first comma; when the
    header is empty or begins with a comma it is the socket address, as it
    is without the header; the user agent is the one sent. Missing values
    are stored as ["unknown"]. *)
Theorem recorded_visit_source (env : Env) (st : State) (req : Request) :
  under_admin_or_api req = false -> store_rejects env = false ->
  exists v,
    visits (db (fst (app env st req))) = (visits (db st) ++ [v])%list
    /\ visit_ip v <> "" /\ visit_ua v <> ""
    /\ (forall first rest,
          x_forwarded_for req = Some (first ++ rest) ->
          comma_free first = true -> first <> "" ->
          rest = "" \/ (exists r, rest = String "," r) ->
          visit_ip v = first)
    /\ (forall rest a,
          x_forwarded_for req = Some rest ->
          rest = "" \/ (exists r, rest = String "," r) ->
          remote_address req = Some a -> a <> "" -> visit_ip v = a)
    /\ (forall a, x_forwarded_for req = None -> remote_address req = Some a ->
          a <> "" -> visit_ip v = a)
    /\ (x_forwarded_for req = None -> remote_address req = None ->
        visit_ip v = "unknown")
    /\ (forall u, user_agent req = Some u -> u <> "" -> visit_ua v = u)
    /\ (user_agent req = None -> visit_ua v = "unknown").
Proof.
  intros Hout Hok.
  destruct (app_records_visit env st req Hout Hok)
    as (v & Hvisits & _ & _ & Hip & Hua & _).
  exists v. split; [exact Hvisits|]. rewrite Hip, Hua.
  split; [apply or_string_not_empty, or_string_not_empty; discriminate|].
  split; [apply or_string_not_empty; discriminate|].
  split; [|split; [|split; [|split; [|split]]]].
  - intros first rest -> Hfree Hne Hrest. cbn [option_map].
    rewrite before_comma_first by assumption. now apply or_string_nonempty.
  - intros rest a -> Hrest -> Ha. cbn [option_map].
    destruct Hrest as [-> | [r ->]]; (destruct a; [contradiction | reflexivity]).
  - intros a -> -> Ha. destruct a; [contradiction | reflexivity].
  - intros -> ->. reflexivity.
  - intros u -> Hu. now apply or_string_nonempty.
  - intros ->. reflexivity.
Qed.

Lemma recorded_visit_source_witness :
  exists v,
    visits (db (fst (app sample_env empty_state (sample_request GET "/" [] None))))
      = (visits (db empty_state) ++ [v])%list
    /\ visit_ip v = "203.0.113.7".
Proof.
  destruct (recorded_visit_source sample_env empty_state
              (sample_request GET "/" [] None)) as (v & Hv & _ & _ & Hip & _);
    [reflexivity | reflexivity |].
  exists v. split; [exact Hv|].
  apply (Hip "203.0.113.7" ", 10.0.0.1"); [reflexivity | reflexivity | discriminate |].
  right. eexists. reflexivity.
Defined.

(** X8. A recorded request shows up at the top of the visits view: when
    an admin opens GET /admin/visits after it, the first row listed is the
    visit of that request, followed by the earlier visits with the 999
    largest ids. *)
Theorem newest_visit_listed_first (env1 env2 : Env) (st : State) (req1 req2 : Request) :
  under_admin_or_api req1 = false -> store_rejects env1 = false ->
  let st1 := fst (app env1 st req1) in
  method req2 = GET -> path req2 = "/admin/visits" -> static_file env2 = None ->
  session_is_admin (session (load_session env2 st1 req2)) = true ->
  exists v rest,
    snd (app env2 st1 req2) = Render 200 (VisitsView (v :: take 999 rest))
    /\ rest ≡ₚ visits (db st)
    /\ visit_path v = or_string (Some (path req1)) "/"
    /\ visit_ts v = sql_now env1.
Proof.
  intros Hout Hok st1 Hm Hp Hstatic Hadmin.
  destruct (app_records_visit env1 st req1 Hout Hok)
    as (v & Hvisits & Hid & Hpath & _ & _ & Hts).
  fold st1 in Hvisits.
  destruct (newest_row_first visit_id_desc (visits (db st)) v) as (rest & Hsorted & Hperm).
  { intros y Hy. unfold visit_id_desc.
    assert (visit_id y < visit_id v).
    { rewrite Hid. apply next_id_above. now apply list_elem_of_fmap_2. }
    lia. }
  exists v, rest.
  assert (Happ : app env2 st1 req2 =
                 let (c, o) := get_admin_visits env2 req2 (load_session env2 st1 req2) in
                 (save_session c, finish o)).
  { apply (app_gated_admin env2 st1 req2 GET "/admin/visits");
      [cbn; tauto | assumption | assumption | | assumption].
    intros _. unfold public_file. rewrite Hp. exact Hstatic. }
  rewrite Happ. unfold get_admin_visits, visits_desc_1000.
  rewrite load_session_state, Hvisits, Hsorted. cbn [snd finish].
  repeat split; assumption.
Qed.

Lemma newest_visit_listed_first_witness :
  exists v rest,
    snd (app sample_env
           (fst (app sample_env admin_state (sample_request GET "/contact" [] None)))
           (sample_request GET "/admin/visits" [] (Some "sid-0")))
      = Render 200 (VisitsView (v :: take 999 rest))
    /\ rest ≡ₚ visits (db admin_state)
    /\ visit_path v = "/contact"
    /\ visit_ts v = "2026-11-02 14:23:32".
Proof.
  apply (newest_visit_listed_first sample_env sample_env admin_state
           (sample_request GET "/contact" [] None)
           (sample_request GET "/admin/visits" [] (Some "sid-0")));
    reflexivity.
Defined.

(** ** Static files and the editor *)

Lemma app_serves_static (env : Env) (st : State) (req : Request)
    (content : string) :
  method req = GET -> under_admin_or_api req = false -> path req <> "" ->
  store_rejects env = false ->
  public_file env st (path req) = Some content ->
  exists v,
    app env st req =
      ({| db := {| submissions := submissions (db st);
                   visits := (visits (db st) ++ [v])%list;
                   admins := admins (db st) |};
          sessions := sessions st; landing := landing st |},
       StaticFile content)
    /\ visit_path v = path req.
Proof.
  intros Hm Hout Hpath Hok Hfile.
  destruct (track_visits_stored env req (load_session env st req) Hout Hok)
    as (v & Htrack & Hv & _).
  exists v. split; [|rewrite Hv; now apply or_string_nonempty].
  unfold app, stack. rewrite (run_cons_next _ _ _ _ _ _ Htrack).
  assert (Hs : forall c, state c = state (with_db (load_session env st req)
                  {| submissions := submissions (db (state (load_session env st req)));
                     visits := (visits (db (state (load_session env st req))) ++ [v])%list;
                     admins := admins (db (state (load_session env st req))) |}) ->
               serve_static env req c = (c, Respond (StaticFile content))).
  { intros c Hc. unfold serve_static. rewrite Hm, Hc.
    unfold public_file in *. cbn [with_db state landing].
    rewrite load_session_state. now rewrite Hfile. }
  cbn [run]. rewrite Hs by reflexivity. cbn [finish].
  unfold save_session, with_db. cbn [session modified state].
  rewrite load_session_state.
  assert (Hmod : modified (load_session env st req) = false).
  { unfold load_session.
    destruct (cookie req) as [sid|]; [destruct (sessions st !! sid)|]; reflexivity. }
  rewrite Hmod. destruct (session (load_session env st req)); reflexivity.
Qed.

(** X9. The recorder runs before the static files: a GET for a file of
    the public directory outside the two prefixes is answered with the
    file and counted as one visit of its path (the store accepting the
    write); nothing else of the state changes. *)
Theorem static_file_request_recorded (env : Env) (st : State) (req : Request)
    (content : string) :
  method req = GET -> under_admin_or_api req = false -> path req <> "" ->
  store_rejects env = false ->
  public_file env st (path req) = Some content ->
  exists v,
    app env st req =
      ({| db := {| submissions := submissions (db st);
                   visits := (visits (db st) ++ [v])%list;
                   admins := admins (db st) |};
          sessions := sessions st; landing := landing st |},
       StaticFile content)
    /\ visit_path v = path req.
Proof. apply app_serves_static. Qed.

Lemma static_file_request_recorded_witness :
  exists v,
    app sample_env admin_state (sample_request GET "/landing.html" [] None)
      = ({| db := {| submissions := submissions (db admin_state);
                     visits := (visits (db admin_state) ++ [v])%list;
                     admins := admins (db admin_state) |};
            sessions := sessions admin_state; landing := landing admin_state |},
         StaticFile "<h1>Welcome</h1>")
    /\ visit_path v = "/landing.html".
Proof.
  apply (static_file_request_recorded sample_env admin_state
           (sample_request GET "/landing.html" [] None) "<h1>Welcome</h1>");
    try reflexivity.
  discriminate.
Defined.

Lemma app_editor_post (env : Env) (st : State) (req : Request) (text : string) :
  method req = POST -> path req = "/admin/editor" ->
  session_is_admin (session (load_session env st req)) = true ->
  JS.get (body req) "content" = JS.Str text -> write_fails env = false ->
  app env st req =
    ({| db := db st; sessions := sessions st; landing := Some text |},
     Redirect "/admin/editor").
Proof.
  intros Hm Hp Hadmin Hcontent Hok.
  assert (Happ : app env st req =
                 let (c, o) := post_admin_editor env req (load_session env st req) in
                 (save_session c, finish o)).
  { apply (app_gated_admin env st req POST "/admin/editor");
      [cbn; tauto | assumption | assumption | | assumption].
    rewrite Hm. discriminate. }
  rewrite Happ. unfold post_admin_editor, writeFileSync. rewrite Hcontent, Hok.
  cbn [finish]. unfold save_session, with_landing. cbn [session modified state].
  rewrite load_session_state.
  assert (Hmod : modified (load_session env st req) = false).
  { unfold load_session.
    destruct (cookie req) as [sid|]; [destruct (sessions st !! sid)|]; reflexivity. }
  rewrite Hmod. destruct (session (load_session env st req)); reflexivity.
Qed.

Lemma app_editor_get (env : Env) (st : State) (req : Request) (text : string) :
  method req = GET -> path req = "/admin/editor" -> static_file env = None ->
  session_is_admin (session (load_session env st req)) = true ->
  landing st = Some text -> read_fails env = false ->
  app env st req = (st, Render 200 (EditorView text)).
Proof.
  intros Hm Hp Hstatic Hadmin Hfile Hok.
  assert (Happ : app env st req =
                 let (c, o) := get_admin_editor env req (load_session env st req) in
                 (save_session c, finish o)).
  { apply (app_gated_admin env st req GET "/admin/editor");
      [cbn; tauto | assumption | assumption | | assumption].
    intros _. unfold public_file. rewrite Hp. exact Hstatic. }
  rewrite Happ. unfold get_admin_editor. rewrite load_session_state.
  destruct (readFileSync_cases env st) as [Hread _].
  rewrite (Hread text Hfile Hok). now rewrite save_load_session.
Qed.

(** X10. What the editor saves is what is read back: after an admin's
    POST /admin/editor with a content string, the editor view shows exactly
    that string and a GET of the public landing path is answered with it,
    whatever the file held before. *)
Theorem editor_round_trip (env env2 env3 : Env) (st : State) (req req2 req3 : Request)
    (text : string) :
  method req = POST -> path req = "/admin/editor" ->
  session_is_admin (session (load_session env st req)) = true ->
  JS.get (body req) "content" = JS.Str text -> write_fails env = false ->
  let st1 := fst (app env st req) in
  (method req2 = GET -> path req2 = "/admin/editor" -> static_file env2 = None ->
   session_is_admin (session (load_session env2 st1 req2)) = true ->
   read_fails env2 = false ->
   app env2 st1 req2 = (st1, Render 200 (EditorView text)))
  /\ (method req3 = GET -> path req3 = LANDING_URL -> store_rejects env3 = false ->
      snd (app env3 st1 req3) = StaticFile text).
Proof.
  intros Hm Hp Hadmin Hcontent Hok st1.
  assert (Hst1 : landing st1 = Some text).
  { unfold st1. now rewrite (app_editor_post env st req text). }
  split.
  - intros Hm2 Hp2 Hstatic Hadmin2 Hread. now apply app_editor_get.
  - intros Hm3 Hp3 Hstore.
    destruct (app_serves_static env3 st1 req3 text) as (v & -> & _);
      try assumption; try reflexivity.
    + unfold under_admin_or_api. now rewrite Hp3.
    + rewrite Hp3. discriminate.
    + unfold public_file. now rewrite Hp3, String.eqb_refl.
Qed.

Lemma editor_round_trip_witness :
  app sample_env
    (fst (app sample_env admin_state
            (sample_request POST "/admin/editor"
               [("content", JS.Str "<h1>Hi</h1>")] (Some "sid-0"))))
    (sample_request GET "/admin/editor" [] (Some "sid-0"))
  = (fst (app sample_env admin_state
            (sample_request POST "/admin/editor"
               [("content", JS.Str "<h1>Hi</h1>")] (Some "sid-0"))),
     Render 200 (EditorView "<h1>Hi</h1>"))
  /\ snd (app sample_env
            (fst (app sample_env admin_state
                    (sample_request POST "/admin/editor"
                       [("content", JS.Str "<h1>Hi</h1>")] (Some "sid-0"))))
            (sample_request GET "/landing.html" [] None))
     = StaticFile "<h1>Hi</h1>".
Proof.
  split.
  - apply (editor_round_trip sample_env sample_env sample_env admin_state
             (sample_request POST "/admin/editor"
                [("content", JS.Str "<h1>Hi</h1>")] (Some "sid-0"))
             (sample_request GET "/admin/editor" [] (Some "sid-0"))
             (sample_request GET "/landing.html" [] None) "<h1>Hi</h1>");
      reflexivity.
  - apply (editor_round_trip sample_env sample_env sample_env admin_state
             (sample_request POST "/admin/editor"
                [("content", JS.Str "<h1>Hi</h1>")] (Some "sid-0"))
             (sample_request GET "/admin/editor" [] (Some "sid-0"))
             (sample_request GET "/landing.html" [] None) "<h1>Hi</h1>");
      reflexivity.
Defined.

(** ** Sessions across requests *)

Lemma admin_session_cookie (env : Env) (st : State) (req : Request) :
  session_is_admin (session (load_session env st req)) = true ->
  exists s, cookie req = Some (session_id (load_session env st req))
            /\ sessions st !! session_id (load_session env st req) = Some s.
Proof.
  unfold load_session.
  destruct (cookie req) as [sid|]; [|discriminate].
  destruct (sessions st !! sid) as [s|] eqn:Hs; [|discriminate].
  intros _. exists s. cbn. auto.
Qed.

Lemma load_session_unknown (env : Env) (st : State) (req : Request) (sid : string) :
  cookie req = Some sid -> sessions st !! sid = None ->
  session_is_admin (session (load_session env st req)) = false.
Proof. unfold load_session. intros -> ->. reflexivity. Qed.

Lemma app_logout (env : Env) (st : State) (req : Request) :
  method req = POST -> path req = "/admin/logout" ->
  session_is_admin (session (load_session env st req)) = true ->
  app env st req =
    ({| db := db st;
        sessions := delete (session_id (load_session env st req)) (sessions st);
        landing := landing st |},
     Redirect "/admin/login").
Proof.
  intros Hm Hp Hadmin.
  assert (Happ : app env st req =
                 let (c, o) := post_admin_logout env req (load_session env st req) in
                 (save_session c, finish o)).
  { apply (app_gated_admin env st req POST "/admin/logout");
      [cbn; tauto | assumption | assumption | | assumption].
    rewrite Hm. discriminate. }
  rewrite Happ. unfold post_admin_logout.
  destruct (load_session_some env st req) as [s ->].
  unfold save_session, destroy_session. cbn [session state finish].
  now rewrite load_session_state.
Qed.

(** X11. Logout ends the session: for an admin session, POST
    /admin/logout removes that session from the store, leaves every other
    session, the tables and the landing file alone, and redirects to the
    login page; a later request with the same cookie is anonymous again. *)
Theorem logout_ends_session (env : Env) (st : State) (req : Request) :
  method req = POST -> path req = "/admin/logout" ->
  session_is_admin (session (load_session env st req)) = true ->
  let sid := session_id (load_session env st req) in
  let st' := fst (app env st req) in
  snd (app env st req) = Redirect "/admin/login"
  /\ sessions st' !! sid = None
  /\ (forall other, other <> sid -> sessions st' !! other = sessions st !! other)
  /\ db st' = db st /\ landing st' = landing st
  /\ (forall env' req', cookie req' = cookie req ->
        session_is_admin (session (load_session env' st' req')) = false).
Proof.
  intros Hm Hp Hadmin sid st'. unfold st'.
  rewrite (app_logout env st req Hm Hp Hadmin). cbn [fst snd db sessions landing].
  fold sid. split; [reflexivity|]. split; [apply lookup_delete_eq|].
  split; [intros other Hne; now apply lookup_delete_ne|].
  split; [reflexivity|]. split; [reflexivity|].
  intros env' req' Hcookie.
  destruct (admin_session_cookie env st req Hadmin) as (s & Hc & _). fold sid in Hc.
  apply (load_session_unknown env' _ req' sid); [congruence|].
  cbn [sessions]. apply lookup_delete_eq.
Qed.

Lemma logout_ends_session_witness :
  snd (app sample_env admin_state (sample_request POST "/admin/logout" [] (Some "sid-0")))
    = Redirect "/admin/login"
  /\ sessions (fst (app sample_env admin_state
                      (sample_request POST "/admin/logout" [] (Some "sid-0")))) !! "sid-0"
     = None.
Proof.
  destruct (logout_ends_session sample_env admin_state
              (sample_request POST "/admin/logout" [] (Some "sid-0")))
    as (Hresp & Hgone & _); [reflexivity | reflexivity | reflexivity |].
  split; [exact Hresp | exact Hgone].
Defined.

(** X12. Login opens the dashboard: after a login accepted for a row of
    the admins table, a GET /admin that carries the id of that session is
    answered with the dashboard, not with a redirect. *)
Theorem login_then_dashboard (env env2 : Env) (st : State) (req req2 : Request)
    (u p : string) :
  method req = POST -> path req = "/admin/login" ->
  JS.get (body req) "username" = JS.Str u ->
  JS.get (body req) "password" = JS.Str p ->
  admins (db st) !! u = Some p ->
  let sid := session_id (load_session env st req) in
  let st1 := fst (app env st req) in
  method req2 = GET -> path req2 = "/admin" -> static_file env2 = None ->
  cookie req2 = Some sid ->
  exists totalVisits todayVisits totalSubmissions last10,
    app env2 st1 req2 =
      (st1, Render 200 (DashboardView totalVisits todayVisits totalSubmissions last10)).
Proof.
  intros Hm Hp Hu Hpw Hrow sid st1 Hm2 Hp2 Hstatic Hcookie.
  destruct (login_accepted env st req u p Hm Hp Hu Hpw Hrow) as [_ Hstore].
  fold sid in Hstore. fold st1 in Hstore.
  assert (Hadmin : session_is_admin (session (load_session env2 st1 req2)) = true).
  { apply (authenticated_passes_gate env2 st1 req2 sid); [|exact Hcookie].
    unfold authenticated. now rewrite Hstore. }
  assert (Happ : app env2 st1 req2 =
                 let (c, o) := get_admin env2 req2 (load_session env2 st1 req2) in
                 (save_session c, finish o)).
  { apply (app_gated_admin env2 st1 req2 GET "/admin");
      [cbn; tauto | assumption | assumption | | assumption].
    intros _. unfold public_file. rewrite Hp2. exact Hstatic. }
  rewrite Happ. unfold get_admin. rewrite save_load_session.
  do 4 eexists. reflexivity.
Qed.

Lemma login_then_dashboard_witness :
  exists totalVisits todayVisits totalSubmissions last10,
    app sample_env
      (fst (app sample_env admin_state
              (sample_request POST "/admin/login"
                 [("username", JS.Str "admin"); ("password", JS.Str "erfan9028@")] None)))
      (sample_request GET "/admin" [] (Some "sid-1"))
    = (fst (app sample_env admin_state
              (sample_request POST "/admin/login"
                 [("username", JS.Str "admin"); ("password", JS.Str "erfan9028@")] None)),
       Render 200 (DashboardView totalVisits todayVisits totalSubmissions last10)).
Proof.
  apply (login_then_dashboard sample_env sample_env admin_state
           (sample_request POST "/admin/login"
              [("username", JS.Str "admin"); ("password", JS.Str "erfan9028@")] None)
           (sample_request GET "/admin" [] (Some "sid-1")) "admin" "erfan9028@");
    reflexivity.
Defined.

(** ** Startup *)

(** X13. Startup restores the admin login and touches nothing else: it
    is idempotent, keeps the rows of other usernames, the other tables, the
    sessions and the landing file, and whatever password the store held for
    the admin username before, afterwards a login with the fixed username
    and password is accepted and one with any other password is refused. *)
Theorem startup_restores_admin_login (st : State) :
  startup (startup st) = startup st
  /\ submissions (db (startup st)) = submissions (db st)
  /\ visits (db (startup st)) = visits (db st)
  /\ sessions (startup st) = sessions st
  /\ landing (startup st) = landing st
  /\ (forall env req p,
        method req = POST -> path req = "/admin/login" ->
        JS.get (body req) "username" = JS.Str ADMIN_USERNAME ->
        JS.get (body req) "password" = JS.Str p ->
        (p = ADMIN_PASSWORD -> snd (app env (startup st) req) = Redirect "/admin")
        /\ (p <> ADMIN_PASSWORD ->
            app env (startup st) req
              = (startup st, Render 401 (LoginView (Some LOGIN_ERROR))))).
Proof.
  split; [|repeat (split; [reflexivity|])].
  - unfold startup, insert_or_replace_admin. cbn. now rewrite insert_insert_eq.
  - intros env req p Hm Hp Hu Hpw.
    destruct (startup_admins st) as [Hrow _]. split.
    + intros ->.
      now destruct (login_accepted env (startup st) req _ _ Hm Hp Hu Hpw Hrow).
    + intros Hne. rewrite (app_post_admin_login env (startup st) req Hm Hp).
      rewrite (post_admin_login_strings env req _ _ p Hu Hpw), load_session_state.
      rewrite bool_decide_eq_false_2 by (rewrite Hrow; congruence).
      now rewrite save_load_session.
Qed.

Lemma startup_restores_admin_login_witness :
  snd (app sample_env (startup leftover_state)
         (sample_request POST "/admin/login"
            [("username", JS.Str "admin"); ("password", JS.Str "erfan9028@")] None))
    = Redirect "/admin".
Proof.
  destruct (startup_restores_admin_login leftover_state) as (_ & _ & _ & _ & _ & Hlogin).
  apply (Hlogin sample_env
           (sample_request POST "/admin/login"
              [("username", JS.Str "admin"); ("password", JS.Str "erfan9028@")] None)
           "erfan9028@"); reflexivity.
Defined.

(** ** Who writes what *)

Ltac unfold_handlers H :=
  unfold requireAuth, get_admin_login, post_admin_login, post_admin_logout,
    get_admin, get_admin_submissions, get_admin_visits, get_admin_editor,
    post_admin_editor, writeFileSync, post_api_submit, get_api_stats, get_root in H.

(** Settles one route of the table: either the request is known not to be
    routed to it, or each of its handlers is examined by [tac]. *)
Ltac per_route refl seq tac :=
  let Hmatch := fresh "Hmatch" in
  intros Hmatch;
  first
    [ exfalso; unfold route_matches in Hmatch;
      cbn [route_method route_path] in Hmatch; unfold routed_to in *; congruence
    | clear Hmatch; apply run_respects; [exact refl | exact seq |];
      cbn [route_handlers]; each_element; tac ].

Lemma same_submissions_seq (c1 c2 c3 : Ctx) (o : Outcome) :
  same_submissions c1 c2 Next -> same_submissions c2 c3 o -> same_submissions c1 c3 o.
Proof. unfold same_submissions. congruence. Qed.

Lemma same_landing_seq (c1 c2 c3 : Ctx) (o : Outcome) :
  same_landing c1 c2 Next -> same_landing c2 c3 o -> same_landing c1 c3 o.
Proof. unfold same_landing. congruence. Qed.

Lemma same_sessions_seq (c1 c2 c3 : Ctx) (o : Outcome) :
  same_sessions c1 c2 Next -> same_sessions c2 c3 o -> same_sessions c1 c3 o.
Proof. unfold same_sessions. intros [? ?] [? ?]. split; congruence. Qed.

Lemma track_visits_tables (env : Env) (req : Request) (c c' : Ctx) (o : Outcome) :
  track_visits env req c = (c', o) ->
  submissions (db (state c')) = submissions (db (state c))
  /\ landing (state c') = landing (state c)
  /\ sessions (state c') = sessions (state c)
  /\ session c' = session c /\ modified c' = modified c.
Proof.
  unfold track_visits, insert_visit. intros H. crack_handler H; cbn; auto.
Qed.

Lemma insert_submission_landing (c : Ctx) (d : Database) :
  landing (state (with_db c d)) = landing (state c)
  /\ sessions (state (with_db c d)) = sessions (state c).
Proof. split; reflexivity. Qed.

(** X14. Only the submission route writes to the submissions table: a
    request that Express does not route to POST /api/submit, whatever else
    it does, leaves the table as it was. *)
Theorem only_submit_route_adds_submissions (env : Env) (st : State) (req : Request) :
  routed_to POST "/api/submit" req = false ->
  submissions (db (fst (app env st req))) = submissions (db st).
Proof.
  intros Hno. unfold app.
  destruct (run stack env req (load_session env st req)) as [c o] eqn:Hrun.
  cbn [fst]. rewrite save_session_db.
  transitivity (submissions (db (state (load_session env st req))));
    [|now rewrite load_session_state].
  revert Hrun. generalize (load_session env st req). intros c0 Hrun.
  revert c0 c o Hrun.
  change (respects same_submissions env req (run stack)).
  apply run_respects; [reflexivity | exact same_submissions_seq |].
  unfold stack. each_element.
  - intros c0 c o H. now apply track_visits_tables in H.
  - intros c0 c o H. now apply serve_static_same in H as ->.
  - apply router_respects; [reflexivity | exact same_submissions_seq |].
    unfold routes. each_element.
    all: per_route (fun c : Ctx => eq_refl (submissions (db (state c))))
           same_submissions_seq
           ltac:(intros c0 c o H; unfold same_submissions; unfold_handlers H;
                 crack_handler H; reflexivity).
Qed.

Lemma only_submit_route_adds_submissions_witness :
  submissions (db (fst (app sample_env admin_state
                          (sample_request GET "/api/submit"
                             [("name", JS.Str "Sara")] None))))
  = submissions (db admin_state).
Proof.
  apply (only_submit_route_adds_submissions sample_env admin_state
           (sample_request GET "/api/submit" [("name", JS.Str "Sara")] None)).
  reflexivity.
Defined.

(** X15. Only the editor's POST route writes the landing file: a request
    that Express does not route to POST /admin/editor leaves the file as it
    was. *)
Theorem only_editor_post_writes_landing (env : Env) (st : State) (req : Request) :
  routed_to POST "/admin/editor" req = false ->
  landing (fst (app env st req)) = landing st.
Proof.
  intros Hno. unfold app.
  destruct (run stack env req (load_session env st req)) as [c o] eqn:Hrun.
  cbn [fst]. rewrite save_session_landing.
  transitivity (landing (state (load_session env st req)));
    [|now rewrite load_session_state].
  revert Hrun. generalize (load_session env st req). intros c0 Hrun.
  revert c0 c o Hrun.
  change (respects same_landing env req (run stack)).
  apply run_respects; [reflexivity | exact same_landing_seq |].
  unfold stack. each_element.
  - intros c0 c o H. now apply track_visits_tables in H.
  - intros c0 c o H. now apply serve_static_same in H as ->.
  - apply router_respects; [reflexivity | exact same_landing_seq |].
    unfold routes. each_element.
    all: per_route (fun c : Ctx => eq_refl (landing (state c)))
           same_landing_seq
           ltac:(intros c0 c o H; unfold same_landing; unfold_handlers H;
                 crack_handler H; reflexivity).
Qed.

Lemma only_editor_post_writes_landing_witness :
  landing (fst (app sample_env admin_state
                  (sample_request GET "/admin/editor"
                     [("content", JS.Str "<h1>Hi</h1>")] (Some "sid-0"))))
  = landing admin_state.
Proof.
  apply (only_editor_post_writes_landing sample_env admin_state
           (sample_request GET "/admin/editor"
              [("content", JS.Str "<h1>Hi</h1>")] (Some "sid-0"))).
  reflexivity.
Defined.

(** X16. Only login and logout touch the session store: a request that
    Express routes to neither POST /admin/login nor POST /admin/logout
    leaves the store as it was; in particular, browsing and submitting the
    form never create a session. *)
Theorem only_login_and_logout_change_sessions (env : Env) (st : State) (req : Request) :
  routed_to POST "/admin/login" req = false ->
  routed_to POST "/admin/logout" req = false ->
  sessions (fst (app env st req)) = sessions st.
Proof.
  intros Hlogin Hlogout. unfold app.
  destruct (run stack env req (load_session env st req)) as [c o] eqn:Hrun.
  cbn [fst].
  assert (Hsame : same_sessions (load_session env st req) c o).
  { revert Hrun. generalize (load_session env st req). intros c0 Hrun.
    revert c0 c o Hrun.
    change (respects same_sessions env req (run stack)).
    apply run_respects; [split; reflexivity | exact same_sessions_seq |].
    unfold stack. each_element.
    - intros c0 c o H. apply track_visits_tables in H. unfold same_sessions. tauto.
    - intros c0 c o H. apply serve_static_same in H as ->. split; reflexivity.
    - apply router_respects; [split; reflexivity | exact same_sessions_seq |].
      unfold routes. each_element.
      all: per_route (fun c : Ctx => conj (eq_refl (sessions (state c)))
                                           (eq_refl (modified c)))
             same_sessions_seq
             ltac:(intros c0 c o H; unfold same_sessions; unfold_handlers H;
                   crack_handler H; split; reflexivity). }
  destruct Hsame as [Hstore Hmod]. rewrite load_session_state in Hstore.
  assert (Hfalse : modified c = false).
  { rewrite Hmod. unfold load_session.
    destruct (cookie req) as [sid|]; [destruct (sessions st !! sid)|]; reflexivity. }
  unfold save_session. rewrite Hfalse.
  destruct (session c); exact Hstore.
Qed.

Lemma only_login_and_logout_change_sessions_witness :
  sessions (fst (app sample_env admin_state (sample_request GET "/pricing" [] None)))
  = sessions admin_state.
Proof.
  apply (only_login_and_logout_change_sessions sample_env admin_state
           (sample_request GET "/pricing" [] None));
    reflexivity.
Defined.

(** ** What a visitor cannot do *)

Lemma anonymous_bound_next (c : Ctx) : anonymous_bound c c Next.
Proof. intros H. split; [reflexivity | exact H]. Qed.

Lemma anonymous_bound_seq (c1 c2 c3 : Ctx) (o : Outcome) :
  anonymous_bound c1 c2 Next -> anonymous_bound c2 c3 o -> anonymous_bound c1 c3 o.
Proof.
  intros H12 H23 H1. destruct (H12 H1) as [Hl12 H2]. destruct (H23 H2) as [Hl23 Ho].
  split; [congruence | exact Ho].
Qed.

(** X17. The gate cannot be passed by spelling: whatever the method and
    the path of a request (letter case, trailing slash, HEAD included), when
    its session does not carry the admin marker the response is no admin
    view and no stats report, and the landing file is left as it was. *)
Theorem anonymous_requests_get_no_admin_data (env : Env) (st : State) (req : Request) :
  session_is_admin (session (load_session env st req)) = false ->
  admin_response (snd (app env st req)) = false
  /\ landing (fst (app env st req)) = landing st.
Proof.
  intros Hanon. unfold app.
  destruct (run stack env req (load_session env st req)) as [c o] eqn:Hrun.
  cbn [fst snd]. rewrite save_session_landing.
  assert (Hbound : anonymous_bound (load_session env st req) c o).
  { revert Hrun. generalize (load_session env st req). intros c0 Hrun.
    revert c0 c o Hrun.
    change (respects anonymous_bound env req (run stack)).
    apply run_respects; [exact anonymous_bound_next | exact anonymous_bound_seq |].
    unfold stack. each_element.
    - intros c0 c o H Hc0. pose proof (track_visits_cases _ _ _ _ _ H) as Hcases.
      apply track_visits_tables in H as (_ & Hl & _ & Hs & _).
      split; [exact Hl|].
      destruct Hcases as [[_ [-> | [e ->]]] | (d & _ & ->)];
        try exact I; now rewrite Hs.
    - intros c0 c o H Hc0. unfold serve_static in H.
      crack_handler H; split; try reflexivity; assumption.
    - apply router_respects; [exact anonymous_bound_next | exact anonymous_bound_seq |].
      unfold routes. each_element.
      all: intros _; cbn [route_handlers]; intros c0 c o H Hc0;
           first [ rewrite run_singleton in H | rewrite gated_chain, Hc0 in H ];
           unfold_handlers H; crack_handler H; split; reflexivity. }
  destruct (Hbound Hanon) as [Hl Ho]. rewrite load_session_state in Hl.
  split; [|exact Hl]. destruct o; [reflexivity | exact Ho | reflexivity].
Qed.

Lemma anonymous_requests_get_no_admin_data_witness :
  admin_response (snd (app sample_env admin_state
                         (sample_request HEAD "/Admin/Visits/" [] None))) = false
  /\ landing (fst (app sample_env admin_state
                     (sample_request HEAD "/Admin/Visits/" [] None)))
     = landing admin_state.
Proof.
  apply (anonymous_requests_get_no_admin_data sample_env admin_state
           (sample_request HEAD "/Admin/Visits/" [] None)).
  reflexivity.
Defined.

(** ** References that collide *)

Lemma numeral_cons (a : ascii) (s : string) :
  numeral (String a s)
  = (Z.of_nat (nat_of_ascii a) - 48) * 10 ^ Z.of_nat (String.length s) + numeral s.
Proof.
  unfold numeral at 1. cbn [numeral_from]. rewrite numeral_from_shift. ring.
Qed.

(** Two numerals of the same length that denote the same number are the
    same string. *)
Lemma numeral_inj (s1 : string) :
  forall s2, all_digits s1 = true -> all_digits s2 = true ->
             String.length s1 = String.length s2 -> numeral s1 = numeral s2 -> s1 = s2.
Proof.
  induction s1 as [|a1 s1 IH]; intros [|a2 s2] H1 H2 Hlen Hnum;
    try discriminate; [reflexivity|].
  cbn [all_digits] in H1, H2.
  apply andb_true_iff in H1 as [Ha1 H1]. apply andb_true_iff in H2 as [Ha2 H2].
  cbn [String.length] in Hlen. injection Hlen as Hlen.
  rewrite !numeral_cons, <- Hlen in Hnum.
  pose proof (numeral_bound s1 H1) as Hb1.
  pose proof (numeral_bound s2 H2) as Hb2. rewrite <- Hlen in Hb2.
  assert (Hpos : 0 < 10 ^ Z.of_nat (String.length s1)) by (apply Z.pow_pos_nonneg; lia).
  destruct (Z.div_mod_unique (10 ^ Z.of_nat (String.length s1))
              (Z.of_nat (nat_of_ascii a1) - 48) (Z.of_nat (nat_of_ascii a2) - 48)
              (numeral s1) (numeral s2)) as [Hq Hr]; [left; lia | left; lia | lia |].
  f_equal.
  - rewrite <- (ascii_nat_embedding a1), <- (ascii_nat_embedding a2).
    f_equal. lia.
  - now apply IH.
Qed.

Lemma decimal_length_six (n : Z) :
  100000 <= n -> (6 <= String.length (decimal n))%nat.
Proof.
  intros Hn.
  pose proof (numeral_bound (decimal n) (decimal_all_digits n ltac:(lia))) as Hb.
  rewrite numeral_decimal in Hb by lia.
  destruct (Nat.le_gt_cases 6 (String.length (decimal n))) as [Hle|Hgt]; [exact Hle|].
  assert (10 ^ Z.of_nat (String.length (decimal n)) <= 10 ^ 5)
    by (apply Z.pow_le_mono_r; lia).
  lia.
Qed.

Lemma customerNumber_six (now : Z) :
  100000 <= now ->
  exists d, customerNumber now = "JN" ++ d
            /\ String.length d = 6%nat /\ all_digits d = true
            /\ numeral d = now mod 1000000.
Proof.
  intros Hn.
  destruct (customerNumber_digits now ltac:(lia)) as (d & Hd & [_ Hlen] & _ & Hall & Hval).
  exists d. repeat split; try assumption.
  rewrite Number_toString_nonneg in Hlen by lia.
  pose proof (decimal_length_six now Hn). lia.
Qed.

(** X18. Two submissions get the same customer reference exactly when
    their clock readings agree modulo 10^6, that is, when they are a whole
    number of thousand-second spans apart (for readings of six digits or
    more, as every reading after the first hundred seconds of 1970 is). *)
Theorem references_collide_modulo_million (a b : Z) :
  100000 <= a -> 100000 <= b ->
  customerNumber a = customerNumber b <-> a mod 1000000 = b mod 1000000.
Proof.
  intros Ha Hb.
  destruct (customerNumber_six a Ha) as (da & Hda & Hla & Hdiga & Hvala).
  destruct (customerNumber_six b Hb) as (db & Hdb & Hlb & Hdigb & Hvalb).
  rewrite Hda, Hdb. split.
  - intros Heq. cbn [append] in Heq. injection Heq as Heq. congruence.
  - intros Hmod. f_equal. apply numeral_inj; congruence.
Qed.

Lemma references_collide_modulo_million_witness :
  customerNumber 1762093412345 = customerNumber 1762094412345.
Proof.
  apply (references_collide_modulo_million 1762093412345 1762094412345);
    [lia | lia | reflexivity].
Defined.

(** ** A submission is stored whole or not at all *)

(** X19. A submission whose insert the store rejects is answered with a
    server error and leaves the whole state as it was; and an acknowledgment
    is only ever sent for a row that was stored, with the reference and the
    date the row holds. *)
Theorem submission_all_or_nothing (env : Env) (st : State) (req : Request) :
  method req = POST -> path req = "/api/submit" ->
  (store_rejects env = true -> exists e, app env st req = (st, InternalServerError e))
  /\ (forall number date,
        snd (app env st req) = SendJson (SubmitAck number date) ->
        exists row,
          submissions (db (fst (app env st req))) = (submissions (db st) ++ [row])%list
          /\ sub_customer_number row = Some number
          /\ sub_submission_date row = Some date).
Proof.
  intros Hm Hp. rewrite (app_post_api_submit env st req Hm Hp).
  destruct (post_api_submit_cases env req (load_session env st req))
    as [[e He] | (row & Hrow & Hnum & Hdate)].
  - rewrite He. cbn [fst snd finish]. split.
    + intros _. exists e. now rewrite save_load_session.
    + intros number date Hack. discriminate.
  - split.
    + intros Hbad. exfalso. unfold post_api_submit in Hrow.
      destruct (servicesCsv (body req)) as [csv|e]; [|discriminate].
      rewrite Hbad in Hrow.
      match type of Hrow with
      | context [insert_submission true ?n ?d ?args] =>
          destruct (insert_submission true n d args) as [d'|e] eqn:Hins
      end; [|discriminate].
      apply insert_submission_normal in Hins as (_ & _ & _ & Hf & _). discriminate.
    + rewrite Hrow. cbn [fst snd finish]. intros number date Hack.
      injection Hack as <- <-. exists row.
      rewrite save_session_db. cbn. rewrite load_session_state. auto.
Qed.

Lemma submission_all_or_nothing_witness :
  exists e,
    app faulty_env admin_state
      (sample_request POST "/api/submit" [("name", JS.Str "Sara")] None)
    = (admin_state, InternalServerError e).
Proof.
  apply (submission_all_or_nothing faulty_env admin_state
           (sample_request POST "/api/submit" [("name", JS.Str "Sara")] None));
    reflexivity.
Defined.

(** ** The variant with mail notification *)

Lemma run_ext (ms1 ms2 : list Middleware) :
  Forall2 (fun m1 m2 => forall env req c, m1 env req c = m2 env req c) ms1 ms2 ->
  forall env req c, run ms1 env req c = run ms2 env req c.
Proof.
  induction 1 as [|m1 m2 ms1 ms2 Hm _ IH]; intros env req c; [reflexivity|].
  cbn [run]. rewrite Hm. destruct (m2 env req c) as [c' []]; auto.
Qed.

Lemma router_ext (rs1 rs2 : list Route) :
  Forall2 (fun r1 r2 =>
             route_method r1 = route_method r2 /\ route_path r1 = route_path r2
             /\ forall env req c,
                  run (route_handlers r1) env req c = run (route_handlers r2) env req c)
          rs1 rs2 ->
  forall env req c, router rs1 env req c = router rs2 env req c.
Proof.
  induction 1 as [|r1 r2 rs1 rs2 (Hm & Hp & Hh) _ IH]; intros env req c; [reflexivity|].
  cbn [router]. unfold route_matches. rewrite Hm, Hp, Hh.
  destruct (_ && _); [|apply IH].
  destruct (run (route_handlers r2) env req c) as [c' []]; auto.
Qed.

Lemma notifying_same_outcome (pe : Mail.ProcessEnv) (delivery_error : option string)
    (env : Env) (req : Request) (c : Ctx) :
  fst (Mail.post_api_submit_notifying pe delivery_error env req c)
  = post_api_submit env req c.
Proof.
  unfold Mail.post_api_submit_notifying, post_api_submit.
  destruct (servicesCsv (body req)) as [csv|e]; [|reflexivity].
  match goal with
  | |- context [insert_submission ?f ?n ?d ?args] =>
      destruct (insert_submission f n d args)
  end; reflexivity.
Qed.

(** X20. The variant with mail notification answers and stores exactly
    as [server.js] does, for every request, whatever its mail settings and
    whether or not the delivery fails: composing or sending the mail can
    neither change the response nor the state. *)
Theorem mail_variant_answers_the_same (pe : Mail.ProcessEnv)
    (delivery_error : option string) (env : Env) (st : State) (req : Request) :
  Mail.app pe delivery_error env st req = app env st req.
Proof.
  unfold Mail.app, app, Mail.stack, stack.
  assert (Hstack : Forall2 (fun m1 m2 => forall env req c, m1 env req c = m2 env req c)
                     [track_visits; serve_static; router (Mail.routes pe delivery_error)]
                     [track_visits; serve_static; router routes]);
    [|now rewrite (run_ext _ _ Hstack)].
  repeat (apply List.Forall2_cons; [intros; reflexivity|]).
  apply List.Forall2_cons; [|apply List.Forall2_nil].
  apply router_ext. unfold Mail.routes, routes.
  repeat (apply List.Forall2_cons; [repeat split; intros; reflexivity|]).
  apply List.Forall2_cons.
  { cbn [route_method route_path route_handlers]. repeat split.
    intros env' req' c'. rewrite !run_singleton. apply notifying_same_outcome. }
  repeat (apply List.Forall2_cons; [repeat split; intros; reflexivity|]).
  apply List.Forall2_nil.
Qed.

Lemma mailer_none_iff (pe : Mail.ProcessEnv) :
  Mail.mailer pe = None <->
  or_string (Mail.SMTP_HOST pe) "" = "" \/ or_string (Mail.SMTP_USER pe) "" = ""
  \/ or_string (Mail.SMTP_PASS pe) "" = "".
Proof.
  unfold Mail.mailer.
  destruct (Mail.SMTP_HOST pe) as [[|h hs]|]; cbn; [tauto| |tauto].
  destruct (Mail.SMTP_USER pe) as [[|u us]|]; cbn; [tauto| |tauto].
  destruct (Mail.SMTP_PASS pe) as [[|w ws]|]; cbn; [tauto| |tauto].
  split; [discriminate | intros [H | [H | H]]; discriminate].
Qed.

(** X21. No mail without settings and none for a failed request: the
    transport exists only when host, user and password are all set and not
    empty; without it, or without a recipient, the submission handler sends
    nothing and logs nothing; and a request that ends in an error sends
    nothing either. *)
Theorem no_mail_without_settings (pe : Mail.ProcessEnv) (delivery_error : option string)
    (env : Env) (req : Request) (c : Ctx) :
  (Mail.mailer pe = None <->
   or_string (Mail.SMTP_HOST pe) "" = "" \/ or_string (Mail.SMTP_USER pe) "" = ""
   \/ or_string (Mail.SMTP_PASS pe) "" = "")
  /\ (Mail.mailer pe = None \/ Mail.CONTACT_TO pe = "" ->
      snd (Mail.post_api_submit_notifying pe delivery_error env req c) = [])
  /\ (forall c' e,
        fst (Mail.post_api_submit_notifying pe delivery_error env req c) = (c', Raise e) ->
        snd (Mail.post_api_submit_notifying pe delivery_error env req c) = []).
Proof.
  split; [apply mailer_none_iff|]. unfold Mail.post_api_submit_notifying. split.
  - intros Hoff.
    destruct (servicesCsv (body req)) as [csv|e]; [|reflexivity].
    match goal with
    | |- context [insert_submission ?f ?n ?d ?args] =>
        destruct (insert_submission f n d args)
    end; [|reflexivity].
    cbn [snd]. unfold Mail.notify.
    destruct Hoff as [-> | Hto]; [reflexivity|].
    destruct (Mail.mailer pe); [|reflexivity]. now rewrite Hto.
  - intros c' e.
    destruct (servicesCsv (body req)) as [csv|e0]; [|reflexivity].
    match goal with
    | |- context [insert_submission ?f ?n ?d ?args] =>
        destruct (insert_submission f n d args)
    end; [discriminate | reflexivity].
Qed.

Lemma no_mail_without_settings_witness :
  snd (Mail.post_api_submit_notifying no_mail_env None sample_env
         (sample_request POST "/api/submit" [("name", JS.Str "Sara")] None)
         (load_session sample_env empty_state
            (sample_request POST "/api/submit" [("name", JS.Str "Sara")] None)))
  = [].
Proof.
  apply (no_mail_without_settings no_mail_env None sample_env
           (sample_request POST "/api/submit" [("name", JS.Str "Sara")] None)).
  left. reflexivity.
Defined.

Lemma template_throws (parts : list (Completion string)) :
  (exists e, In (Throw e) parts) -> exists e, Mail.template parts = Throw e.
Proof.
  induction parts as [|p parts IH]; intros [e Hin]; [contradiction|].
  cbn [Mail.template]. destruct p as [s|e0]; [|cbn; eauto].
  destruct Hin as [Heq | Hin]; [discriminate|].
  destruct IH as [e' He']; [eauto|]. rewrite He'. cbn. eauto.
Qed.

Lemma call_replace_throws (v : JS.Value) :
  truthy v = true -> is_string v = false ->
  exists e, Mail.call_replace (JS.or v (JS.Str "")) = Throw e.
Proof.
  intros Ht Hs. unfold JS.or. rewrite Ht.
  destruct v; try discriminate; cbn; eauto.
Qed.

(** X22. A stored submission with text fields is announced once: with a
    transport and a recipient, the handler hands exactly one mail to the
    transport, addressed to the recipient, sent from [SMTP_FROM] (or else
    the SMTP user), with the reference and the name in a trimmed subject
    line; a failed delivery only adds a warning to the log. *)
Theorem stored_submission_is_announced (pe : Mail.ProcessEnv)
    (delivery_error : option string) (env : Env) (req : Request) (c : Ctx)
    (services : list string) (transport : Mail.Transport) :
  store_rejects env = false ->
  text_field (JS.get (body req) "name") ->
  text_field (JS.get (body req) "phone") ->
  text_field (JS.get (body req) "email") ->
  text_field (JS.get (body req) "message") ->
  services_shape (JS.get (body req) "services") services ->
  Mail.mailer pe = Some transport -> Mail.CONTACT_TO pe <> "" ->
  exists m,
    snd (Mail.post_api_submit_notifying pe delivery_error env req c)
      = Mail.SendMail transport m
        :: match delivery_error with
           | None => []
           | Some e => [Mail.Warn "Email send failed:" e]
           end
    /\ Mail.mail_to m = Mail.CONTACT_TO pe
    /\ Mail.mail_from m = or_string (Mail.SMTP_FROM pe) (Mail.auth_user transport)
    /\ Mail.subject m
       = Mail.trim ("New contact (#" ++ customerNumber (Date_now env) ++ ") - "
                    ++ text_of (JS.get (body req) "name")).
Proof.
  intros Hok Hname Hphone Hemail Hmessage Hservices Hmailer Hto.
  unfold Mail.post_api_submit_notifying.
  rewrite (servicesCsv_documented _ _ Hservices).
  rewrite (or_text_field _ Hname), (or_text_field _ Hphone),
    (or_text_field _ Hemail), (or_text_field _ Hmessage), Hok.
  unfold insert_submission, bind_parameters.
  cbn [bind_arguments bind_value JS.bind length Nat.ltb Nat.leb map text_affinity snd].
  unfold Mail.notify. rewrite Hmailer.
  rewrite (or_text_field _ Hname), (or_text_field _ Hphone),
    (or_text_field _ Hemail), (or_text_field _ Hmessage).
  destruct (Mail.CONTACT_TO pe) as [|a to] eqn:Hcontact; [contradiction|].
  cbn [Mail.template Mail.lit JS.toString Mail.call_replace JS.bind].
  eexists. split; [reflexivity|]. cbn [Mail.mail_to Mail.mail_from Mail.subject].
  repeat split. now rewrite append_nil_r.
Qed.

Lemma stored_submission_is_announced_witness :
  exists m,
    snd (Mail.post_api_submit_notifying mail_env (Some "connection timed out") sample_env
           (sample_request POST "/api/submit" [("name", JS.Str "Sara ")] None)
           (load_session sample_env empty_state
              (sample_request POST "/api/submit" [("name", JS.Str "Sara ")] None)))
      = [Mail.SendMail
           {| Mail.host := "smtp.example.org"; Mail.port := Mail.Exactly 465; Mail.secure := true;
              Mail.auth_user := "site@example.org"; Mail.auth_pass := "secret" |} m;
         Mail.Warn "Email send failed:" "connection timed out"]
    /\ Mail.mail_to m = "owner@example.org"
    /\ Mail.mail_from m = "site@example.org"
    /\ Mail.subject m = "New contact (#JN412348) - Sara".
Proof.
  apply (stored_submission_is_announced mail_env (Some "connection timed out") sample_env
           (sample_request POST "/api/submit" [("name", JS.Str "Sara ")] None)
           (load_session sample_env empty_state
              (sample_request POST "/api/submit" [("name", JS.Str "Sara ")] None))
           []).
  - reflexivity.
  - right. exists "Sara ". reflexivity.
  - left. reflexivity.
  - left. reflexivity.
  - left. reflexivity.
  - exact services_absent.
  - reflexivity.
  - discriminate.
Defined.

(** X23. A message that is not text costs the mail, not the submission:
    when the message field is a truthy value that is not a string and the
    request is nevertheless stored and acknowledged, composing the mail
    throws inside the [try] block, so with a transport and a recipient the
    only trace is one ["Email error:"] warning and no mail is sent. *)
Theorem non_text_message_skips_mail (pe : Mail.ProcessEnv) (delivery_error : option string)
    (env : Env) (req : Request) (c c' : Ctx) (r : Response) (transport : Mail.Transport) :
  truthy (JS.get (body req) "message") = true ->
  is_string (JS.get (body req) "message") = false ->
  Mail.mailer pe = Some transport -> Mail.CONTACT_TO pe <> "" ->
  fst (Mail.post_api_submit_notifying pe delivery_error env req c) = (c', Respond r) ->
  exists number date warning,
    r = SendJson (SubmitAck number date)
    /\ snd (Mail.post_api_submit_notifying pe delivery_error env req c)
       = [Mail.Warn "Email error:" warning].
Proof.
  intros Ht Hs Hmailer Hto. unfold Mail.post_api_submit_notifying.
  destruct (servicesCsv (body req)) as [csv|e]; [|discriminate].
  match goal with
  | |- context [insert_submission ?f ?n ?d ?args] =>
      destruct (insert_submission f n d args)
  end; [|discriminate].
  cbn [fst snd]. intros Hresp. injection Hresp as _ <-.
  do 2 eexists.
  assert (Hthrow : exists e,
            Mail.notify pe delivery_error (JS.get (body req) "name")
              (JS.get (body req) "phone") (JS.get (body req) "email")
              (JS.get (body req) "message") csv (customerNumber (Date_now env))
              (locale_now env) = Throw e).
  { unfold Mail.notify. rewrite Hmailer.
    destruct (Mail.CONTACT_TO pe) as [|ch rcpt]; [contradiction|].
    destruct (call_replace_throws _ Ht Hs) as [e0 He0]. rewrite He0.
    destruct (Mail.template _) as [subject_text|e]; [|cbn; eauto].
    cbn [JS.bind].
    destruct (Mail.template _) as [text_body|e]; [|cbn; eauto].
    cbn [JS.bind].
    match goal with
    | |- context [Mail.template ?parts] =>
        destruct (template_throws parts) as [e He]
    end.
    - exists e0. cbn [In]. tauto.
    - rewrite He. cbn. eauto. }
  destruct Hthrow as [e ->]. eexists. split; reflexivity.
Qed.

Lemma non_text_message_skips_mail_witness :
  exists number date warning,
    SendJson (SubmitAck "JN412348" "1405/8/11, 17:53:32") = SendJson (SubmitAck number date)
    /\ snd (Mail.post_api_submit_notifying mail_env None sample_env
              (sample_request POST "/api/submit" [("message", JS.Num 5)] None)
              (load_session sample_env empty_state
                 (sample_request POST "/api/submit" [("message", JS.Num 5)] None)))
       = [Mail.Warn "Email error:" warning].
Proof.
  eapply (non_text_message_skips_mail mail_env None sample_env
            (sample_request POST "/api/submit" [("message", JS.Num 5)] None)
            (load_session sample_env empty_state
               (sample_request POST "/api/submit" [("message", JS.Num 5)] None)));
    try reflexivity.
  discriminate.
Defined.

(** ** The transport settings *)

Lemma digit_prefix_all (s : string) : all_digits s = true -> Mail.digit_prefix s = s.
Proof.
  induction s as [|a s IH]; [reflexivity|]. cbn [all_digits Mail.digit_prefix].
  intros [Ha Hs]%andb_true_iff. rewrite Ha. now rewrite IH.
Qed.

Lemma strip_space_digit (a : ascii) (rest : string) :
  is_digit a = true -> Mail.strip_space (String a rest) = None.
Proof.
  destruct a as [[] [] [] [] [] [] [] []]; try discriminate; intros _;
    destruct rest as [|b [|c rest]]; reflexivity.
Qed.

Lemma sign_of_digit (a : ascii) (rest : string) :
  is_digit a = true ->
  match String a rest with
  | String "-" r => (true, r)
  | String "+" r => (false, r)
  | _ => (false, String a rest)
  end = (false, String a rest).
Proof. destruct a as [[] [] [] [] [] [] [] []]; try discriminate; reflexivity. Qed.

(** [parseInt] reads back what [toString] wrote, as long as the number is
    one a double holds exactly. *)
Lemma parseInt_decimal (n : Z) :
  0 <= n <= Mail.exact_bound -> Mail.parseInt (decimal n) = Mail.Exactly n.
Proof.
  intros [Hn Hbound].
  pose proof (decimal_all_digits n Hn) as Hall.
  pose proof (decimal_nonempty n Hn) as Hlen.
  pose proof (numeral_decimal n Hn) as Hval.
  destruct (decimal n) as [|a rest] eqn:Hd; [cbn in Hlen; lia|].
  assert (Ha : is_digit a = true).
  { cbn [all_digits] in Hall. now apply andb_true_iff in Hall as [Ha _]. }
  unfold Mail.parseInt, Mail.trimStart. cbn [String.length Mail.trim_start_from].
  rewrite (strip_space_digit a rest Ha), (sign_of_digit a rest Ha).
  rewrite (digit_prefix_all _ Hall). cbv zeta. rewrite Hval.
  destruct (Z.ltb_spec Mail.exact_bound n); [lia | reflexivity].
Qed.

(** X24. The transport settings and their defaults: when host, user and
    password are set, the transport uses them as given; the port is 587
    when [SMTP_PORT] is missing or empty and the number written when it is
    the decimal numeral of a number up to 2^53, the range in which a double
    holds every whole number; TLS is on exactly when [SMTP_SECURE] is the
    string ["true"]; and the recipient is [CONTACT_TO], or else [SMTP_TO],
    or else none. *)
Theorem transport_settings (pe : Mail.ProcessEnv) (transport : Mail.Transport) :
  Mail.mailer pe = Some transport ->
  Mail.SMTP_HOST pe = Some (Mail.host transport)
  /\ Mail.SMTP_USER pe = Some (Mail.auth_user transport)
  /\ Mail.SMTP_PASS pe = Some (Mail.auth_pass transport)
  /\ (or_string (Mail.SMTP_PORT pe) "" = "" -> Mail.port transport = Mail.Exactly 587)
  /\ (forall n, 0 <= n <= 2 ^ 53 -> Mail.SMTP_PORT pe = Some (Number_toString n) ->
        Mail.port transport = Mail.Exactly n)
  /\ (Mail.secure transport = true <-> Mail.SMTP_SECURE pe = Some "true")
  /\ (forall to, Mail.CONTACT_TO_variable pe = Some to -> to <> "" ->
        Mail.CONTACT_TO pe = to)
  /\ (or_string (Mail.CONTACT_TO_variable pe) "" = "" ->
      Mail.CONTACT_TO pe = or_string (Mail.SMTP_TO pe) "").
Proof.
  unfold Mail.mailer.
  destruct (Mail.SMTP_HOST pe) as [[|h hs]|]; try discriminate.
  destruct (Mail.SMTP_USER pe) as [[|u us]|]; try discriminate.
  destruct (Mail.SMTP_PASS pe) as [[|w ws]|]; try discriminate.
  intros H. injection H as <-. cbn [Mail.host Mail.auth_user Mail.auth_pass
                                       Mail.port Mail.secure].
  split; [reflexivity|]. split; [reflexivity|]. split; [reflexivity|].
  split; [|split; [|split; [|split]]].
  - unfold Mail.smtpPort. intros Hport.
    destruct (Mail.SMTP_PORT pe) as [[|a s]|]; try discriminate; reflexivity.
  - intros n [Hn Hbound] Hport. unfold Mail.smtpPort. rewrite Hport.
    rewrite Number_toString_nonneg by assumption.
    pose proof (decimal_nonempty n Hn) as Hlen.
    destruct (decimal n) as [|a s] eqn:Hd; [cbn in Hlen; lia|].
    cbn [or_string]. rewrite <- Hd. apply parseInt_decimal.
    change Mail.exact_bound with (2 ^ 53). lia.
  - unfold Mail.smtpSecure. split.
    + intros Hs. apply String.eqb_eq in Hs.
      destruct (Mail.SMTP_SECURE pe) as [[|a s]|]; cbn [or_string] in Hs;
        try discriminate. now rewrite Hs.
    + intros ->. reflexivity.
  - intros to Hto Hne. unfold Mail.CONTACT_TO. rewrite Hto.
    now apply or_string_nonempty.
  - intros Hnone. unfold Mail.CONTACT_TO.
    destruct (Mail.CONTACT_TO_variable pe) as [[|a s]|]; try discriminate; reflexivity.
Qed.

Lemma transport_settings_witness :
  Mail.port {| Mail.host := "smtp.example.org"; Mail.port := Mail.Exactly 465;
               Mail.secure := true; Mail.auth_user := "site@example.org";
               Mail.auth_pass := "secret" |} = Mail.Exactly 465.
Proof.
  destruct (transport_settings mail_env
              {| Mail.host := "smtp.example.org"; Mail.port := Mail.Exactly 465;
                 Mail.secure := true; Mail.auth_user := "site@example.org";
                 Mail.auth_pass := "secret" |} eq_refl)
    as (_ & _ & _ & _ & Hport & _).
  apply (Hport 465); [lia | reflexivity].
Defined.
